(** * cassandra-crd: the CassandraCluster controller

    A shallow embedding of the reconciliation controller of
    [pkg/apis/cassandra/v1alpha1/types.go] (package [controller]):
    [NewController]'s event handlers, [processNextWorkItem], [syncHandler],
    [updateCassandraClusterStatus], [enqueueCassandraCluster], [handleObject]
    and the three resource builders.

    The controller talks to collaborators that live outside the repository
    (informer caches, the typed clientsets, the event recorder, the work
    queue, the logger).  Every call to one of them is an explicit node of a
    program tree; running a tree against an environment yields the result
    together with the trace of calls and answers.  Objects of kind
    CassandraCluster are reached through pointers into a heap, because the
    lister hands out pointers into the shared informer cache. *)

From Stdlib Require Import ZArith Ascii DecimalString.
From stdpp Require Import base strings list gmap.

Open Scope string_scope.

(** ** Data model *)

(** [k8s.io/apimachinery/pkg/apis/meta/v1]: the fields the controller reads
    or writes.  A Go [*bool] is an [option bool], a [map[string]string] a
    [gmap string string]. *)
Module metav1.

Record TypeMeta := {
  TypeMeta_Kind : string;
  TypeMeta_APIVersion : string;
}.

Record OwnerReference := {
  OwnerReference_APIVersion : string;
  OwnerReference_Kind : string;
  OwnerReference_Name : string;
  OwnerReference_UID : string;
  OwnerReference_Controller : option bool;
  OwnerReference_BlockOwnerDeletion : option bool;
}.

Record ObjectMeta := {
  Name : string;
  Namespace : string;
  SelfLink : string;
  UID : string;
  ResourceVersion : string;
  Labels : gmap string string;
  Annotations : gmap string string;
  OwnerReferences : list OwnerReference;
}.

Record LabelSelector := {
  MatchLabels : gmap string string;
}.

Record GroupVersionKind := {
  Group : string;
  Version : string;
  Kind : string;
}.

(** [schema.GroupVersion.String]: "group/version", or the bare version for
    the legacy group. *)
Definition GroupVersion_String (gvk : GroupVersionKind) : string :=
  if String.eqb (Group gvk) EmptyString then Version gvk
  else Group gvk +:+ "/" +:+ Version gvk.

(** [metav1.GetControllerOf]: the first owner reference whose
    [Controller] pointer is set and true. *)
Fixpoint firstController (refs : list OwnerReference) : option OwnerReference :=
  match refs with
  | [] => None
  | ref :: rest =>
      match OwnerReference_Controller ref with
      | Some true => Some ref
      | _ => firstController rest
      end
  end.

Definition GetControllerOf (controllee : ObjectMeta) : option OwnerReference :=
  firstController (OwnerReferences controllee).

(** [metav1.IsControlledBy]: the controller reference carries the owner's
    UID. *)
Definition IsControlledBy (obj owner : ObjectMeta) : bool :=
  match GetControllerOf obj with
  | None => false
  | Some ref => String.eqb (OwnerReference_UID ref) (UID owner)
  end.

(** [metav1.NewControllerRef]. *)
Definition NewControllerRef (owner : ObjectMeta) (gvk : GroupVersionKind)
  : OwnerReference :=
  {| OwnerReference_APIVersion := GroupVersion_String gvk;
     OwnerReference_Kind := Kind gvk;
     OwnerReference_Name := Name owner;
     OwnerReference_UID := UID owner;
     OwnerReference_Controller := Some true;
     OwnerReference_BlockOwnerDeletion := Some true |}.

End metav1.

(** [k8s.io/api/core/v1]: the part of the Service and Pod schema that the
    builders fill in.  Fields the builders leave out keep Go's zero value
    and are not represented. *)
Module corev1.

Definition EventTypeNormal : string := "Normal".
Definition EventTypeWarning : string := "Warning".
Definition ProtocolTCP : string := "TCP".
Definition ServiceTypeClusterIP : string := "ClusterIP".

(** [intstr.IntOrString]. *)
Inductive IntOrString :=
| FromInt (val : Z)
| FromString (val : string).

Record ServicePort := {
  ServicePort_Name : string;
  ServicePort_Port : Z;
  ServicePort_TargetPort : IntOrString;
  ServicePort_Protocol : string;
}.

Record ServiceSpec := {
  ServiceSpec_Ports : list ServicePort;
  ServiceSpec_Selector : gmap string string;
  ServiceSpec_ClusterIP : string;
  ServiceSpec_Type : string;
}.

Record Service := {
  Service_ObjectMeta : metav1.ObjectMeta;
  Service_Spec : ServiceSpec;
}.

Record ObjectFieldSelector := { FieldPath : string }.

Record EnvVarSource := { FieldRef : option ObjectFieldSelector }.

Record EnvVar := {
  EnvVar_Name : string;
  EnvVar_Value : string;
  EnvVar_ValueFrom : option EnvVarSource;
}.

Record ContainerPort := {
  ContainerPort_Name : string;
  ContainerPort_ContainerPort : Z;
}.

Record Capabilities := { Add : list string }.

Record SecurityContext := { SecurityContext_Capabilities : option Capabilities }.

Record ExecAction := { Command : list string }.

Record Handler := { Exec : option ExecAction }.

Record Probe := {
  Probe_Handler : Handler;
  InitialDelaySeconds : Z;
  TimeoutSeconds : Z;
}.

Record Lifecycle := { PreStop : option Handler }.

Record Container := {
  Container_Name : string;
  Image : string;
  Env : list EnvVar;
  Container_Ports : list ContainerPort;
  Container_SecurityContext : option SecurityContext;
  ReadinessProbe : option Probe;
  Container_Lifecycle : option Lifecycle;
}.

Record PodSpec := { Containers : list Container }.

Record PodTemplateSpec := {
  PodTemplateSpec_ObjectMeta : metav1.ObjectMeta;
  PodTemplateSpec_Spec : PodSpec;
}.

End corev1.

(** [k8s.io/api/apps/v1]. *)
Module appsv1.

Record StatefulSetSpec := {
  ServiceName : string;
  Replicas : option Z;
  Selector : option metav1.LabelSelector;
  Template : corev1.PodTemplateSpec;
}.

Record StatefulSetStatus := {
  CurrentReplicas : Z;
}.

Record StatefulSet := {
  StatefulSet_ObjectMeta : metav1.ObjectMeta;
  Spec : StatefulSetSpec;
  Status : StatefulSetStatus;
}.

End appsv1.

(** [pkg/apis/cassandra/v1alpha1]: the CassandraCluster resource.
    [Replicas] is a [*int32]. *)
Module cassandraapi.

Record CassandraClusterSpec := {
  StatefulSetName : string;
  Replicas : option Z;
}.

Record CassandraClusterStatus := {
  CurrentReplicas : Z;
}.

Record CassandraCluster := {
  CassandraCluster_TypeMeta : metav1.TypeMeta;
  CassandraCluster_ObjectMeta : metav1.ObjectMeta;
  Spec : CassandraClusterSpec;
  Status : CassandraClusterStatus;
}.

Definition version : string := "v1alpha1".
Definition CCKind : string := "CassandraCluster".

End cassandraapi.

Abbreviation CassandraCluster := cassandraapi.CassandraCluster.
Abbreviation StatefulSet := appsv1.StatefulSet.
Abbreviation Service := corev1.Service.

(** What the sources do not fix: the API group name (the constant
    [cassandra.GroupName] is declared outside the files at hand) and two
    renderings of Go's [fmt] package that depend on the characters of the
    operand: the [%q] verb, and the text [fmt.Errorf] produces for a format
    string that is passed without operands. *)
Class Settings := {
  GroupName : string;
  fmt_q : string -> string;
  fmt_noargs : string -> string;
}.

(** ** Errors *)

(** [metav1.StatusReason] of an API error. *)
Inductive StatusReason :=
| StatusReasonUnknown
| StatusReasonNotFound
| StatusReasonAlreadyExists
| StatusReasonConflict
| StatusReasonInternalError
| StatusReasonServerTimeout.

(** A Go [error] value that is not nil: an API status error or a plain
    [fmt.Errorf] error. *)
Inductive error :=
| StatusError (reason : StatusReason) (message : string)
| errorString (s : string).

(** [errors.IsNotFound]; nil is not a not-found error. *)
Definition IsNotFound (err : option error) : bool :=
  match err with
  | Some (StatusError StatusReasonNotFound _) => true
  | _ => false
  end.

Definition Error (err : error) : string :=
  match err with
  | StatusError _ message => message
  | errorString s => s
  end.

(** A Go pair [(T, error)] as returned by listers and clients. *)
Inductive Result (T : Type) :=
| Ok (val : T)
| Err (err : error).
Arguments Ok {T} val.
Arguments Err {T} err.

Definition err_of {T} (r : Result T) : option error :=
  match r with
  | Ok _ => None
  | Err err => Some err
  end.

(** ** Keys *)

(** [strings.Split(key, "/")]. *)
Fixpoint Split_slash (s : string) : list string :=
  match s with
  | EmptyString => [EmptyString]
  | String c rest =>
      let parts := Split_slash rest in
      if Ascii.eqb c "/"%char then EmptyString :: parts
      else match parts with
           | p :: ps => String c p :: ps
           | [] => [String c EmptyString]
           end
  end.

(** [cache.SplitMetaNamespaceKey]. *)
Definition SplitMetaNamespaceKey `{Settings} (key : string)
  : Result (string * string) :=
  match Split_slash key with
  | [name] => Ok (EmptyString, name)
  | [namespace; name] => Ok (namespace, name)
  | _ => Err (errorString ("unexpected key format: " +:+ fmt_q key))
  end.

(** The key [cache.MetaNamespaceKeyFunc] computes from object metadata. *)
Definition MetaNamespaceKey (meta : metav1.ObjectMeta) : string :=
  if (0 <? String.length (metav1.Namespace meta))%nat
  then metav1.Namespace meta +:+ "/" +:+ metav1.Name meta
  else metav1.Name meta.

(** ** Resource builders *)

Section Builders.
Context `{Settings}.

(** [cassandraapi.SchemeGroupVersion] with kind "CassandraCluster". *)
Definition controllerKind : metav1.GroupVersionKind :=
  {| metav1.Group := GroupName;
     metav1.Version := cassandraapi.version;
     metav1.Kind := "CassandraCluster" |}.

Definition controllerLabels (cassandracluster : CassandraCluster)
  : gmap string string :=
  {[ "app" := "cassandra";
     "controller" := metav1.Name (cassandraapi.CassandraCluster_ObjectMeta cassandracluster) ]}.

Definition cqlServicePorts : list corev1.ServicePort :=
  [ {| corev1.ServicePort_Name := "cql";
       corev1.ServicePort_Port := 9042;
       corev1.ServicePort_TargetPort := corev1.FromInt 9042;
       corev1.ServicePort_Protocol := corev1.ProtocolTCP |} ].

(** [newStatefulSet]. *)
Definition newStatefulSet (cassandracluster : CassandraCluster) : StatefulSet :=
  let meta := cassandraapi.CassandraCluster_ObjectMeta cassandracluster in
  let spec := cassandraapi.Spec cassandracluster in
  let labels := controllerLabels cassandracluster in
  {| appsv1.StatefulSet_ObjectMeta :=
       {| metav1.Name := cassandraapi.StatefulSetName spec;
          metav1.Namespace := metav1.Namespace meta;
          metav1.SelfLink := EmptyString;
          metav1.UID := EmptyString;
          metav1.ResourceVersion := EmptyString;
          metav1.Labels := ∅;
          metav1.Annotations := ∅;
          metav1.OwnerReferences := [ metav1.NewControllerRef meta controllerKind ] |};
     appsv1.Spec :=
       {| appsv1.ServiceName := cassandraapi.StatefulSetName spec +:+ "-unready";
          appsv1.Replicas := cassandraapi.Replicas spec;
          appsv1.Selector := Some {| metav1.MatchLabels := labels |};
          appsv1.Template :=
            {| corev1.PodTemplateSpec_ObjectMeta :=
                 {| metav1.Name := EmptyString;
                    metav1.Namespace := EmptyString;
                    metav1.SelfLink := EmptyString;
                    metav1.UID := EmptyString;
                    metav1.ResourceVersion := EmptyString;
                    metav1.Labels := labels;
                    metav1.Annotations := ∅;
                    metav1.OwnerReferences := [] |};
               corev1.PodTemplateSpec_Spec :=
                 {| corev1.Containers :=
                      [ {| corev1.Container_Name := "cassandra";
                           corev1.Image := "gcr.io/google-samples/cassandra:v13";
                           corev1.Env :=
                             [ {| corev1.EnvVar_Name := "CASSANDRA_SEEDS";
                                  corev1.EnvVar_Value :=
                                    cassandraapi.StatefulSetName spec +:+ "-0."
                                    +:+ cassandraapi.StatefulSetName spec +:+ "-unready."
                                    +:+ metav1.Namespace meta +:+ ".svc.cluster.local";
                                  corev1.EnvVar_ValueFrom := None |};
                               {| corev1.EnvVar_Name := "MAX_HEAP_SIZE";
                                  corev1.EnvVar_Value := "512M";
                                  corev1.EnvVar_ValueFrom := None |};
                               {| corev1.EnvVar_Name := "HEAP_NEWSIZE";
                                  corev1.EnvVar_Value := "100M";
                                  corev1.EnvVar_ValueFrom := None |};
                               {| corev1.EnvVar_Name := "POD_IP";
                                  corev1.EnvVar_Value := EmptyString;
                                  corev1.EnvVar_ValueFrom :=
                                    Some {| corev1.FieldRef :=
                                              Some {| corev1.FieldPath := "status.podIP" |} |} |} ];
                           corev1.Container_Ports :=
                             [ {| corev1.ContainerPort_Name := "cql";
                                  corev1.ContainerPort_ContainerPort := 9042 |};
                               {| corev1.ContainerPort_Name := "intra-node";
                                  corev1.ContainerPort_ContainerPort := 7001 |};
                               {| corev1.ContainerPort_Name := "jmx";
                                  corev1.ContainerPort_ContainerPort := 7099 |} ];
                           corev1.Container_SecurityContext :=
                             Some {| corev1.SecurityContext_Capabilities :=
                                       Some {| corev1.Add := ["IPC_LOCK"] |} |};
                           corev1.ReadinessProbe :=
                             Some {| corev1.Probe_Handler :=
                                       {| corev1.Exec :=
                                            Some {| corev1.Command :=
                                                      ["/bin/bash"; "-c"; "/ready-probe.sh"] |} |};
                                     corev1.InitialDelaySeconds := 15;
                                     corev1.TimeoutSeconds := 5 |};
                           corev1.Container_Lifecycle :=
                             Some {| corev1.PreStop :=
                                       Some {| corev1.Exec :=
                                                 Some {| corev1.Command :=
                                                           ["/bin/sh"; "-c"; "nodetool"; "drain"] |} |} |}
                        |} ] |} |} |};
     appsv1.Status := {| appsv1.CurrentReplicas := 0 |} |}.

(** [newHeadLessServiceUnready]. *)
Definition newHeadLessServiceUnready (cassandracluster : CassandraCluster) : Service :=
  let meta := cassandraapi.CassandraCluster_ObjectMeta cassandracluster in
  let labels := controllerLabels cassandracluster in
  {| corev1.Service_ObjectMeta :=
       {| metav1.Name :=
            cassandraapi.StatefulSetName (cassandraapi.Spec cassandracluster) +:+ "-unready";
          metav1.Namespace := metav1.Namespace meta;
          metav1.SelfLink := EmptyString;
          metav1.UID := EmptyString;
          metav1.ResourceVersion := EmptyString;
          metav1.Labels := labels;
          metav1.Annotations :=
            {[ "service.alpha.kubernetes.io/tolerate-unready-endpoints" := "true" ]};
          metav1.OwnerReferences := [ metav1.NewControllerRef meta controllerKind ] |};
     corev1.Service_Spec :=
       {| corev1.ServiceSpec_Ports := cqlServicePorts;
          corev1.ServiceSpec_Selector := labels;
          corev1.ServiceSpec_ClusterIP := "None";
          corev1.ServiceSpec_Type := corev1.ServiceTypeClusterIP |} |}.

(** [newHeadLessService]. *)
Definition newHeadLessService (cassandracluster : CassandraCluster) : Service :=
  let meta := cassandraapi.CassandraCluster_ObjectMeta cassandracluster in
  let labels := controllerLabels cassandracluster in
  {| corev1.Service_ObjectMeta :=
       {| metav1.Name := cassandraapi.StatefulSetName (cassandraapi.Spec cassandracluster);
          metav1.Namespace := metav1.Namespace meta;
          metav1.SelfLink := EmptyString;
          metav1.UID := EmptyString;
          metav1.ResourceVersion := EmptyString;
          metav1.Labels := labels;
          metav1.Annotations := ∅;
          metav1.OwnerReferences := [ metav1.NewControllerRef meta controllerKind ] |};
     corev1.Service_Spec :=
       {| corev1.ServiceSpec_Ports := cqlServicePorts;
          corev1.ServiceSpec_Selector := labels;
          corev1.ServiceSpec_ClusterIP := "None";
          corev1.ServiceSpec_Type := corev1.ServiceTypeClusterIP |} |}.

End Builders.

(** ** Programs over external calls *)

(** A [*CassandraCluster]: an index into the heap of CassandraCluster
    objects.  The heap grows at its end; nothing is ever freed. *)
Abbreviation ptr := nat.
Abbreviation Heap := (list CassandraCluster).

(** What comes off the work queue ([interface{}]): a string key, or
    anything else, kept by its Go-syntax rendering ([%#v]). *)
Inductive item :=
| ItemString (key : string)
| ItemOther (gosyntax : string).

(** What an informer hands to an event handler ([interface{}]).  A
    StatefulSet is only ever read by the controller and is carried by
    value. *)
Inductive Obj :=
| ObjCassandraCluster (p : ptr)
| ObjStatefulSet (s : StatefulSet)
| ObjDeletedFinalStateUnknown (key : string) (obj : Obj)
| ObjExplicitKey (key : string)
| ObjOther.

(** The calls the controller makes to its collaborators, indexed by the
    type of the answer. *)
Inductive Call : Type -> Type :=
| HandleError (err : error) : Call unit
| GlogInfof (verbosity : nat) (msg : string) : Call unit
| CassandraClustersListerGet (namespace name : string) : Call (Result ptr)
| StatefulSetsListerGet (namespace name : string) : Call (Result StatefulSet)
| ServicesGet (namespace name : string) : Call (Result Service)
| ServicesCreate (namespace : string) (service : Service) : Call (Result Service)
| StatefulSetsCreate (namespace : string) (statefulset : StatefulSet)
    : Call (Result StatefulSet)
| StatefulSetsUpdate (namespace : string) (statefulset : StatefulSet)
    : Call (Result StatefulSet)
| CassandraClustersUpdate (namespace : string) (p : ptr) (obj : CassandraCluster)
    : Call (Result CassandraCluster)
| RecorderEvent (object : ptr) (eventtype reason message : string) : Call unit
| WorkqueueGet : Call (item * bool)
| WorkqueueDone (i : item) : Call unit
| WorkqueueForget (i : item) : Call unit
| WorkqueueAddRateLimited (i : item) : Call unit.

(** A finite program: it returns, or makes a call and continues with the
    answer. *)
Inductive Prog (R : Type) : Type :=
| Ret (r : R)
| Vis {X : Type} (c : Call X) (k : X -> Prog R).
Arguments Ret {R} r.
Arguments Vis {R X} c k.

Fixpoint pbind {A B : Type} (p : Prog A) (f : A -> Prog B) : Prog B :=
  match p with
  | Ret a => f a
  | Vis c k => Vis c (fun x => pbind (k x) f)
  end.

(** A Go function body returns or panics. *)
Inductive outcome (A : Type) : Type :=
| Returns (a : A)
| Panics (reason : string).
Arguments Returns {A} a.
Arguments Panics {A} reason.

(** The controller monad: heap passing over programs, panics cut the rest
    of the body short. *)
Definition M (A : Type) : Type := Heap -> Prog (outcome A * Heap).

Definition ret {A} (a : A) : M A := fun h => Ret (Returns a, h).

Definition bind {A B} (m : M A) (f : A -> M B) : M B :=
  fun h => pbind (m h) (fun oh =>
    match fst oh with
    | Returns a => f a (snd oh)
    | Panics reason => Ret (Panics reason, snd oh)
    end).

Notation "x <- m ;; k" := (bind m (fun x => k))
  (at level 100, m at next level, right associativity).
Notation "m ;;; k" := (bind m (fun _ => k))
  (at level 100, right associativity).

Definition call {X} (c : Call X) : M X :=
  fun h => Vis c (fun x => Ret (Returns x, h)).

Definition panic {A} (reason : string) : M A :=
  fun h => Ret (Panics reason, h).

Definition nilDereference : string :=
  "invalid memory address or nil pointer dereference".

Definition load (p : ptr) : M CassandraCluster :=
  fun h => match h !! p with
           | Some obj => Ret (Returns obj, h)
           | None => Ret (Panics nilDereference, h)
           end.

Definition alloc (obj : CassandraCluster) : M ptr :=
  fun h => Ret (Returns (List.length h), (h ++ [obj])%list).

Definition store (p : ptr) (obj : CassandraCluster) : M unit :=
  fun h => match h !! p with
           | Some _ => Ret (Returns tt, <[p := obj]> h)
           | None => Ret (Panics nilDereference, h)
           end.

(** [defer deferred; body]: the deferred call runs when the body has
    returned and also when it has panicked. *)
Definition defer {A} (deferred : M unit) (body : M A) : M A :=
  fun h => pbind (body h) (fun oh =>
    pbind (deferred (snd oh)) (fun oh' =>
      Ret (match fst oh' with
           | Returns _ => fst oh
           | Panics reason => Panics reason
           end, snd oh'))).

(** ** Traces *)

(** A call together with its answer. *)
Inductive Event :=
| EvHandleError (err : error)
| EvGlogInfof (verbosity : nat) (msg : string)
| EvCassandraClustersListerGet (namespace name : string) (r : Result ptr)
| EvStatefulSetsListerGet (namespace name : string) (r : Result StatefulSet)
| EvServicesGet (namespace name : string) (r : Result Service)
| EvServicesCreate (namespace : string) (service : Service) (r : Result Service)
| EvStatefulSetsCreate (namespace : string) (statefulset : StatefulSet)
    (r : Result StatefulSet)
| EvStatefulSetsUpdate (namespace : string) (statefulset : StatefulSet)
    (r : Result StatefulSet)
| EvCassandraClustersUpdate (namespace : string) (p : ptr) (obj : CassandraCluster)
    (r : Result CassandraCluster)
| EvRecorderEvent (object : ptr) (eventtype reason message : string)
| EvWorkqueueGet (r : item * bool)
| EvWorkqueueDone (i : item)
| EvWorkqueueForget (i : item)
| EvWorkqueueAddRateLimited (i : item).

Definition observe {X} (c : Call X) : X -> Event :=
  match c in Call X return X -> Event with
  | HandleError err => fun _ => EvHandleError err
  | GlogInfof v msg => fun _ => EvGlogInfof v msg
  | CassandraClustersListerGet ns name => EvCassandraClustersListerGet ns name
  | StatefulSetsListerGet ns name => EvStatefulSetsListerGet ns name
  | ServicesGet ns name => EvServicesGet ns name
  | ServicesCreate ns svc => EvServicesCreate ns svc
  | StatefulSetsCreate ns s => EvStatefulSetsCreate ns s
  | StatefulSetsUpdate ns s => EvStatefulSetsUpdate ns s
  | CassandraClustersUpdate ns p obj => EvCassandraClustersUpdate ns p obj
  | RecorderEvent object ty reason msg => fun _ => EvRecorderEvent object ty reason msg
  | WorkqueueGet => EvWorkqueueGet
  | WorkqueueDone i => fun _ => EvWorkqueueDone i
  | WorkqueueForget i => fun _ => EvWorkqueueForget i
  | WorkqueueAddRateLimited i => fun _ => EvWorkqueueAddRateLimited i
  end.

(** [exec p t r]: the program [p] can make the calls of [t], get the
    answers of [t], and return [r].  The answers are whatever the
    collaborators give: every environment is covered. *)
Fixpoint exec {R} (p : Prog R) (t : list Event) (r : R) : Prop :=
  match p with
  | Ret r' => t = [] ∧ r = r'
  | Vis c k => ∃ x t', t = observe c x :: t' ∧ exec (k x) t' r
  end.

(** An environment answers calls, in a state of its own. *)
Definition Env (W : Type) : Type := ∀ X, Call X -> W -> X * W.

Fixpoint run {W R} (env : Env W) (p : Prog R) (w : W) : R * W * list Event :=
  match p with
  | Ret r => (r, w, [])
  | Vis c k =>
      let xw := env _ c w in
      let rwt := run env (k (fst xw)) (snd xw) in
      (fst (fst rwt), snd (fst rwt), observe c (fst xw) :: snd rwt)
  end.

(** ** The controller *)

Definition controllerAgentName : string := "cassandra-controller".
Definition SuccessSynced : string := "Synced".
Definition ErrResourceExists : string := "ErrResourceExists".
Definition MessageResourceSynced : string := "CassandraCluster synced successfully".

(** The [%d] verb on an [int32]. *)
Definition fmt_d (n : Z) : string := NilZero.string_of_int (Z.to_int n).

Section Controller.
Context `{Settings}.

(** [fmt.Sprintf(MessageResourceExists, name)]. *)
Definition MessageResourceExists (name : string) : string :=
  "Resource " +:+ fmt_q name +:+ " already exists and is not managed by CassandraCluster".

(** Modelled from the spec: [DeepCopy] is generated code
    (zz_generated.deepcopy.go) that is not among the sources; it yields a
    new object, at a new address, whose fields equal those of the
    receiver. *)
Definition DeepCopy (p : ptr) : M ptr :=
  obj <- load p ;;
  alloc obj.

(** The assignment [obj.Status.CurrentReplicas = n]. *)
Definition setStatusCurrentReplicas (obj : CassandraCluster) (n : Z) : CassandraCluster :=
  {| cassandraapi.CassandraCluster_TypeMeta := cassandraapi.CassandraCluster_TypeMeta obj;
     cassandraapi.CassandraCluster_ObjectMeta := cassandraapi.CassandraCluster_ObjectMeta obj;
     cassandraapi.Spec := cassandraapi.Spec obj;
     cassandraapi.Status := {| cassandraapi.CurrentReplicas := n |} |}.

(** [updateCassandraClusterStatus]. *)
Definition updateCassandraClusterStatus (cassandracluster : ptr) (statefulset : StatefulSet)
  : M (option error) :=
  cassandraclusterCopy <- DeepCopy cassandracluster ;;
  copy <- load cassandraclusterCopy ;;
  store cassandraclusterCopy
    (setStatusCurrentReplicas copy
       (appsv1.CurrentReplicas (appsv1.Status statefulset))) ;;;
  cc <- load cassandracluster ;;
  sent <- load cassandraclusterCopy ;;
  r <- call (CassandraClustersUpdate
               (metav1.Namespace (cassandraapi.CassandraCluster_ObjectMeta cc))
               cassandraclusterCopy sent) ;;
  ret (err_of r).

(** One get-or-create step of [syncHandler] on a Service: the [err] that is
    checked after it. *)
Definition getOrCreateService (namespace name : string) (desired : Service)
  : M (option error) :=
  r <- call (ServicesGet namespace name) ;;
  if IsNotFound (err_of r)
  then r' <- call (ServicesCreate namespace desired) ;; ret (err_of r')
  else ret (err_of r).

(** [syncHandler]. *)
Definition syncHandler (key : string) : M (option error) :=
  match SplitMetaNamespaceKey key with
  | Err _ =>
      call (HandleError (errorString ("invalid resource key: " +:+ key))) ;;;
      ret None
  | Ok (namespace, name) =>
      r <- call (CassandraClustersListerGet namespace name) ;;
      match r with
      | Err err =>
          if IsNotFound (Some err)
          then call (HandleError (errorString
                       ("cassandracluster '" +:+ key +:+ "' in work queue no longer exists"))) ;;;
               ret None
          else ret (Some err)
      | Ok cassandracluster =>
          cc <- load cassandracluster ;;
          let ccNamespace := metav1.Namespace (cassandraapi.CassandraCluster_ObjectMeta cc) in
          let statefulsetName := cassandraapi.StatefulSetName (cassandraapi.Spec cc) in
          if String.eqb statefulsetName EmptyString
          then call (HandleError (errorString
                       (key +:+ ": statefulset name must be specified"))) ;;;
               ret None
          else
            err <- getOrCreateService ccNamespace (statefulsetName +:+ "-unready")
                     (newHeadLessServiceUnready cc) ;;
            match err with
            | Some err => ret (Some err)
            | None =>
            err <- getOrCreateService ccNamespace statefulsetName
                     (newHeadLessService cc) ;;
            match err with
            | Some err => ret (Some err)
            | None =>
            r <- call (StatefulSetsListerGet ccNamespace statefulsetName) ;;
            r <- (if IsNotFound (err_of r)
                  then call (StatefulSetsCreate ccNamespace (newStatefulSet cc))
                  else ret r) ;;
            match r with
            | Err err => ret (Some err)
            | Ok statefulset =>
            if negb (metav1.IsControlledBy (appsv1.StatefulSet_ObjectMeta statefulset)
                       (cassandraapi.CassandraCluster_ObjectMeta cc))
            then
              let msg := MessageResourceExists
                           (metav1.Name (appsv1.StatefulSet_ObjectMeta statefulset)) in
              call (RecorderEvent cassandracluster corev1.EventTypeWarning
                      ErrResourceExists msg) ;;;
              ret (Some (errorString (fmt_noargs msg)))
            else
              r <- match cassandraapi.Replicas (cassandraapi.Spec cc) with
                   | None => ret (Ok statefulset)
                   | Some want =>
                       match appsv1.Replicas (appsv1.Spec statefulset) with
                       | None => panic nilDereference
                       | Some have =>
                           if negb (Z.eqb want have)
                           then
                             call (GlogInfof 4
                                     ("CassandraCluster " +:+ name +:+ " replicas: "
                                      +:+ fmt_d want +:+ ", statefulset replicas: "
                                      +:+ fmt_d have)) ;;;
                             call (StatefulSetsUpdate ccNamespace (newStatefulSet cc))
                           else ret (Ok statefulset)
                       end
                   end ;;
              match r with
              | Err err => ret (Some err)
              | Ok statefulset =>
                  err <- updateCassandraClusterStatus cassandracluster statefulset ;;
                  match err with
                  | Some err => ret (Some err)
                  | None =>
                      call (RecorderEvent cassandracluster corev1.EventTypeNormal
                              SuccessSynced MessageResourceSynced) ;;;
                      ret None
                  end
              end
            end
            end
            end
      end
  end.

(** [processNextWorkItem]. *)
Definition processNextWorkItem : M bool :=
  got <- call WorkqueueGet ;;
  let obj := fst got in
  let shutdown := snd got in
  if shutdown then ret false
  else
    err <- defer (call (WorkqueueDone obj))
             match obj with
             | ItemOther gosyntax =>
                 call (WorkqueueForget obj) ;;;
                 call (HandleError (errorString
                         ("expected string in workqueue but got " +:+ gosyntax))) ;;;
                 ret None
             | ItemString key =>
                 err <- syncHandler key ;;
                 match err with
                 | Some err =>
                     ret (Some (errorString
                            ("error syncing '" +:+ key +:+ "': " +:+ Error err)))
                 | None =>
                     call (WorkqueueForget obj) ;;;
                     call (GlogInfof 0 ("Successfully synced '" +:+ key +:+ "'")) ;;;
                     ret None
                 end
             end ;;
    match err with
    | Some err => call (HandleError err) ;;; ret true
    | None => ret true
    end.

(** The metadata of an object that implements [metav1.Object]. *)
Definition Accessor (obj : Obj) : M (option metav1.ObjectMeta) :=
  match obj with
  | ObjCassandraCluster p =>
      cc <- load p ;; ret (Some (cassandraapi.CassandraCluster_ObjectMeta cc))
  | ObjStatefulSet s => ret (Some (appsv1.StatefulSet_ObjectMeta s))
  | _ => ret None
  end.

(** [cache.MetaNamespaceKeyFunc]. *)
Definition MetaNamespaceKeyFunc (obj : Obj) : M (Result string) :=
  match obj with
  | ObjExplicitKey key => ret (Ok key)
  | _ =>
      meta <- Accessor obj ;;
      match meta with
      | None => ret (Err (errorString
                  "object has no meta: object does not implement the Object interfaces"))
      | Some meta => ret (Ok (MetaNamespaceKey meta))
      end
  end.

(** [enqueueCassandraCluster]. *)
Definition enqueueCassandraCluster (obj : Obj) : M unit :=
  r <- MetaNamespaceKeyFunc obj ;;
  match r with
  | Err err => call (HandleError err)
  | Ok key => call (WorkqueueAddRateLimited (ItemString key))
  end.

(** [handleObject]. *)
Definition handleObject (obj : Obj) : M unit :=
  meta <- Accessor obj ;;
  object <- match meta with
            | Some object => ret (Some object)
            | None =>
                match obj with
                | ObjDeletedFinalStateUnknown _ tombstoneObj =>
                    meta <- Accessor tombstoneObj ;;
                    match meta with
                    | None =>
                        call (HandleError (errorString
                                "error decoding object tombstone, invalid type")) ;;;
                        ret None
                    | Some object =>
                        call (GlogInfof 4 ("Recovered deleted object '"
                                +:+ metav1.Name object +:+ "' from tombstone")) ;;;
                        ret (Some object)
                    end
                | _ =>
                    call (HandleError (errorString
                            "error decoding object, invalid type")) ;;;
                    ret None
                end
            end ;;
  match object with
  | None => ret tt
  | Some object =>
      call (GlogInfof 4 ("Processing object: " +:+ metav1.Name object)) ;;;
      match metav1.GetControllerOf object with
      | None => ret tt
      | Some ownerRef =>
          if negb (String.eqb (metav1.OwnerReference_Kind ownerRef) "CassandraCluster")
          then ret tt
          else
            r <- call (CassandraClustersListerGet (metav1.Namespace object)
                         (metav1.OwnerReference_Name ownerRef)) ;;
            match r with
            | Err _ =>
                call (GlogInfof 4 ("ignoring orphaned object '"
                        +:+ metav1.SelfLink object +:+ "' of cassandracluster '"
                        +:+ metav1.OwnerReference_Name ownerRef +:+ "'"))
            | Ok cassandracluster =>
                enqueueCassandraCluster (ObjCassandraCluster cassandracluster)
            end
      end
  end.

(** [cache.ResourceEventHandlerFuncs]: a handler that is not set is nil. *)
Record ResourceEventHandlerFuncs := {
  AddFunc : option (Obj -> M unit);
  UpdateFunc : option (Obj -> Obj -> M unit);
  DeleteFunc : option (Obj -> M unit);
}.

(** The two handler sets [NewController] registers, by watched kind. *)
Inductive WatchedKind :=
| KindCassandraCluster
| KindStatefulSet.

Definition typeAssertionPanic : string :=
  "interface conversion: interface {} is not *v1.StatefulSet".

Definition NewController_handlers (kind : WatchedKind) : ResourceEventHandlerFuncs :=
  match kind with
  | KindCassandraCluster =>
      {| AddFunc := Some enqueueCassandraCluster;
         UpdateFunc := Some (fun old new => enqueueCassandraCluster new);
         DeleteFunc := None |}
  | KindStatefulSet =>
      {| AddFunc := Some handleObject;
         UpdateFunc := Some (fun old new =>
           match new with
           | ObjStatefulSet newStSet =>
               match old with
               | ObjStatefulSet oldStSet =>
                   if String.eqb
                        (metav1.ResourceVersion (appsv1.StatefulSet_ObjectMeta newStSet))
                        (metav1.ResourceVersion (appsv1.StatefulSet_ObjectMeta oldStSet))
                   then ret tt
                   else handleObject new
               | _ => panic typeAssertionPanic
               end
           | _ => panic typeAssertionPanic
           end);
         DeleteFunc := Some handleObject |}
  end.

End Controller.

Arguments IsNotFound : simpl nomatch.
Arguments SplitMetaNamespaceKey : simpl never.
Arguments MetaNamespaceKey : simpl never.
Arguments metav1.IsControlledBy : simpl never.
Arguments metav1.GetControllerOf : simpl never.
Arguments newStatefulSet : simpl never.
Arguments newHeadLessService : simpl never.
Arguments newHeadLessServiceUnready : simpl never.
Arguments MessageResourceExists : simpl never.
Arguments fmt_d : simpl never.
Arguments String.append : simpl never.
Arguments String.eqb : simpl never.
Arguments updateCassandraClusterStatus : simpl never.
Arguments setStatusCurrentReplicas : simpl never.

(** ** Reading traces *)

(** A write to a StatefulSet through the clientset. *)
Definition isStatefulSetMutation (e : Event) : bool :=
  match e with
  | EvStatefulSetsCreate _ _ _ | EvStatefulSetsUpdate _ _ _ => true
  | _ => false
  end.

(** A Create or Update through the Service or StatefulSet client. *)
Definition isDerivedWrite (e : Event) : bool :=
  match e with
  | EvServicesCreate _ _ _ | EvStatefulSetsCreate _ _ _ | EvStatefulSetsUpdate _ _ _ => true
  | _ => false
  end.

(** Any call about a Service or a StatefulSet, reads through the lister
    included. *)
Definition isDerivedCall (e : Event) : bool :=
  match e with
  | EvServicesGet _ _ _ | EvServicesCreate _ _ _ | EvStatefulSetsListerGet _ _ _
  | EvStatefulSetsCreate _ _ _ | EvStatefulSetsUpdate _ _ _ => true
  | _ => false
  end.

Definition isCassandraClustersUpdate (e : Event) : bool :=
  match e with
  | EvCassandraClustersUpdate _ _ _ _ => true
  | _ => false
  end.

Definition isRecorderEvent (e : Event) : bool :=
  match e with
  | EvRecorderEvent _ _ _ _ => true
  | _ => false
  end.

Definition isHandleError (e : Event) : bool :=
  match e with
  | EvHandleError _ => true
  | _ => false
  end.

Definition isWorkqueueAdd (e : Event) : bool :=
  match e with
  | EvWorkqueueAddRateLimited _ => true
  | _ => false
  end.

(** The position of a get-or-create call in the order of [syncHandler],
    for a cluster whose [Spec.StatefulSetName] is [statefulsetName]. *)
Definition derivedStep (statefulsetName : string) (e : Event) : option nat :=
  match e with
  | EvServicesGet _ name _ =>
      if String.eqb name (statefulsetName +:+ "-unready") then Some 1
      else if String.eqb name statefulsetName then Some 3 else Some 0
  | EvServicesCreate _ service _ =>
      let name := metav1.Name (corev1.Service_ObjectMeta service) in
      if String.eqb name (statefulsetName +:+ "-unready") then Some 2
      else if String.eqb name statefulsetName then Some 4 else Some 0
  | EvStatefulSetsListerGet _ _ _ => Some 5
  | EvStatefulSetsCreate _ _ _ => Some 6
  | _ => None
  end%nat.

Fixpoint increasing (l : list nat) : bool :=
  match l with
  | a :: (b :: _) as rest => (a <? b)%nat && increasing rest
  | _ => true
  end.

(** The error of a get-or-create call that [syncHandler] does not expect:
    a Get that fails other than by not-found, a Create that fails. *)
Definition unexpectedError (e : Event) : option error :=
  match e with
  | EvServicesGet _ _ (Err err) | EvStatefulSetsListerGet _ _ (Err err) =>
      if IsNotFound (Some err) then None else Some err
  | EvServicesCreate _ _ (Err err) | EvStatefulSetsCreate _ _ (Err err) => Some err
  | _ => None
  end.

(** ** A cluster to run against

    An in-memory stand-in for the collaborators: informer caches, an API
    server that can be switched to failing, and the work queue of
    client-go ([queue], [dirty] and [processing] as in
    [workqueue.Type], the per-item failure counts of the exponential
    rate limiter, and the items whose rate-limited add is still waiting
    for its delay). *)
Module Fake.

Record World := {
  cassandraclustersCache : list (string * string * ptr);
  statefulsetsCache : list StatefulSet;
  services : list Service;
  statefulsets : list StatefulSet;
  cassandraclusters : list CassandraCluster;
  apiFailure : option error;
  queue : list item;
  dirty : list item;
  processing : list item;
  failures : list item;
  waiting : list (item * Z);
}.

Definition item_eqb (a b : item) : bool :=
  match a, b with
  | ItemString x, ItemString y => String.eqb x y
  | ItemOther x, ItemOther y => String.eqb x y
  | _, _ => false
  end.

Definition has (i : item) (l : list item) : bool := existsb (item_eqb i) l.
Definition remove (i : item) (l : list item) : list item :=
  filter (fun j => negb (item_eqb i j)) l.

Definition named (namespace name : string) (meta : metav1.ObjectMeta) : bool :=
  String.eqb (metav1.Namespace meta) namespace && String.eqb (metav1.Name meta) name.

Definition notFound (name : string) : error :=
  StatusError StatusReasonNotFound (name +:+ " not found").
Definition alreadyExists (name : string) : error :=
  StatusError StatusReasonAlreadyExists (name +:+ " already exists").

Definition lookupCluster (namespace name : string) (w : World) : Result ptr :=
  match List.find (fun e => String.eqb (fst (fst e)) namespace && String.eqb (snd (fst e)) name)
          (cassandraclustersCache w) with
  | Some e => Ok (snd e)
  | None => Err (notFound name)
  end.

Definition getIn {T} (meta : T -> metav1.ObjectMeta) (namespace name : string)
  (l : list T) : Result T :=
  match List.find (fun o => named namespace name (meta o)) l with
  | Some o => Ok o
  | None => Err (notFound name)
  end.

Definition replaceIn {T} (meta : T -> metav1.ObjectMeta) (namespace name : string)
  (o : T) (l : list T) : list T :=
  map (fun old => if named namespace name (meta old) then o else old) l.

Definition withServices (w : World) (l : list Service) : World :=
  {| cassandraclustersCache := cassandraclustersCache w;
     statefulsetsCache := statefulsetsCache w;
     services := l;
     statefulsets := statefulsets w;
     cassandraclusters := cassandraclusters w;
     apiFailure := apiFailure w;
     queue := queue w; dirty := dirty w; processing := processing w;
     failures := failures w; waiting := waiting w |}.

Definition withStatefulSets (w : World) (l : list StatefulSet) : World :=
  {| cassandraclustersCache := cassandraclustersCache w;
     statefulsetsCache := statefulsetsCache w;
     services := services w;
     statefulsets := l;
     cassandraclusters := cassandraclusters w;
     apiFailure := apiFailure w;
     queue := queue w; dirty := dirty w; processing := processing w;
     failures := failures w; waiting := waiting w |}.

Definition withCassandraClusters (w : World) (l : list CassandraCluster) : World :=
  {| cassandraclustersCache := cassandraclustersCache w;
     statefulsetsCache := statefulsetsCache w;
     services := services w;
     statefulsets := statefulsets w;
     cassandraclusters := l;
     apiFailure := apiFailure w;
     queue := queue w; dirty := dirty w; processing := processing w;
     failures := failures w; waiting := waiting w |}.

Definition withQueue (w : World) (q d p f : list item) (wt : list (item * Z)) : World :=
  {| cassandraclustersCache := cassandraclustersCache w;
     statefulsetsCache := statefulsetsCache w;
     services := services w;
     statefulsets := statefulsets w;
     cassandraclusters := cassandraclusters w;
     apiFailure := apiFailure w;
     queue := q; dirty := d; processing := p; failures := f; waiting := wt |}.

(** Delay of the exponential failure rate limiter, in milliseconds: 5ms
    doubled per earlier failure, at most 1000s. *)
Definition backoff (i : item) (f : list item) : Z :=
  Z.min (5 * 2 ^ Z.of_nat (List.length (filter (item_eqb i) f))) 1000000.

(** Answers of the API server, unless it is failing. *)
Definition api {T} (w : World) (answer : Result T * World) : Result T * World :=
  match apiFailure w with
  | Some err => (Err err, w)
  | None => answer
  end.

Definition env : Env World :=
  fun X (c : Call X) (w : World) =>
    match c in Call X return X * World with
    | HandleError _ => (tt, w)
    | GlogInfof _ _ => (tt, w)
    | RecorderEvent _ _ _ _ => (tt, w)
    | CassandraClustersListerGet namespace name => (lookupCluster namespace name w, w)
    | StatefulSetsListerGet namespace name =>
        (getIn appsv1.StatefulSet_ObjectMeta namespace name (statefulsetsCache w), w)
    | ServicesGet namespace name =>
        api w (getIn corev1.Service_ObjectMeta namespace name (services w), w)
    | ServicesCreate namespace service =>
        let name := metav1.Name (corev1.Service_ObjectMeta service) in
        api w match getIn corev1.Service_ObjectMeta namespace name (services w) with
              | Ok _ => (Err (alreadyExists name), w)
              | Err _ => (Ok service, withServices w (services w ++ [service])%list)
              end
    | StatefulSetsCreate namespace statefulset =>
        let name := metav1.Name (appsv1.StatefulSet_ObjectMeta statefulset) in
        api w match getIn appsv1.StatefulSet_ObjectMeta namespace name (statefulsets w) with
              | Ok _ => (Err (alreadyExists name), w)
              | Err _ => (Ok statefulset,
                          withStatefulSets w (statefulsets w ++ [statefulset])%list)
              end
    | StatefulSetsUpdate namespace statefulset =>
        let name := metav1.Name (appsv1.StatefulSet_ObjectMeta statefulset) in
        api w match getIn appsv1.StatefulSet_ObjectMeta namespace name (statefulsets w) with
              | Ok _ => (Ok statefulset,
                         withStatefulSets w
                           (replaceIn appsv1.StatefulSet_ObjectMeta namespace name
                              statefulset (statefulsets w)))
              | Err err => (Err err, w)
              end
    | CassandraClustersUpdate namespace _ obj =>
        api w (Ok obj, withCassandraClusters w (cassandraclusters w ++ [obj])%list)
    | WorkqueueGet =>
        match queue w with
        | [] => ((ItemOther "nil", true), w)
        | i :: rest =>
            ((i, false),
             withQueue w rest (remove i (dirty w)) (i :: processing w)
               (failures w) (waiting w))
        end
    | WorkqueueDone i =>
        (tt, withQueue w
               (if has i (dirty w) then (queue w ++ [i])%list else queue w)
               (dirty w) (remove i (processing w)) (failures w) (waiting w))
    | WorkqueueForget i =>
        (tt, withQueue w (queue w) (dirty w) (processing w)
               (remove i (failures w)) (waiting w))
    | WorkqueueAddRateLimited i =>
        (tt, withQueue w (queue w) (dirty w) (processing w)
               (i :: failures w) ((waiting w ++ [(i, backoff i (failures w))])%list))
    end.

End Fake.

Arguments syncHandler : simpl never.

(** A trace is checked when every unexpected error in it is its last
    event and satisfies [final]. *)
Fixpoint checked (final : error -> Prop) (t : list Event) : Prop :=
  match t with
  | [] => True
  | e :: rest =>
      match unexpectedError e with
      | Some err => rest = [] ∧ final err
      | None => checked final rest
      end
  end.

(** ** Update notifications *)

(** The [ResourceVersion] of a watched object. *)
Definition resourceVersionOf (heap : Heap) (obj : Obj) : option string :=
  match obj with
  | ObjCassandraCluster p =>
      match heap !! p with
      | Some cc => Some (metav1.ResourceVersion (cassandraapi.CassandraCluster_ObjectMeta cc))
      | None => None
      end
  | ObjStatefulSet s => Some (metav1.ResourceVersion (appsv1.StatefulSet_ObjectMeta s))
  | _ => None
  end.

(** [ResourceEventHandlerFuncs.OnUpdate]: the informer calls [UpdateFunc]
    when it is set. *)
Definition OnUpdate (r : ResourceEventHandlerFuncs) (old new : Obj) : M unit :=
  match UpdateFunc r with
  | Some f => f old new
  | None => ret tt
  end.

(** The update handler of a kind suppresses resync notifications: on two
    objects with one resource version it adds nothing to the queue. *)
Definition suppressesResync (kind : WatchedKind) : Prop :=
  ∀ old new heap version t out,
    resourceVersionOf heap old = Some version ->
    resourceVersionOf heap new = Some version ->
    exec (OnUpdate (NewController_handlers kind) old new heap) t out ->
    filter isWorkqueueAdd t = [].

(** ** A sample cluster *)

Definition quoteMark : string := String (ascii_of_nat 34) EmptyString.

(** Names without quotes, backslashes or percent signs, as the API server
    admits them, are quoted and printed as they are. *)
Definition sampleSettings : Settings :=
  {| GroupName := "cassandra.k8s.io";
     fmt_q := fun s => quoteMark +:+ s +:+ quoteMark;
     fmt_noargs := fun s => s |}.

Definition demoMeta : metav1.ObjectMeta :=
  {| metav1.Name := "demo";
     metav1.Namespace := "default";
     metav1.SelfLink := "/apis/cassandra.k8s.io/v1alpha1/namespaces/default/cassandraclusters/demo";
     metav1.UID := "uid-demo";
     metav1.ResourceVersion := "7";
     metav1.Labels := ∅;
     metav1.Annotations := ∅;
     metav1.OwnerReferences := [] |}.

Definition demo (statefulsetName : string) (replicas : option Z) (current : Z)
  : CassandraCluster :=
  {| cassandraapi.CassandraCluster_TypeMeta :=
       {| metav1.TypeMeta_Kind := "CassandraCluster";
          metav1.TypeMeta_APIVersion := "cassandra.k8s.io/v1alpha1" |};
     cassandraapi.CassandraCluster_ObjectMeta := demoMeta;
     cassandraapi.Spec :=
       {| cassandraapi.StatefulSetName := statefulsetName;
          cassandraapi.Replicas := replicas |};
     cassandraapi.Status := {| cassandraapi.CurrentReplicas := current |} |}.

Definition demoCluster : CassandraCluster := demo "web" (Some 3%Z) 0.

(** The StatefulSet "web" as the controller builds it for [demoCluster],
    with a replica count and an observed count of its own. *)
Definition ownedWeb (replicas current : Z) : StatefulSet :=
  let built := newStatefulSet (H := sampleSettings) demoCluster in
  {| appsv1.StatefulSet_ObjectMeta := appsv1.StatefulSet_ObjectMeta built;
     appsv1.Spec :=
       {| appsv1.ServiceName := appsv1.ServiceName (appsv1.Spec built);
          appsv1.Replicas := Some replicas;
          appsv1.Selector := appsv1.Selector (appsv1.Spec built);
          appsv1.Template := appsv1.Template (appsv1.Spec built) |};
     appsv1.Status := {| appsv1.CurrentReplicas := current |} |}.

(** A StatefulSet "web" that somebody else made: no owner reference. *)
Definition foreignWeb : StatefulSet :=
  {| appsv1.StatefulSet_ObjectMeta :=
       {| metav1.Name := "web";
          metav1.Namespace := "default";
          metav1.SelfLink := EmptyString;
          metav1.UID := "uid-web";
          metav1.ResourceVersion := "3";
          metav1.Labels := ∅;
          metav1.Annotations := ∅;
          metav1.OwnerReferences := [] |};
     appsv1.Spec := appsv1.Spec (ownedWeb 1 1);
     appsv1.Status := {| appsv1.CurrentReplicas := 1 |} |}.

Definition demoKey : item := ItemString "default/demo".

(** A world whose caches hold the CassandraCluster "default/demo" at
    address 0 and the given StatefulSets, whose API server holds the
    given Services, and whose queue holds the key of the cluster, added
    once with a rate-limited add. *)
Definition world (cached : list StatefulSet) (stored : list Service)
    (failure : option error) : Fake.World :=
  {| Fake.cassandraclustersCache := [("default", "demo", 0%nat)];
     Fake.statefulsetsCache := cached;
     Fake.services := stored;
     Fake.statefulsets := cached;
     Fake.cassandraclusters := [];
     Fake.apiFailure := failure;
     Fake.queue := [demoKey];
     Fake.dirty := [demoKey];
     Fake.processing := [];
     Fake.failures := [demoKey];
     Fake.waiting := [] |}.

Definition bothServices : list Service :=
  [ newHeadLessServiceUnready (H := sampleSettings) demoCluster;
    newHeadLessService (H := sampleSettings) demoCluster ].

Definition serverTimeout : error :=
  StatusError StatusReasonServerTimeout
    "the server was unable to return a response in the time allotted".

(** One [syncHandler] pass for the key "default/demo" in a world. *)
Definition syncIn (heap : Heap) (w : Fake.World) :=
  run Fake.env (syncHandler (H := sampleSettings) "default/demo" heap) w.
Definition traceOf {W R} (r : R * W * list Event) : list Event := snd r.
Definition resultOf {W R} (r : R * W * list Event) : R := fst (fst r).
Definition worldOf {W R} (r : R * W * list Event) : W := snd (fst r).

(** The runs the theorems are tried on. *)
Definition settledCluster : CassandraCluster := demo "web" (Some 3%Z) 3.
Definition unnamedCluster : CassandraCluster := demo EmptyString (Some 3%Z) 0.

Definition foreignRun := syncIn [demoCluster] (world [foreignWeb] bothServices None).
Definition driftRun := syncIn [demoCluster] (world [ownedWeb 1 1] bothServices None).
Definition convergedRun := syncIn [demoCluster] (world [ownedWeb 3 3] bothServices None).
(** A second pass right after [convergedRun], on the heap and in the world
    the first pass left behind. *)
Definition secondRun :=
  run Fake.env
    (syncHandler (H := sampleSettings) "default/demo" (snd (resultOf convergedRun)))
    (worldOf convergedRun).
Definition settledRun := syncIn [settledCluster] (world [ownedWeb 3 3] bothServices None).
Definition unnamedRun := syncIn [unnamedCluster] (world [] [] None).
Definition outageRun := syncIn [demoCluster] (world [] [] (Some serverTimeout)).
Definition goneRun :=
  run Fake.env (syncHandler (H := sampleSettings) "default/gone" [demoCluster])
    (world [] [] None).
Definition statusRun :=
  run Fake.env
    (updateCassandraClusterStatus 0 (ownedWeb 3 3) [demoCluster])
    (world [] [] None).
Definition statefulsetUpdateRun :=
  run Fake.env
    (OnUpdate (NewController_handlers KindStatefulSet)
       (ObjStatefulSet foreignWeb) (ObjStatefulSet foreignWeb) [demoCluster])
    (world [foreignWeb] [] None).
Definition cassandraclusterUpdateRun :=
  run Fake.env
    (OnUpdate (NewController_handlers KindCassandraCluster)
       (ObjCassandraCluster 0) (ObjCassandraCluster 0) [demoCluster])
    (world [] [] None).

(** ** The worker loop and what is left of the traces *)

(** [runWorker]: [for c.processNextWorkItem() {}].  The loop has no bound
    of its own; [fuel] bounds the number of items.  The answer is [true]
    when the loop was left because [processNextWorkItem] returned false,
    and [false] when the fuel ran out first. *)
Fixpoint runWorker `{Settings} (fuel : nat) : M bool :=
  match fuel with
  | O => ret false
  | S fuel' =>
      more <- processNextWorkItem ;;
      if more then runWorker fuel' else ret true
  end.

(** Any call on the work queue. *)
Definition isWorkqueueCall (e : Event) : bool :=
  match e with
  | EvWorkqueueGet _ | EvWorkqueueDone _ | EvWorkqueueForget _
  | EvWorkqueueAddRateLimited _ => true
  | _ => false
  end.

Definition isWorkqueueDone (e : Event) : bool :=
  match e with
  | EvWorkqueueDone _ => true
  | _ => false
  end.

(** A Get that handed out an item. *)
Definition isDequeue (e : Event) : bool :=
  match e with
  | EvWorkqueueGet (_, false) => true
  | _ => false
  end.

Definition isStatefulSetsUpdate (e : Event) : bool :=
  match e with
  | EvStatefulSetsUpdate _ _ _ => true
  | _ => false
  end.

(** The objects handed to the CassandraClusters Update call. *)
Definition sentObjects (t : list Event) : list CassandraCluster :=
  omap (fun e => match e with
                 | EvCassandraClustersUpdate _ _ obj _ => Some obj
                 | _ => None
                 end) t.

(** The number of "/" in a key. *)
Fixpoint slashes (s : string) : nat :=
  match s with
  | EmptyString => O
  | String c rest => if Ascii.eqb c "/"%char then S (slashes rest) else slashes rest
  end.

(** What [processNextWorkItem] still does with a string key once
    [syncHandler] is back, by the way it came back. *)
Definition afterSync (key : string) (o : outcome (option error)) : list Event :=
  match o with
  | Returns None =>
      [ EvWorkqueueForget (ItemString key);
        EvGlogInfof 0 ("Successfully synced '" +:+ key +:+ "'");
        EvWorkqueueDone (ItemString key) ]
  | Returns (Some err) =>
      [ EvWorkqueueDone (ItemString key);
        EvHandleError (errorString ("error syncing '" +:+ key +:+ "': " +:+ Error err)) ]
  | Panics _ => [ EvWorkqueueDone (ItemString key) ]
  end.

Definition resultAfterSync (o : outcome (option error)) : outcome bool :=
  match o with
  | Returns _ => Returns true
  | Panics reason => Panics reason
  end.

(** The objects whose metadata the handlers can read: those that
    implement [metav1.Object]. *)
Definition hasMeta (obj : Obj) : bool :=
  match obj with
  | ObjCassandraCluster _ | ObjStatefulSet _ => true
  | _ => false
  end.

(** What a call of a [syncHandler] pass has to do with the cluster [cc]
    at [p]: reads and writes stay in the namespace of [cc] and under the
    names derived from its [Spec.StatefulSetName], and the objects
    written are those built for [cc]. *)
Definition concerns `{Settings} (p : ptr) (cc : CassandraCluster) (e : Event) : Prop :=
  let ccNamespace := metav1.Namespace (cassandraapi.CassandraCluster_ObjectMeta cc) in
  let statefulsetName := cassandraapi.StatefulSetName (cassandraapi.Spec cc) in
  match e with
  | EvServicesGet namespace name _ =>
      namespace = ccNamespace
      ∧ (name = statefulsetName +:+ "-unready" ∨ name = statefulsetName)
  | EvServicesCreate namespace service _ =>
      namespace = ccNamespace
      ∧ (service = newHeadLessServiceUnready cc ∨ service = newHeadLessService cc)
  | EvStatefulSetsListerGet namespace name _ =>
      namespace = ccNamespace ∧ name = statefulsetName
  | EvStatefulSetsCreate namespace statefulset _
  | EvStatefulSetsUpdate namespace statefulset _ =>
      namespace = ccNamespace ∧ statefulset = newStatefulSet cc
  | EvCassandraClustersUpdate namespace _ obj _ =>
      namespace = ccNamespace ∧ ∃ n, obj = setStatusCurrentReplicas cc n
  | EvRecorderEvent object _ _ _ => object = p
  | _ => True
  end.

(** ** Trees over other collaborators

    [Run] and the packages of the operator talk to collaborators of
    their own.  Their programs are trees like [Prog], over a family of
    calls that is a parameter, with the same reading of traces. *)
Section Trees.
Context {C : Type -> Type} {E : Type} (observes : ∀ X, C X -> X -> E).

Inductive Tree (R : Type) : Type :=
| Leaf (r : R)
| Node {X : Type} (c : C X) (k : X -> Tree R).
Arguments Leaf {R} r.
Arguments Node {R X} c k.

Fixpoint tbind {A B : Type} (p : Tree A) (f : A -> Tree B) : Tree B :=
  match p with
  | Leaf a => f a
  | Node c k => Node c (fun x => tbind (k x) f)
  end.

Fixpoint texec {R} (p : Tree R) (t : list E) (r : R) : Prop :=
  match p with
  | Leaf r' => t = [] ∧ r = r'
  | Node c k => ∃ x t', t = observes _ c x :: t' ∧ texec (k x) t' r
  end.

End Trees.
Arguments Leaf {C R} r.
Arguments Node {C R X} c k.

(** ** [Run] *)

(** The calls of [Run].  Starting a worker goroutine is a call like the
    others: what the worker does is not part of the run of [Run]. *)
Inductive RunCall : Type -> Type :=
| GlogInfo (msg : string) : RunCall unit
| WaitForCacheSync : RunCall bool
| GoWaitUntilRunWorker : RunCall unit
| ReceiveStopCh : RunCall unit
| WorkqueueShutDown : RunCall unit
| HandleCrash : RunCall unit.

Inductive RunEvent :=
| EvGlogInfo (msg : string)
| EvWaitForCacheSync (ok : bool)
| EvGoWaitUntilRunWorker
| EvReceiveStopCh
| EvWorkqueueShutDown
| EvHandleCrash.

Definition observeRun {X} (c : RunCall X) : X -> RunEvent :=
  match c in RunCall X return X -> RunEvent with
  | GlogInfo msg => fun _ => EvGlogInfo msg
  | WaitForCacheSync => EvWaitForCacheSync
  | GoWaitUntilRunWorker => fun _ => EvGoWaitUntilRunWorker
  | ReceiveStopCh => fun _ => EvReceiveStopCh
  | WorkqueueShutDown => fun _ => EvWorkqueueShutDown
  | HandleCrash => fun _ => EvHandleCrash
  end.

Definition step {C X} (c : C X) : Tree (C := C) X := Node c (fun x => Leaf x).

(** [for i := 0; i < threadiness; i++ { go wait.Until(c.runWorker, ...) }]. *)
Fixpoint startWorkers (n : nat) (rest : Tree (C := RunCall) (option error))
  : Tree (C := RunCall) (option error) :=
  match n with
  | O => rest
  | S n' => Node GoWaitUntilRunWorker (fun _ => startWorkers n' rest)
  end.

(** [Run].  The two deferred calls run when [Run] returns, the one
    deferred last first. *)
Definition Run (threadiness : Z) : Tree (C := RunCall) (option error) :=
  let returning (result : option error) :=
    Node WorkqueueShutDown (fun _ => Node HandleCrash (fun _ => Leaf result)) in
  Node (GlogInfo "Starting CassandraCluster controller") (fun _ =>
  Node (GlogInfo "Waiting for informer caches to sync") (fun _ =>
  Node WaitForCacheSync (fun ok =>
  if negb ok
  then returning (Some (errorString "failed to wait for caches to sync"))
  else
    Node (GlogInfo "Starting workers") (fun _ =>
    startWorkers (Z.to_nat threadiness)
      (Node (GlogInfo "Started workers") (fun _ =>
       Node ReceiveStopCh (fun _ =>
       Node (GlogInfo "Shutting down workers") (fun _ =>
       returning None)))))))).

Definition isWorkerStart (e : RunEvent) : bool :=
  match e with
  | EvGoWaitUntilRunWorker => true
  | _ => false
  end.

Definition isShutDown (e : RunEvent) : bool :=
  match e with
  | EvWorkqueueShutDown => true
  | _ => false
  end.

(** ** The operator: [pkg/operator/service] and [pkg/operator/service/k8s]

    The operator packages use the StatefulSet of [k8s.io/api/apps/v1beta2].
    The fields they set are those of [apps/v1] that [newStatefulSet]
    sets, so the record [StatefulSet] serves for both.  The object to
    write is passed by pointer and is assigned to, so StatefulSets live
    on a heap of their own here; what the client returns is only read
    and is carried by value. *)

Inductive SvcCall : Type -> Type :=
| StatefulSetsGet (namespace name : string) : SvcCall (Result StatefulSet)
| StatefulSetsCreateV1beta2 (namespace : string) (statefulSet : StatefulSet)
    : SvcCall (Result StatefulSet)
| StatefulSetsUpdateV1beta2 (namespace : string) (statefulSet : StatefulSet)
    : SvcCall (Result StatefulSet)
| LoggerInfof (msg : string) : SvcCall unit
| Println (line : string) : SvcCall unit.

Inductive SvcEvent :=
| EvStatefulSetsGet (namespace name : string) (r : Result StatefulSet)
| EvStatefulSetsCreateV1beta2 (namespace : string) (statefulSet : StatefulSet)
    (r : Result StatefulSet)
| EvStatefulSetsUpdateV1beta2 (namespace : string) (statefulSet : StatefulSet)
    (r : Result StatefulSet)
| EvLoggerInfof (msg : string)
| EvPrintln (line : string).

Definition observeSvc {X} (c : SvcCall X) : X -> SvcEvent :=
  match c in SvcCall X return X -> SvcEvent with
  | StatefulSetsGet namespace name => EvStatefulSetsGet namespace name
  | StatefulSetsCreateV1beta2 namespace s => EvStatefulSetsCreateV1beta2 namespace s
  | StatefulSetsUpdateV1beta2 namespace s => EvStatefulSetsUpdateV1beta2 namespace s
  | LoggerInfof msg => fun _ => EvLoggerInfof msg
  | Println line => fun _ => EvPrintln line
  end.

(** Heap passing over service trees, as [M] over [Prog]. *)
Definition SM (A : Type) : Type :=
  list StatefulSet -> Tree (C := SvcCall) (outcome A * list StatefulSet).

Definition sret {A} (a : A) : SM A := fun h => Leaf (Returns a, h).

Definition sbind {A B} (m : SM A) (f : A -> SM B) : SM B :=
  fun h => tbind (m h) (fun oh =>
    match fst oh with
    | Returns a => f a (snd oh)
    | Panics reason => Leaf (Panics reason, snd oh)
    end).

Definition scall {X} (c : SvcCall X) : SM X :=
  fun h => Node c (fun x => Leaf (Returns x, h)).

Definition sload (p : ptr) : SM StatefulSet :=
  fun h => match h !! p with
           | Some obj => Leaf (Returns obj, h)
           | None => Leaf (Panics nilDereference, h)
           end.

Definition sstore (p : ptr) (obj : StatefulSet) : SM unit :=
  fun h => match h !! p with
           | Some _ => Leaf (Returns tt, <[p := obj]> h)
           | None => Leaf (Panics nilDereference, h)
           end.

Definition salloc (obj : StatefulSet) : SM ptr :=
  fun h => Leaf (Returns (List.length h), (h ++ [obj])%list).

(** The assignment [statefulSet.ResourceVersion = version]. *)
Definition setResourceVersion (s : StatefulSet) (version : string) : StatefulSet :=
  let meta := appsv1.StatefulSet_ObjectMeta s in
  {| appsv1.StatefulSet_ObjectMeta :=
       {| metav1.Name := metav1.Name meta;
          metav1.Namespace := metav1.Namespace meta;
          metav1.SelfLink := metav1.SelfLink meta;
          metav1.UID := metav1.UID meta;
          metav1.ResourceVersion := version;
          metav1.Labels := metav1.Labels meta;
          metav1.Annotations := metav1.Annotations meta;
          metav1.OwnerReferences := metav1.OwnerReferences meta |};
     appsv1.Spec := appsv1.Spec s;
     appsv1.Status := appsv1.Status s |}.

(** [StatefulSetService.CreateStatefulSet]. *)
Definition CreateStatefulSet (namespace : string) (statefulSet : ptr) : SM (option error) :=
  sbind (sload statefulSet) (fun obj =>
  sbind (scall (StatefulSetsCreateV1beta2 namespace obj)) (fun r =>
  match r with
  | Err err => sret (Some err)
  | Ok _ => sbind (scall (LoggerInfof "statefulSet created")) (fun _ => sret None)
  end)).

(** [StatefulSetService.GetStatefulSet]. *)
Definition GetStatefulSet (namespace name : string) : SM (Result StatefulSet) :=
  sbind (scall (StatefulSetsGet namespace name)) (fun r =>
  match r with
  | Err err => sret (Err err)
  | Ok statefulSet => sret (Ok statefulSet)
  end).

(** [StatefulSetService.UpdateStatefulSet]. *)
Definition UpdateStatefulSet (namespace : string) (statefulSet : ptr) : SM (option error) :=
  sbind (sload statefulSet) (fun obj =>
  sbind (scall (StatefulSetsUpdateV1beta2 namespace obj)) (fun r =>
  match r with
  | Err err => sret (Some err)
  | Ok _ => sbind (scall (LoggerInfof "statefulSet updated")) (fun _ => sret None)
  end)).

(** [StatefulSetService.CreateOrUpdateStatefulSet]. *)
Definition CreateOrUpdateStatefulSet (namespace : string) (statefulSet : ptr)
  : SM (option error) :=
  sbind (sload statefulSet) (fun obj =>
  sbind (GetStatefulSet namespace (metav1.Name (appsv1.StatefulSet_ObjectMeta obj)))
    (fun r =>
  match r with
  | Err err =>
      if IsNotFound (Some err)
      then CreateStatefulSet namespace statefulSet
      else sret (Some err)
  | Ok storedStatefulSet =>
      sbind (sload statefulSet) (fun current =>
      sbind (sstore statefulSet
               (setResourceVersion current
                  (metav1.ResourceVersion
                     (appsv1.StatefulSet_ObjectMeta storedStatefulSet)))) (fun _ =>
      UpdateStatefulSet namespace statefulSet))
  end)).

Section Operator.
Context `{Settings}.

(** [CassandraClusterKubeClient.generateCassandraStatefulSet]. *)
Definition generateCassandraStatefulSet (cc : CassandraCluster) : StatefulSet :=
  let meta := cassandraapi.CassandraCluster_ObjectMeta cc in
  let spec := cassandraapi.Spec cc in
  let labels : gmap string string :=
    {[ "app" := "cassandra"; "controller" := metav1.Name meta ]} in
  {| appsv1.StatefulSet_ObjectMeta :=
       {| metav1.Name := cassandraapi.StatefulSetName spec;
          metav1.Namespace := metav1.Namespace meta;
          metav1.SelfLink := EmptyString;
          metav1.UID := EmptyString;
          metav1.ResourceVersion := EmptyString;
          metav1.Labels := ∅;
          metav1.Annotations := ∅;
          metav1.OwnerReferences :=
            [ metav1.NewControllerRef meta
                {| metav1.Group := GroupName;
                   metav1.Version := cassandraapi.version;
                   metav1.Kind := "CassandraCluster" |} ] |};
     appsv1.Spec :=
       {| appsv1.ServiceName := cassandraapi.StatefulSetName spec +:+ "-unready";
          appsv1.Replicas := cassandraapi.Replicas spec;
          appsv1.Selector := Some {| metav1.MatchLabels := labels |};
          appsv1.Template :=
            {| corev1.PodTemplateSpec_ObjectMeta :=
                 {| metav1.Name := EmptyString;
                    metav1.Namespace := EmptyString;
                    metav1.SelfLink := EmptyString;
                    metav1.UID := EmptyString;
                    metav1.ResourceVersion := EmptyString;
                    metav1.Labels := labels;
                    metav1.Annotations := ∅;
                    metav1.OwnerReferences := [] |};
               corev1.PodTemplateSpec_Spec :=
                 {| corev1.Containers :=
                      [ {| corev1.Container_Name := "cassandra";
                           corev1.Image := "gcr.io/google-samples/cassandra:v13";
                           corev1.Env :=
                             [ {| corev1.EnvVar_Name := "CASSANDRA_SEEDS";
                                  corev1.EnvVar_Value :=
                                    cassandraapi.StatefulSetName spec +:+ "-0."
                                    +:+ cassandraapi.StatefulSetName spec +:+ "-unready."
                                    +:+ metav1.Namespace meta +:+ ".svc.cluster.local";
                                  corev1.EnvVar_ValueFrom := None |};
                               {| corev1.EnvVar_Name := "MAX_HEAP_SIZE";
                                  corev1.EnvVar_Value := "512M";
                                  corev1.EnvVar_ValueFrom := None |};
                               {| corev1.EnvVar_Name := "HEAP_NEWSIZE";
                                  corev1.EnvVar_Value := "100M";
                                  corev1.EnvVar_ValueFrom := None |};
                               {| corev1.EnvVar_Name := "POD_IP";
                                  corev1.EnvVar_Value := EmptyString;
                                  corev1.EnvVar_ValueFrom :=
                                    Some {| corev1.FieldRef :=
                                              Some {| corev1.FieldPath := "status.podIP" |} |} |} ];
                           corev1.Container_Ports :=
                             [ {| corev1.ContainerPort_Name := "cql";
                                  corev1.ContainerPort_ContainerPort := 9042 |};
                               {| corev1.ContainerPort_Name := "intra-node";
                                  corev1.ContainerPort_ContainerPort := 7001 |};
                               {| corev1.ContainerPort_Name := "jmx";
                                  corev1.ContainerPort_ContainerPort := 7099 |} ];
                           corev1.Container_SecurityContext :=
                             Some {| corev1.SecurityContext_Capabilities :=
                                       Some {| corev1.Add := ["IPC_LOCK"] |} |};
                           corev1.ReadinessProbe :=
                             Some {| corev1.Probe_Handler :=
                                       {| corev1.Exec :=
                                            Some {| corev1.Command :=
                                                      ["/bin/bash"; "-c"; "/ready-probe.sh"] |} |};
                                     corev1.InitialDelaySeconds := 15;
                                     corev1.TimeoutSeconds := 5 |};
                           corev1.Container_Lifecycle :=
                             Some {| corev1.PreStop :=
                                       Some {| corev1.Exec :=
                                                 Some {| corev1.Command :=
                                                           ["/bin/sh"; "-c"; "nodetool"; "drain"] |} |} |}
                        |} ] |} |} |};
     appsv1.Status := {| appsv1.CurrentReplicas := 0 |} |}.

(** [CassandraClusterKubeClient.EnsureStatefulset], with the service that
    [operator.New] wires in. *)
Definition EnsureStatefulset (cc : CassandraCluster) : SM (option error) :=
  sbind (salloc (generateCassandraStatefulSet cc)) (fun ss =>
  CreateOrUpdateStatefulSet
    (metav1.Namespace (cassandraapi.CassandraCluster_ObjectMeta cc)) ss).

(** What the operator's handler is handed ([runtime.Object]): a
    CassandraCluster, or anything else, kept by the rendering of its
    object kind. *)
Inductive RuntimeObject :=
| RuntimeCassandraCluster (cc : CassandraCluster)
| RuntimeOther (objectKind : string).

(** [handler.Ensure]. *)
Definition Ensure (cc : CassandraCluster) : SM (option error) :=
  sbind (EnsureStatefulset cc) (fun err =>
  match err with
  | Some err => sret (Some err)
  | None => sret None
  end).

(** [handler.Add]. *)
Definition Add (obj : RuntimeObject) : SM (option error) :=
  match obj with
  | RuntimeOther objectKind =>
      sret (Some (errorString (objectKind +:+ " is not a cassandra cluster object")))
  | RuntimeCassandraCluster cc =>
      sbind (Ensure cc) (fun err =>
      match err with
      | Some err => sret (Some err)
      | None => sret None
      end)
  end.

(** [handler.Delete]. *)
Definition Delete (name : string) : SM (option error) :=
  sbind (scall (Println name)) (fun _ => sret None).

End Operator.

Definition isSvcWrite (e : SvcEvent) : bool :=
  match e with
  | EvStatefulSetsCreateV1beta2 _ _ _ | EvStatefulSetsUpdateV1beta2 _ _ _ => true
  | _ => false
  end.

Definition isSvcLog (e : SvcEvent) : bool :=
  match e with
  | EvLoggerInfof _ => true
  | _ => false
  end.

(** The log line that follows a write that succeeded. *)
Definition loggedOn (r : Result StatefulSet) (msg : string) : list SvcEvent :=
  match r with
  | Ok _ => [EvLoggerInfof msg]
  | Err _ => []
  end.

(** ** More runs on the sample cluster *)

Definition malformedRun :=
  run Fake.env (syncHandler (H := sampleSettings) "a/b/c" [demoCluster]) (world [] [] None).

Definition enqueueRun :=
  run Fake.env (enqueueCassandraCluster (ObjCassandraCluster 0) [demoCluster])
    (world [] [] None).

Definition workerRun :=
  run Fake.env (processNextWorkItem (H := sampleSettings) [demoCluster])
    (world [] [] (Some serverTimeout)).

Definition otherItem : item := ItemOther "42".

Definition otherItemRun :=
  run Fake.env (processNextWorkItem (H := sampleSettings) [demoCluster])
    (Fake.withQueue (world [] [] None) [otherItem] [otherItem] [] [] []).

Definition loopRun :=
  run Fake.env (runWorker (H := sampleSettings) 3 [demoCluster])
    (world [ownedWeb 3 3] bothServices None).

(** A world whose cache holds no CassandraCluster. *)
Definition noClusterWorld : Fake.World :=
  {| Fake.cassandraclustersCache := [];
     Fake.statefulsetsCache := [ownedWeb 3 3];
     Fake.services := [];
     Fake.statefulsets := [ownedWeb 3 3];
     Fake.cassandraclusters := [];
     Fake.apiFailure := None;
     Fake.queue := [];
     Fake.dirty := [];
     Fake.processing := [];
     Fake.failures := [];
     Fake.waiting := [] |}.

Definition notOwnedRun :=
  run Fake.env (handleObject (ObjStatefulSet foreignWeb) [demoCluster])
    (world [foreignWeb] [] None).
Definition orphanRun :=
  run Fake.env (handleObject (ObjStatefulSet (ownedWeb 3 3)) []) noClusterWorld.
Definition ownedRun :=
  run Fake.env (handleObject (ObjStatefulSet (ownedWeb 3 3)) [demoCluster])
    (world [ownedWeb 3 3] [] None).
Definition builtRun :=
  run Fake.env
    (handleObject (ObjStatefulSet (newStatefulSet (H := sampleSettings) demoCluster))
       [demoCluster])
    (world [] [] None).
Definition undecodableRun :=
  run Fake.env (handleObject ObjOther [demoCluster]) (world [] [] None).
Definition noMetaRun :=
  run Fake.env (enqueueCassandraCluster ObjOther [demoCluster]) (world [] [] None).

Definition unsetCluster : CassandraCluster := demo "web" None 0.
Definition unsetRun := syncIn [unsetCluster] (world [ownedWeb 1 1] bothServices None).

(** The StatefulSet "web" of [demoCluster] with a nil replica count. *)
Definition nilWeb : StatefulSet :=
  let owned := ownedWeb 3 3 in
  {| appsv1.StatefulSet_ObjectMeta := appsv1.StatefulSet_ObjectMeta owned;
     appsv1.Spec :=
       {| appsv1.ServiceName := appsv1.ServiceName (appsv1.Spec owned);
          appsv1.Replicas := None;
          appsv1.Selector := appsv1.Selector (appsv1.Spec owned);
          appsv1.Template := appsv1.Template (appsv1.Spec owned) |};
     appsv1.Status := appsv1.Status owned |}.
Definition nilRun := syncIn [demoCluster] (world [nilWeb] bothServices None).

Definition createRun := syncIn [demoCluster] (world [] bothServices None).

(** A world whose StatefulSet cache lags behind: the API server holds
    the StatefulSet "web", the cache does not yet, and no Service is
    stored. *)
Definition staleWorld : Fake.World :=
  {| Fake.cassandraclustersCache := [("default", "demo", 0%nat)];
     Fake.statefulsetsCache := [];
     Fake.services := [];
     Fake.statefulsets := [ownedWeb 3 3];
     Fake.cassandraclusters := [];
     Fake.apiFailure := None;
     Fake.queue := [demoKey];
     Fake.dirty := [demoKey];
     Fake.processing := [];
     Fake.failures := [demoKey];
     Fake.waiting := [] |}.
Definition staleRun := syncIn [demoCluster] staleWorld.

(** A pass in which everything is in place and the status write fails. *)
Definition statusFailureTrace : list Event :=
  [ EvCassandraClustersListerGet "default" "demo" (Ok 0%nat);
    EvServicesGet "default" "web-unready"
      (Ok (newHeadLessServiceUnready (H := sampleSettings) demoCluster));
    EvServicesGet "default" "web"
      (Ok (newHeadLessService (H := sampleSettings) demoCluster));
    EvStatefulSetsListerGet "default" "web" (Ok (ownedWeb 3 3));
    EvCassandraClustersUpdate "default" 1%nat (setStatusCurrentReplicas demoCluster 3)
      (Err serverTimeout) ].

(** Runs of the operator's service on a heap that holds the StatefulSet
    built for [demoCluster]. *)
Definition builtWeb : StatefulSet := newStatefulSet (H := sampleSettings) demoCluster.

Definition createdTrace : list SvcEvent :=
  [ EvStatefulSetsGet "default" "web" (Err (Fake.notFound "web"));
    EvStatefulSetsCreateV1beta2 "default" builtWeb (Ok builtWeb);
    EvLoggerInfof "statefulSet created" ].

Definition updatedTrace : list SvcEvent :=
  [ EvStatefulSetsGet "default" "web" (Ok foreignWeb);
    EvStatefulSetsUpdateV1beta2 "default" (setResourceVersion builtWeb "3")
      (Ok (setResourceVersion builtWeb "4"));
    EvLoggerInfof "statefulSet updated" ].

Definition twoWorkersTrace : list RunEvent :=
  [ EvGlogInfo "Starting CassandraCluster controller";
    EvGlogInfo "Waiting for informer caches to sync";
    EvWaitForCacheSync true;
    EvGlogInfo "Starting workers";
    EvGoWaitUntilRunWorker; EvGoWaitUntilRunWorker;
    EvGlogInfo "Started workers";
    EvReceiveStopCh;
    EvGlogInfo "Shutting down workers";
    EvWorkqueueShutDown; EvHandleCrash ].

(** ** The shapes of a pass

    The runs of [syncHandler], exit by exit, as relations between the
    trace and the outcome.  [syncHandler_runs] shows that every run has
    one of these shapes. *)
Section Shapes.
Context `{Settings}.

Abbreviation Out := (outcome (option error) * Heap)%type.

(** One get-or-create step: the object is found, or it is not found and
    created, and the pass goes on with it; or the Get fails otherwise,
    or the Create fails, and the pass ends with that error. *)
Inductive Stage {A : Type} (heap : Heap) (get create : Result A -> Event)
    (next : A -> list Event -> Out -> Prop) : list Event -> Out -> Prop :=
| stage_found a t out :
    next a t out -> Stage heap get create next (get (Ok a) :: t) out
| stage_created err a t out :
    IsNotFound (Some err) = true ->
    next a t out ->
    Stage heap get create next (get (Err err) :: create (Ok a) :: t) out
| stage_get_failed err :
    IsNotFound (Some err) = false ->
    Stage heap get create next [get (Err err)] (Returns (Some err), heap)
| stage_create_failed err err' :
    IsNotFound (Some err) = true ->
    Stage heap get create next [get (Err err); create (Err err')]
      (Returns (Some err'), heap).

(** The status write and the Synced event. *)
Inductive StatusWrite (heap : Heap) (p : ptr) (cc : CassandraCluster)
    (statefulset : StatefulSet) : list Event -> Out -> Prop :=
| status_failed err :
    let sent := setStatusCurrentReplicas cc
                  (appsv1.CurrentReplicas (appsv1.Status statefulset)) in
    StatusWrite heap p cc statefulset
      [EvCassandraClustersUpdate
         (metav1.Namespace (cassandraapi.CassandraCluster_ObjectMeta cc))
         (List.length heap) sent (Err err)]
      (Returns (Some err), (heap ++ [sent])%list)
| status_written obj :
    let sent := setStatusCurrentReplicas cc
                  (appsv1.CurrentReplicas (appsv1.Status statefulset)) in
    StatusWrite heap p cc statefulset
      [EvCassandraClustersUpdate
         (metav1.Namespace (cassandraapi.CassandraCluster_ObjectMeta cc))
         (List.length heap) sent (Ok obj);
       EvRecorderEvent p corev1.EventTypeNormal SuccessSynced MessageResourceSynced]
      (Returns None, (heap ++ [sent])%list).

(** Ownership check and drift correction, for the StatefulSet in hand. *)
Inductive Converge (heap : Heap) (name : string) (p : ptr) (cc : CassandraCluster)
    (statefulset : StatefulSet) : list Event -> Out -> Prop :=
| converge_conflict :
    metav1.IsControlledBy (appsv1.StatefulSet_ObjectMeta statefulset)
      (cassandraapi.CassandraCluster_ObjectMeta cc) = false ->
    let msg := MessageResourceExists
                 (metav1.Name (appsv1.StatefulSet_ObjectMeta statefulset)) in
    Converge heap name p cc statefulset
      [EvRecorderEvent p corev1.EventTypeWarning ErrResourceExists msg]
      (Returns (Some (errorString (fmt_noargs msg))), heap)
| converge_nil want :
    metav1.IsControlledBy (appsv1.StatefulSet_ObjectMeta statefulset)
      (cassandraapi.CassandraCluster_ObjectMeta cc) = true ->
    cassandraapi.Replicas (cassandraapi.Spec cc) = Some want ->
    appsv1.Replicas (appsv1.Spec statefulset) = None ->
    Converge heap name p cc statefulset [] (Panics nilDereference, heap)
| converge_unset t out :
    metav1.IsControlledBy (appsv1.StatefulSet_ObjectMeta statefulset)
      (cassandraapi.CassandraCluster_ObjectMeta cc) = true ->
    cassandraapi.Replicas (cassandraapi.Spec cc) = None ->
    StatusWrite heap p cc statefulset t out ->
    Converge heap name p cc statefulset t out
| converge_same want t out :
    metav1.IsControlledBy (appsv1.StatefulSet_ObjectMeta statefulset)
      (cassandraapi.CassandraCluster_ObjectMeta cc) = true ->
    cassandraapi.Replicas (cassandraapi.Spec cc) = Some want ->
    appsv1.Replicas (appsv1.Spec statefulset) = Some want ->
    StatusWrite heap p cc statefulset t out ->
    Converge heap name p cc statefulset t out
| converge_update_failed want have err :
    metav1.IsControlledBy (appsv1.StatefulSet_ObjectMeta statefulset)
      (cassandraapi.CassandraCluster_ObjectMeta cc) = true ->
    cassandraapi.Replicas (cassandraapi.Spec cc) = Some want ->
    appsv1.Replicas (appsv1.Spec statefulset) = Some have ->
    want ≠ have ->
    Converge heap name p cc statefulset
      [EvGlogInfof 4 ("CassandraCluster " +:+ name +:+ " replicas: "
                      +:+ fmt_d want +:+ ", statefulset replicas: " +:+ fmt_d have);
       EvStatefulSetsUpdate
         (metav1.Namespace (cassandraapi.CassandraCluster_ObjectMeta cc))
         (newStatefulSet cc) (Err err)]
      (Returns (Some err), heap)
| converge_updated want have updated t out :
    metav1.IsControlledBy (appsv1.StatefulSet_ObjectMeta statefulset)
      (cassandraapi.CassandraCluster_ObjectMeta cc) = true ->
    cassandraapi.Replicas (cassandraapi.Spec cc) = Some want ->
    appsv1.Replicas (appsv1.Spec statefulset) = Some have ->
    want ≠ have ->
    StatusWrite heap p cc updated t out ->
    Converge heap name p cc statefulset
      (EvGlogInfof 4 ("CassandraCluster " +:+ name +:+ " replicas: "
                      +:+ fmt_d want +:+ ", statefulset replicas: " +:+ fmt_d have)
       :: EvStatefulSetsUpdate
            (metav1.Namespace (cassandraapi.CassandraCluster_ObjectMeta cc))
            (newStatefulSet cc) (Ok updated)
       :: t)
      out.

(** The three get-or-create steps in their order, then [Converge]. *)
Definition Reconcile (heap : Heap) (name : string) (p : ptr) (cc : CassandraCluster)
  : list Event -> Out -> Prop :=
  let namespace := metav1.Namespace (cassandraapi.CassandraCluster_ObjectMeta cc) in
  let statefulsetName := cassandraapi.StatefulSetName (cassandraapi.Spec cc) in
  Stage heap
    (EvServicesGet namespace (statefulsetName +:+ "-unready"))
    (EvServicesCreate namespace (newHeadLessServiceUnready cc))
    (fun _ =>
       Stage heap
         (EvServicesGet namespace statefulsetName)
         (EvServicesCreate namespace (newHeadLessService cc))
         (fun _ =>
            Stage heap
              (EvStatefulSetsListerGet namespace statefulsetName)
              (EvStatefulSetsCreate namespace (newStatefulSet cc))
              (Converge heap name p cc))).

(** The three get-or-create steps of a pass for [cc], in their order:
    unready Service, Service, StatefulSet.  Each step is made, and the
    next one starts only when the step before it ended with an object in
    hand; what follows the third step is left open. *)
Definition DerivedSteps (heap : Heap) (cc : CassandraCluster)
  : list Event -> Out -> Prop :=
  let namespace := metav1.Namespace (cassandraapi.CassandraCluster_ObjectMeta cc) in
  let statefulsetName := cassandraapi.StatefulSetName (cassandraapi.Spec cc) in
  Stage heap
    (EvServicesGet namespace (statefulsetName +:+ "-unready"))
    (EvServicesCreate namespace (newHeadLessServiceUnready cc))
    (fun _ =>
       Stage heap
         (EvServicesGet namespace statefulsetName)
         (EvServicesCreate namespace (newHeadLessService cc))
         (fun _ =>
            Stage heap
              (EvStatefulSetsListerGet namespace statefulsetName)
              (EvStatefulSetsCreate namespace (newStatefulSet cc))
              (fun _ _ _ => True))).

Inductive SyncRun (key : string) (heap : Heap) : list Event -> Out -> Prop :=
| run_malformed err :
    SplitMetaNamespaceKey key = Err err ->
    SyncRun key heap [EvHandleError (errorString ("invalid resource key: " +:+ key))]
      (Returns None, heap)
| run_gone namespace name err :
    SplitMetaNamespaceKey key = Ok (namespace, name) ->
    IsNotFound (Some err) = true ->
    SyncRun key heap
      [EvCassandraClustersListerGet namespace name (Err err);
       EvHandleError (errorString
         ("cassandracluster '" +:+ key +:+ "' in work queue no longer exists"))]
      (Returns None, heap)
| run_lookup_failed namespace name err :
    SplitMetaNamespaceKey key = Ok (namespace, name) ->
    IsNotFound (Some err) = false ->
    SyncRun key heap [EvCassandraClustersListerGet namespace name (Err err)]
      (Returns (Some err), heap)
| run_nil namespace name p :
    SplitMetaNamespaceKey key = Ok (namespace, name) ->
    heap !! p = None ->
    SyncRun key heap [EvCassandraClustersListerGet namespace name (Ok p)]
      (Panics nilDereference, heap)
| run_unnamed namespace name p cc :
    SplitMetaNamespaceKey key = Ok (namespace, name) ->
    heap !! p = Some cc ->
    cassandraapi.StatefulSetName (cassandraapi.Spec cc) = EmptyString ->
    SyncRun key heap
      [EvCassandraClustersListerGet namespace name (Ok p);
       EvHandleError (errorString (key +:+ ": statefulset name must be specified"))]
      (Returns None, heap)
| run_named namespace name p cc t out :
    SplitMetaNamespaceKey key = Ok (namespace, name) ->
    heap !! p = Some cc ->
    cassandraapi.StatefulSetName (cassandraapi.Spec cc) ≠ EmptyString ->
    Reconcile heap name p cc t out ->
    SyncRun key heap (EvCassandraClustersListerGet namespace name (Ok p) :: t) out.

End Shapes.

(** ** Running and tracing agree *)

Lemma run_exec {W R} (env : Env W) (p : Prog R) (w : W) :
  exec p (snd (run env p w)) (fst (fst (run env p w))).
Proof.
  revert w. induction p as [r | X c k IH]; intros w; simpl.
  - split; reflexivity.
  - eexists _, _. split; [reflexivity | apply IH].
Qed.

Lemma run_exec_eq {W R} (env : Env W) (p : Prog R) (w : W) t r :
  snd (run env p w) = t -> fst (fst (run env p w)) = r -> exec p t r.
Proof. intros <- <-. apply run_exec. Qed.

(** The trace of a sequence is the trace of its first part followed by
    the trace of the rest. *)
Lemma exec_pbind {A B} (p : Prog A) (f : A -> Prog B) t b :
  exec (pbind p f) t b <->
  ∃ t1 t2 a, t = (t1 ++ t2)%list ∧ exec p t1 a ∧ exec (f a) t2 b.
Proof.
  revert t. induction p as [r | X c k IH]; intros t; simpl.
  - split.
    + intros Hf. exists [], t, r. auto.
    + intros (t1 & t2 & a & -> & [-> ->] & Hf). exact Hf.
  - split.
    + intros (x & t' & -> & Hk). apply IH in Hk as (t1 & t2 & a & -> & Hp & Hf).
      exists (observe c x :: t1), t2, a. split; [reflexivity |].
      split; [eexists _, _; split; [reflexivity | exact Hp] | exact Hf].
    + intros (t1 & t2 & a & -> & (x & t' & -> & Hk) & Hf).
      exists x, (t' ++ t2)%list. split; [reflexivity |].
      apply IH. eauto 10.
Qed.

(** ** Symbolic execution *)

Ltac stuck_on p k :=
  lazymatch p with
  | pbind ?m _ => stuck_on m k
  | match ?d with _ => _ end => k d
  | ?f _ => stuck_on f k
  end.

Ltac exec_step H :=
  cbn in H;
  lazymatch type of H with
  | ∃ x t', _ = _ :: t' ∧ _ =>
      let x := fresh "x" in
      let t := fresh "t" in
      destruct H as (x & t & -> & H)
  | _ = [] ∧ _ = _ =>
      let E := fresh "E" in
      destruct H as [-> E]; try (injection E as ? ?); subst
  | exec ?p _ _ => stuck_on p ltac:(fun d => destruct d eqn:?)
  end.

Ltac exec_all H :=
  unfold bind, ret, call, load, store, alloc, panic, defer in H;
  repeat exec_step H.

(** Case analysis on where an event sits in an explicit trace. *)
Ltac occurs H :=
  simpl in H;
  repeat (destruct H as [H | H];
          [first [discriminate H | injection H as; subst] | ]);
  try (destruct H).

(** ** The status write *)

(** What [updateCassandraClusterStatus] does, for a pointer that is
    live: one new object at the end of the heap, one Update call that
    carries it. *)
Lemma updateCassandraClusterStatus_runs (p : ptr) statefulset
    (heap : Heap) cc t out :
  heap !! p = Some cc ->
  exec (updateCassandraClusterStatus p statefulset heap) t out ->
  let sent := setStatusCurrentReplicas cc
                (appsv1.CurrentReplicas (appsv1.Status statefulset)) in
  ∃ r, t = [EvCassandraClustersUpdate
              (metav1.Namespace (cassandraapi.CassandraCluster_ObjectMeta cc))
              (List.length heap) sent r]
       ∧ out = (Returns (err_of r), (heap ++ [sent])%list).
Proof.
  intros Hp Hex sent.
  unfold updateCassandraClusterStatus, DeepCopy, bind, ret, call, load, store, alloc in Hex.
  rewrite Hp in Hex. cbn in Hex.
  rewrite (list_lookup_middle heap [] cc (List.length heap) eq_refl) in Hex. cbn in Hex.
  rewrite (list_lookup_middle heap [] cc (List.length heap) eq_refl) in Hex. cbn in Hex.
  replace (<[List.length heap := sent]> (heap ++ [cc]))%list
    with (heap ++ [sent])%list in Hex.
  2:{ replace (List.length heap) with (List.length heap + 0)%nat at 1 by lia.
      rewrite insert_app_r. reflexivity. }
  rewrite (lookup_app_l_Some heap [sent] p cc Hp) in Hex. cbn in Hex.
  rewrite (list_lookup_middle heap [] sent (List.length heap) eq_refl) in Hex.
  cbn in Hex. destruct Hex as (r & t' & -> & -> & ->).
  exists r. split; reflexivity.
Qed.

(** A pointer that is not live makes the dereference panic before any
    call. *)
Lemma updateCassandraClusterStatus_nil (p : ptr) statefulset
    (heap : Heap) t out :
  heap !! p = None ->
  exec (updateCassandraClusterStatus p statefulset heap) t out ->
  t = [] ∧ out = (Panics nilDereference, heap).
Proof.
  intros Hp Hex.
  unfold updateCassandraClusterStatus, DeepCopy, bind, ret, call, load, store, alloc in Hex.
  rewrite Hp in Hex. cbn in Hex. exact Hex.
Qed.

(** C8.  The status write leaves the cached CassandraCluster alone: for a
    cached object [cc] at [p], [updateCassandraClusterStatus] changes no
    object that was on the heap ([p] included), makes exactly one Update
    call, and that call carries a new object, at an address that was not
    in use, whose type and object metadata and spec equal those of [cc]
    and whose [Status.CurrentReplicas] is the StatefulSet's. *)
Theorem updateCassandraClusterStatus_frame (p : ptr) statefulset
    (heap heap' : Heap) cc t o :
  heap !! p = Some cc ->
  exec (updateCassandraClusterStatus p statefulset heap) t (o, heap') ->
  heap' !! p = Some cc
  ∧ (∀ q obj, heap !! q = Some obj -> heap' !! q = Some obj)
  ∧ ∃ q sent r,
      t = [EvCassandraClustersUpdate
             (metav1.Namespace (cassandraapi.CassandraCluster_ObjectMeta cc)) q sent r]
      ∧ o = Returns (err_of r)
      ∧ q ≠ p ∧ heap !! q = None ∧ heap' !! q = Some sent
      ∧ cassandraapi.CassandraCluster_TypeMeta sent = cassandraapi.CassandraCluster_TypeMeta cc
      ∧ cassandraapi.CassandraCluster_ObjectMeta sent
        = cassandraapi.CassandraCluster_ObjectMeta cc
      ∧ cassandraapi.Spec sent = cassandraapi.Spec cc
      ∧ cassandraapi.CurrentReplicas (cassandraapi.Status sent)
        = appsv1.CurrentReplicas (appsv1.Status statefulset).
Proof.
  intros Hp Hex.
  destruct (updateCassandraClusterStatus_runs p statefulset heap cc t _ Hp Hex)
    as (r & -> & Hout).
  injection Hout as -> ->.
  split; [apply lookup_app_l_Some, Hp |].
  split; [intros q obj Hq; apply lookup_app_l_Some, Hq |].
  eexists _, _, r. split; [reflexivity |]. split; [reflexivity |].
  split.
  { intros <-. apply lookup_lt_Some in Hp. lia. }
  split; [apply lookup_ge_None; lia |].
  split; [apply list_lookup_middle; reflexivity |].
  repeat split.
Qed.

(** ** Runs of [syncHandler] *)

Lemma length_append (s1 s2 : string) :
  String.length (s1 +:+ s2) = (String.length s1 + String.length s2)%nat.
Proof.
  induction s1 as [| a s IH]; [reflexivity |].
  change (S (String.length (s +:+ s2)) = S (String.length s + String.length s2)).
  rewrite IH. reflexivity.
Qed.

Lemma append_unready_ne (s : string) : s +:+ "-unready" ≠ s.
Proof.
  intros E. apply (f_equal String.length) in E.
  rewrite length_append in E. simpl in E. lia.
Qed.

Lemma eqb_append_unready (s : string) : String.eqb s (s +:+ "-unready") = false.
Proof. apply String.eqb_neq. intros E. symmetry in E. exact (append_unready_ne s E). Qed.

Ltac sync_step H :=
  cbn in H;
  lazymatch type of H with
  | ∃ x t', _ = _ :: t' ∧ _ =>
      let x := fresh "x" in
      let t := fresh "t" in
      destruct H as (x & t & -> & H)
  | _ = [] ∧ _ = _ => destruct H as [-> ->]
  | exec (pbind (updateCassandraClusterStatus _ _ _) _) _ _ =>
      let t1 := fresh "t" in
      let t2 := fresh "t" in
      let a := fresh "a" in
      let Hu := fresh "Hu" in
      apply exec_pbind in H; destruct H as (t1 & t2 & a & -> & Hu & H);
      eapply updateCassandraClusterStatus_runs in Hu; [| eassumption];
      destruct Hu as (? & -> & ->)
  | exec ?p _ _ =>
      stuck_on p ltac:(fun d =>
        lazymatch d with
        | context [err_of ?x] => is_var x; destruct x
        | _ => destruct d eqn:?
        end)
  end.

Ltac sync_cases H :=
  unfold syncHandler, getOrCreateService in H;
  unfold bind, ret, call, load, panic in H;
  repeat sync_step H.

(** Two loads of one live pointer see one object. *)
Ltac same_object :=
  repeat match goal with
         | H1 : ?h !! ?p = Some ?a, H2 : ?h !! ?p = Some ?b |- _ =>
             rewrite H1 in H2; injection H2 as <-
         end.

Ltac absurd_name :=
  exfalso;
  match goal with
  | E : ?s +:+ "-unready" = ?s |- _ => exact (append_unready_ne s E)
  | E : ?s = ?s +:+ "-unready" |- _ => symmetry in E; exact (append_unready_ne s E)
  end.

(** C6.  When the lookup of the CassandraCluster in the cache fails,
    [syncHandler] returns nil if the error is a not-found error, and
    returns the error itself otherwise; the heap is as before. *)
Theorem syncHandler_lookup_error `{Settings} key namespace name heap t out err :
  exec (syncHandler key heap) t out ->
  In (EvCassandraClustersListerGet namespace name (Err err)) t ->
  out = (Returns (if IsNotFound (Some err) then None else Some err), heap).
Proof.
  intros Hex Hin. sync_cases Hex.
  all: occurs Hin.
  all: match goal with E : IsNotFound _ = _ |- _ => rewrite E end.
  all: reflexivity.
Qed.

(** C5.  For a CassandraCluster whose [Spec.StatefulSetName] is empty,
    [syncHandler] returns nil, makes no call about a Service or a
    StatefulSet, and reports the validation failure once through
    [runtime.HandleError]; the whole trace is the lookup and that
    report. *)
Theorem syncHandler_empty_name `{Settings} key namespace name heap t out p cc :
  exec (syncHandler key heap) t out ->
  In (EvCassandraClustersListerGet namespace name (Ok p)) t ->
  heap !! p = Some cc ->
  cassandraapi.StatefulSetName (cassandraapi.Spec cc) = EmptyString ->
  out = (Returns None, heap)
  ∧ filter isDerivedCall t = []
  ∧ filter isHandleError t =
      [EvHandleError (errorString (key +:+ ": statefulset name must be specified"))]
  ∧ t = [EvCassandraClustersListerGet namespace name (Ok p);
         EvHandleError (errorString (key +:+ ": statefulset name must be specified"))].
Proof.
  intros Hex Hin Hp Hname. sync_cases Hex.
  all: occurs Hin.
  all: same_object.
  all: try match goal with
           | E : String.eqb _ _ = false |- _ =>
               rewrite Hname in E; discriminate E
           end.
  all: try congruence.
  repeat split.
Qed.

(** C2.  When the StatefulSet named by the CassandraCluster is already in
    the cache and is not controlled by the CassandraCluster,
    [syncHandler] returns the error built from [MessageResourceExists],
    makes no Create or Update call on a StatefulSet, and records exactly
    one event: a warning with reason [ErrResourceExists] on the
    CassandraCluster. *)
Theorem syncHandler_foreign_statefulset `{Settings} key namespace name heap t out
    p cc ns sn statefulset :
  exec (syncHandler key heap) t out ->
  In (EvCassandraClustersListerGet namespace name (Ok p)) t ->
  heap !! p = Some cc ->
  In (EvStatefulSetsListerGet ns sn (Ok statefulset)) t ->
  metav1.IsControlledBy (appsv1.StatefulSet_ObjectMeta statefulset)
    (cassandraapi.CassandraCluster_ObjectMeta cc) = false ->
  let msg := MessageResourceExists (metav1.Name (appsv1.StatefulSet_ObjectMeta statefulset)) in
  out = (Returns (Some (errorString (fmt_noargs msg))), heap)
  ∧ filter isStatefulSetMutation t = []
  ∧ filter isRecorderEvent t =
      [EvRecorderEvent p corev1.EventTypeWarning ErrResourceExists msg].
Proof.
  intros Hex. sync_cases Hex.
  all: intros Hin Hp Hsts Hforeign msg; subst msg.
  all: occurs Hin.
  all: occurs Hsts.
  all: same_object.
  all: try match goal with
           | E : negb (metav1.IsControlledBy _ _) = false |- _ =>
               rewrite Hforeign in E; discriminate E
           end.
  all: repeat split.
Qed.

(** C3.  When both headless Services are found by Get, the StatefulSet is
    found in the cache, it is controlled by the CassandraCluster and its
    replica count is the one of the spec, [syncHandler] makes no Create
    and no Update call on a Service or a StatefulSet. *)
Theorem syncHandler_converged_no_writes `{Settings} key namespace name heap t out
    p cc ns unready service statefulset :
  exec (syncHandler key heap) t out ->
  In (EvCassandraClustersListerGet namespace name (Ok p)) t ->
  heap !! p = Some cc ->
  let sn := cassandraapi.StatefulSetName (cassandraapi.Spec cc) in
  In (EvServicesGet ns (sn +:+ "-unready") (Ok unready)) t ->
  In (EvServicesGet ns sn (Ok service)) t ->
  In (EvStatefulSetsListerGet ns sn (Ok statefulset)) t ->
  metav1.IsControlledBy (appsv1.StatefulSet_ObjectMeta statefulset)
    (cassandraapi.CassandraCluster_ObjectMeta cc) = true ->
  appsv1.Replicas (appsv1.Spec statefulset)
    = cassandraapi.Replicas (cassandraapi.Spec cc) ->
  filter isDerivedWrite t = [].
Proof.
  intros Hex. sync_cases Hex.
  all: intros Hin Hp sn Hunready Hservice Hsts Howned Hreplicas; subst sn.
  all: occurs Hin.
  all: same_object.
  all: occurs Hsts.
  all: occurs Hunready; try absurd_name.
  all: occurs Hservice; try absurd_name.
  all: try reflexivity.
  all: try match goal with
           | E : negb (Z.eqb ?a ?b) = true |- _ =>
               assert (a = b) as -> by congruence;
               rewrite Z.eqb_refl in E; discriminate E
           end.
Qed.


(** ** Every pass has a shape *)

Ltac shape :=
  first
    [ eassumption
    | reflexivity
    | apply stage_found; shape
    | apply stage_created; [eassumption | shape]
    | apply stage_get_failed; eassumption
    | apply stage_create_failed; eassumption
    | apply status_failed
    | apply status_written
    | apply converge_conflict; eassumption
    | eapply converge_nil; eassumption
    | apply converge_unset; [eassumption | eassumption | shape]
    | eapply converge_same; [eassumption | eassumption | eassumption | shape]
    | eapply converge_update_failed; eassumption
    | eapply converge_updated; [eassumption | eassumption | eassumption | eassumption | shape] ].

Lemma syncHandler_runs `{Settings} key heap t out :
  exec (syncHandler key heap) t out -> SyncRun key heap t out.
Proof.
  intros Hex. sync_cases Hex.
  all: repeat match goal with
              | E : negb _ = true |- _ => apply negb_true_iff in E
              | E : negb _ = false |- _ => apply negb_false_iff in E
              | E : Z.eqb _ _ = true |- _ => apply Z.eqb_eq in E; subst
              | E : Z.eqb _ _ = false |- _ => apply Z.eqb_neq in E
              | E : String.eqb _ _ = true |- _ => apply String.eqb_eq in E
              | E : String.eqb _ _ = false |- _ => apply String.eqb_neq in E
              end.
  all: first
         [ eapply run_malformed; eassumption
         | eapply run_gone; eassumption
         | eapply run_lookup_failed; eassumption
         | eapply run_nil; eassumption
         | eapply run_unnamed; eassumption
         | eapply run_named; [eassumption | eassumption | eassumption |];
           unfold Reconcile; cbn [app]; shape ].
Qed.

(** Case analysis on the shape of a pass. *)
Ltac shapes :=
  repeat match goal with
         | H : SyncRun _ _ _ _ |- _ => inversion H; subst; clear H
         | H : Reconcile _ _ _ _ _ _ |- _ => unfold Reconcile in H
         | H : Stage _ _ _ _ _ _ |- _ => inversion H; subst; clear H; cbv beta in *
         | H : Converge _ _ _ _ _ _ _ |- _ => inversion H; subst; clear H
         | H : StatusWrite _ _ _ _ _ _ |- _ => inversion H; subst; clear H
         end.

Ltac pass_cases H := apply syncHandler_runs in H; shapes.

(** C10.  A pass of [syncHandler] that finds the cluster, with a
    StatefulSet name, and returns nil has made exactly one Update call
    on the CassandraCluster, which succeeded, and has ended with the
    Synced event.  The object written is the cached one with the observed
    replica count for [Status.CurrentReplicas].  Nothing compares that
    count with the stored one: when they are equal the object written
    equals the cached object, and the call is made all the same. *)
Theorem syncHandler_success_one_update `{Settings} key namespace name heap t out p cc :
  exec (syncHandler key heap) t out ->
  In (EvCassandraClustersListerGet namespace name (Ok p)) t ->
  heap !! p = Some cc ->
  cassandraapi.StatefulSetName (cassandraapi.Spec cc) ≠ EmptyString ->
  fst out = Returns None ->
  ∃ q sent updated,
    filter isCassandraClustersUpdate t =
      [EvCassandraClustersUpdate
         (metav1.Namespace (cassandraapi.CassandraCluster_ObjectMeta cc)) q sent (Ok updated)]
    ∧ (∃ observed, sent = setStatusCurrentReplicas cc observed)
    ∧ cassandraapi.Spec sent = cassandraapi.Spec cc
    ∧ (cassandraapi.CurrentReplicas (cassandraapi.Status sent)
       = cassandraapi.CurrentReplicas (cassandraapi.Status cc) -> sent = cc)
    ∧ last t = Some (EvRecorderEvent p corev1.EventTypeNormal SuccessSynced
                       MessageResourceSynced).
Proof.
  intros Hex. pass_cases Hex.
  all: intros Hin Hp Hname Hnil.
  all: try discriminate Hnil.
  all: occurs Hin.
  all: same_object.
  all: try contradiction.
  all: eexists _, _, _; split; [reflexivity |].
  all: split; [eexists; reflexivity |].
  all: split; [reflexivity |].
  all: split; [| reflexivity].
  all: subst sent.
  all: match goal with
       | |- _ -> setStatusCurrentReplicas ?c _ = _ =>
           destruct c as [tm om sp [cur]]; unfold setStatusCurrentReplicas; simpl;
           intros ->; reflexivity
       end.
Qed.

(** ** Order of the get-or-create steps *)

Lemma checked_split (final : error -> Prop) t :
  checked final t ->
  ∀ t1 e t2 err,
    t = (t1 ++ e :: t2)%list -> unexpectedError e = Some err -> t2 = [] ∧ final err.
Proof.
  intros Hc t1. revert t Hc.
  induction t1 as [| e1 t1 IH]; intros t Hc e t2 err -> He; simpl in Hc.
  - rewrite He in Hc. exact Hc.
  - destruct (unexpectedError e1) as [err1 |] eqn:E1.
    + destruct Hc as [Hnil _]. destruct t1; discriminate Hnil.
    + exact (IH _ Hc e t2 err eq_refl He).
Qed.

Lemma derivedStep_unready `{Settings} cc :
  String.eqb (metav1.Name (corev1.Service_ObjectMeta (newHeadLessServiceUnready cc)))
    (cassandraapi.StatefulSetName (cassandraapi.Spec cc) +:+ "-unready") = true.
Proof. apply String.eqb_refl. Qed.

Lemma derivedStep_service `{Settings} cc :
  metav1.Name (corev1.Service_ObjectMeta (newHeadLessService cc))
  = cassandraapi.StatefulSetName (cassandraapi.Spec cc).
Proof. reflexivity. Qed.

Ltac steps :=
  first
    [ exact I
    | apply stage_found; steps
    | apply stage_created; [eassumption | steps]
    | apply stage_get_failed; eassumption
    | apply stage_create_failed; eassumption ].

(** C9.  The get-or-create calls of [syncHandler] come in the fixed order
    unready Service (Get, then Create), Service (Get, then Create),
    StatefulSet (Get, then Create), each at most once; and an unexpected
    error of any of them (a Get failing other than by not-found, a Create
    failing) is the last event of the trace and is what [syncHandler]
    returns: nothing is fetched or created after it.  And the steps are
    made: for a cluster with a StatefulSet name, what follows the lookup
    of the cluster is the Get of the unready Service, then its Create if
    it was not found, and each later step starts right after the step
    before it ended with an object in hand ([DerivedSteps]). *)
Theorem syncHandler_derived_order `{Settings} key namespace name heap t out p cc :
  exec (syncHandler key heap) t out ->
  In (EvCassandraClustersListerGet namespace name (Ok p)) t ->
  heap !! p = Some cc ->
  (increasing (omap (derivedStep (cassandraapi.StatefulSetName (cassandraapi.Spec cc))) t)
     = true
   ∧ ∀ t1 e t2 err,
       t = (t1 ++ e :: t2)%list -> unexpectedError e = Some err ->
       t2 = [] ∧ out = (Returns (Some err), heap))
  ∧ (cassandraapi.StatefulSetName (cassandraapi.Spec cc) ≠ EmptyString ->
     ∃ t', t = EvCassandraClustersListerGet namespace name (Ok p) :: t'
           ∧ DerivedSteps heap cc t' out).
Proof.
  intros Hex. pass_cases Hex.
  all: intros Hin Hp.
  all: occurs Hin.
  all: same_object.
  all: try congruence.
  all: split;
    [ split;
      [ cbn [omap list_omap derivedStep];
        rewrite ?derivedStep_unready, ?derivedStep_service, ?eqb_append_unready,
          ?String.eqb_refl;
        reflexivity
      | lazymatch goal with
        | |- ∀ t1 e t2 err, ?T = _ -> _ -> _ ∧ ?O = _ =>
            apply (checked_split (fun err => O = (Returns (Some err), heap)) T)
        end;
        cbn [checked unexpectedError app];
        repeat match goal with
               | E : IsNotFound _ = _ |- _ => rewrite E
               end;
        cbn [checked unexpectedError app]; auto ]
    | intros Hname;
      first [ contradiction
            | eexists; split; [reflexivity |]; unfold DerivedSteps; steps ] ].
Qed.

(** ** The worker *)

Lemma syncHandler_no_requeue `{Settings} key heap t out :
  exec (syncHandler key heap) t out -> filter isWorkqueueAdd t = [].
Proof.
  intros Hex. sync_cases Hex.
  all: reflexivity.
Qed.

(** No run of [processNextWorkItem] adds anything to the work queue,
    whatever [syncHandler] returns. *)
Lemma processNextWorkItem_never_requeues `{Settings} heap t out :
  exec (processNextWorkItem heap) t out -> filter isWorkqueueAdd t = [].
Proof.
  intros Hex. unfold processNextWorkItem in Hex.
  unfold bind at 1, call at 1 in Hex. cbn in Hex.
  destruct Hex as ([obj shutdown] & t1 & -> & Hex). cbn in Hex.
  destruct shutdown; cbn in Hex.
  { destruct Hex as [-> ->]. reflexivity. }
  destruct obj as [key | gosyntax].
  - unfold bind at 1, defer in Hex. cbn in Hex.
    rewrite exec_pbind in Hex. destruct Hex as (ta & tb & a & -> & Ha & Hb).
    rewrite exec_pbind in Ha. destruct Ha as (tc & td & [o h] & -> & Hc & Hd).
    unfold bind at 1 in Hc. rewrite exec_pbind in Hc.
    destruct Hc as (ts & te & [os hs] & -> & Hs & He).
    apply syncHandler_no_requeue in Hs.
    rewrite filter_cons_False by (intros []).
    rewrite !filter_app, Hs.
    assert (filter isWorkqueueAdd te = []) as ->.
    { destruct os as [[err |] | reason]; exec_all He; reflexivity. }
    assert (filter isWorkqueueAdd td = [] ∧ a = (o, h)) as [-> ->].
    { exec_all Hd. split; reflexivity. }
    assert (filter isWorkqueueAdd tb = []) as ->.
    { destruct o as [[err |] | reason]; exec_all Hb; reflexivity. }
    reflexivity.
  - exec_all Hex; reflexivity.
Qed.

(** C1, at the failing input.  The key "default/demo" is on the queue and
    the API server times out, so [syncHandler] returns an error.
    [processNextWorkItem] then calls Done and HandleError and nothing
    else on the queue: afterwards the key is neither queued nor waiting
    for a rate-limited add, and its failure count is what it was. *)
Theorem processNextWorkItem_error_drops_key :
  let ran := run Fake.env (processNextWorkItem (H := sampleSettings) [demoCluster])
               (world [] [] (Some serverTimeout)) in
  resultOf ran = (Returns true, [demoCluster])
  ∧ traceOf ran =
      [ EvWorkqueueGet (demoKey, false);
        EvCassandraClustersListerGet "default" "demo" (Ok 0%nat);
        EvServicesGet "default" "web-unready" (Err serverTimeout);
        EvWorkqueueDone demoKey;
        EvHandleError (errorString
          "error syncing 'default/demo': the server was unable to return a response in the time allotted") ]
  ∧ filter isWorkqueueAdd (traceOf ran) = []
  ∧ Fake.queue (worldOf ran) = []
  ∧ Fake.waiting (worldOf ran) = []
  ∧ Fake.processing (worldOf ran) = []
  ∧ Fake.failures (worldOf ran) = [demoKey].
Proof. vm_compute. repeat split. Qed.

(** ** Update handlers *)

(** C7, as stated, fails: the update handler registered for
    CassandraCluster objects is handed the same object twice, hence one
    resource version, and adds its key to the queue. *)
Lemma UpdateFunc_suppression_counterexample :
  ¬ (∀ kind, suppressesResync kind).
Proof.
  intros Hall.
  specialize (Hall KindCassandraCluster (ObjCassandraCluster 0) (ObjCassandraCluster 0)
                [demoCluster] "7" (traceOf cassandraclusterUpdateRun)
                (resultOf cassandraclusterUpdateRun) eq_refl eq_refl (run_exec _ _ _)).
  vm_compute in Hall. discriminate Hall.
Qed.

(** C7, amended.  The update handler for StatefulSets compares the
    resource versions of the old and the new object and, when they are
    equal, makes no call at all, so it adds nothing to the queue.  The
    update handler for CassandraClusters makes no comparison: whatever
    the old object is, it adds the key of the new object to the queue
    with a rate-limited add. *)
Theorem UpdateFunc_by_kind :
  suppressesResync KindStatefulSet
  ∧ (∀ old new heap version t out,
       resourceVersionOf heap old = Some version ->
       resourceVersionOf heap new = Some version ->
       exec (OnUpdate (NewController_handlers KindStatefulSet) old new heap) t out ->
       t = [])
  ∧ (∀ old p heap cc t out,
       heap !! p = Some cc ->
       exec (OnUpdate (NewController_handlers KindCassandraCluster) old
               (ObjCassandraCluster p) heap) t out ->
       t = [EvWorkqueueAddRateLimited
              (ItemString (MetaNamespaceKey (cassandraapi.CassandraCluster_ObjectMeta cc)))]
       ∧ out = (Returns tt, heap)).
Proof.
  assert (∀ old new heap version t out,
            resourceVersionOf heap old = Some version ->
            resourceVersionOf heap new = Some version ->
            exec (OnUpdate (NewController_handlers KindStatefulSet) old new heap) t out ->
            t = []) as Hsts.
  { intros old new heap version t out Hold Hnew Hex.
    unfold OnUpdate in Hex. cbn [NewController_handlers UpdateFunc] in Hex.
    destruct new; try (exec_all Hex; reflexivity).
    destruct old; try (exec_all Hex; reflexivity).
    simpl in Hold, Hnew. injection Hold as Hold. injection Hnew as Hnew.
    rewrite Hold, Hnew, String.eqb_refl in Hex.
    exec_all Hex. reflexivity. }
  split; [| split; [exact Hsts |]].
  - intros old new heap version t out Hold Hnew Hex.
    rewrite (Hsts old new heap version t out Hold Hnew Hex). reflexivity.
  - intros old p heap cc t out Hp Hex.
    unfold OnUpdate in Hex. cbn [NewController_handlers UpdateFunc] in Hex.
    unfold enqueueCassandraCluster, MetaNamespaceKeyFunc, Accessor in Hex.
    unfold bind, ret, call, load in Hex. rewrite Hp in Hex.
    exec_all Hex.
    match goal with x : unit |- _ => destruct x end.
    split; reflexivity.
Qed.

(** ** The theorems on the sample cluster *)

Ltac found := vm_compute; repeat (first [left; reflexivity | right]).

Lemma syncHandler_lookup_error_witness :
  resultOf goneRun = (Returns None, [demoCluster]).
Proof.
  apply (syncHandler_lookup_error (H := sampleSettings) "default/gone" "default" "gone"
           [demoCluster] (traceOf goneRun) (resultOf goneRun) (Fake.notFound "gone")).
  - exact (run_exec _ _ _).
  - found.
Defined.

Lemma syncHandler_empty_name_witness :
  resultOf unnamedRun = (Returns None, [unnamedCluster])
  ∧ filter isDerivedCall (traceOf unnamedRun) = []
  ∧ filter isHandleError (traceOf unnamedRun) =
      [EvHandleError (errorString ("default/demo" +:+ ": statefulset name must be specified"))]
  ∧ traceOf unnamedRun =
      [EvCassandraClustersListerGet "default" "demo" (Ok 0%nat);
       EvHandleError (errorString ("default/demo" +:+ ": statefulset name must be specified"))].
Proof.
  apply (syncHandler_empty_name (H := sampleSettings) "default/demo" "default" "demo"
           [unnamedCluster] (traceOf unnamedRun) (resultOf unnamedRun) 0%nat unnamedCluster).
  - exact (run_exec _ _ _).
  - found.
  - reflexivity.
  - reflexivity.
Defined.

Lemma syncHandler_foreign_statefulset_witness :
  resultOf foreignRun =
    (Returns (Some (errorString
       (@fmt_noargs sampleSettings (MessageResourceExists (H := sampleSettings) "web")))), [demoCluster])
  ∧ filter isStatefulSetMutation (traceOf foreignRun) = []
  ∧ filter isRecorderEvent (traceOf foreignRun) =
      [EvRecorderEvent 0%nat corev1.EventTypeWarning ErrResourceExists
         (MessageResourceExists (H := sampleSettings) "web")].
Proof.
  apply (syncHandler_foreign_statefulset (H := sampleSettings) "default/demo" "default"
           "demo" [demoCluster] (traceOf foreignRun) (resultOf foreignRun) 0%nat
           demoCluster "default" "web" foreignWeb).
  - exact (run_exec _ _ _).
  - found.
  - reflexivity.
  - found.
  - vm_compute. reflexivity.
Defined.

Lemma syncHandler_converged_no_writes_witness :
  filter isDerivedWrite (traceOf secondRun) = [].
Proof.
  apply (syncHandler_converged_no_writes (H := sampleSettings) "default/demo" "default"
           "demo" (snd (resultOf convergedRun)) (traceOf secondRun) (resultOf secondRun)
           0%nat demoCluster "default"
           (newHeadLessServiceUnready (H := sampleSettings) demoCluster)
           (newHeadLessService (H := sampleSettings) demoCluster)
           (ownedWeb 3 3)).
  - exact (run_exec _ _ _).
  - found.
  - vm_compute. reflexivity.
  - found.
  - found.
  - found.
  - vm_compute. reflexivity.
  - reflexivity.
Defined.


Lemma updateCassandraClusterStatus_frame_witness :
  snd (resultOf statusRun) !! 0%nat = Some demoCluster
  ∧ (∀ q obj, [demoCluster] !! q = Some obj -> snd (resultOf statusRun) !! q = Some obj)
  ∧ ∃ q sent r,
      traceOf statusRun = [EvCassandraClustersUpdate "default" q sent r]
      ∧ fst (resultOf statusRun) = Returns (err_of r)
      ∧ q ≠ 0%nat ∧ [demoCluster] !! q = None ∧ snd (resultOf statusRun) !! q = Some sent
      ∧ cassandraapi.CassandraCluster_TypeMeta sent
        = cassandraapi.CassandraCluster_TypeMeta demoCluster
      ∧ cassandraapi.CassandraCluster_ObjectMeta sent
        = cassandraapi.CassandraCluster_ObjectMeta demoCluster
      ∧ cassandraapi.Spec sent = cassandraapi.Spec demoCluster
      ∧ cassandraapi.CurrentReplicas (cassandraapi.Status sent) = 3%Z.
Proof.
  apply (updateCassandraClusterStatus_frame 0%nat (ownedWeb 3 3)
           [demoCluster] (snd (resultOf statusRun)) demoCluster (traceOf statusRun)
           (fst (resultOf statusRun))).
  - reflexivity.
  - apply (run_exec_eq Fake.env _ (world [] [] None)); vm_compute; reflexivity.
Defined.

(** The event at a given place of a trace. *)
Ltac at_index n := apply (nth_error_In _ n); vm_compute; reflexivity.

Lemma syncHandler_derived_order_witness :
  (increasing (omap (derivedStep "web") (traceOf staleRun)) = true
   ∧ omap (derivedStep "web") (traceOf staleRun) = [1; 2; 3; 4; 5; 6]%nat
   ∧ resultOf staleRun = (Returns (Some (Fake.alreadyExists "web")), [demoCluster]))
  ∧ ∃ t', traceOf staleRun = EvCassandraClustersListerGet "default" "demo" (Ok 0%nat) :: t'
          ∧ DerivedSteps (H := sampleSettings) [demoCluster] demoCluster t'
              (resultOf staleRun).
Proof.
  destruct (syncHandler_derived_order (H := sampleSettings) "default/demo" "default" "demo"
              [demoCluster] (traceOf staleRun) (resultOf staleRun) 0%nat demoCluster)
    as [[Horder Habort] Hsteps].
  - exact (run_exec _ _ _).
  - at_index 0%nat.
  - reflexivity.
  - split; [split; [exact Horder | split; [vm_compute; reflexivity |]] |].
    + apply (Habort (firstn 6 (traceOf staleRun))
               (EvStatefulSetsCreate "default"
                  (newStatefulSet (H := sampleSettings) demoCluster)
                  (Err (Fake.alreadyExists "web")))
               [] (Fake.alreadyExists "web")).
      * vm_compute. reflexivity.
      * reflexivity.
    + apply Hsteps. intros E. discriminate E.
Defined.

Lemma syncHandler_success_one_update_witness :
  (∃ q sent updated,
     filter isCassandraClustersUpdate (traceOf settledRun) =
       [EvCassandraClustersUpdate "default" q sent (Ok updated)]
     ∧ (∃ observed, sent = setStatusCurrentReplicas settledCluster observed)
     ∧ cassandraapi.Spec sent = cassandraapi.Spec settledCluster
     ∧ (cassandraapi.CurrentReplicas (cassandraapi.Status sent)
        = cassandraapi.CurrentReplicas (cassandraapi.Status settledCluster) ->
        sent = settledCluster)
     ∧ last (traceOf settledRun)
       = Some (EvRecorderEvent 0%nat corev1.EventTypeNormal SuccessSynced
                 MessageResourceSynced))
  ∧ filter isCassandraClustersUpdate (traceOf settledRun) =
      [EvCassandraClustersUpdate "default" 1%nat settledCluster (Ok settledCluster)].
Proof.
  split.
  - apply (syncHandler_success_one_update (H := sampleSettings) "default/demo" "default"
             "demo" [settledCluster] (traceOf settledRun) (resultOf settledRun) 0%nat
             settledCluster).
    + exact (run_exec _ _ _).
    + at_index 0%nat.
    + reflexivity.
    + intros E. discriminate E.
    + vm_compute. reflexivity.
  - vm_compute. reflexivity.
Defined.

Lemma UpdateFunc_by_kind_witness :
  filter isWorkqueueAdd (traceOf statefulsetUpdateRun) = []
  ∧ traceOf statefulsetUpdateRun = []
  ∧ traceOf cassandraclusterUpdateRun = [EvWorkqueueAddRateLimited demoKey]
  ∧ resultOf cassandraclusterUpdateRun = (Returns tt, [demoCluster]).
Proof.
  destruct UpdateFunc_by_kind as (Hqueue & Hsts & Hcc).
  split; [| split].
  - exact (Hqueue (ObjStatefulSet foreignWeb) (ObjStatefulSet foreignWeb) [demoCluster]
             "3" (traceOf statefulsetUpdateRun) (resultOf statefulsetUpdateRun)
             eq_refl eq_refl (run_exec _ _ _)).
  - exact (Hsts (ObjStatefulSet foreignWeb) (ObjStatefulSet foreignWeb) [demoCluster]
             "3" (traceOf statefulsetUpdateRun) (resultOf statefulsetUpdateRun)
             eq_refl eq_refl (run_exec _ _ _)).
  - exact (Hcc (ObjCassandraCluster 0) 0%nat [demoCluster] demoCluster
             (traceOf cassandraclusterUpdateRun) (resultOf cassandraclusterUpdateRun)
             eq_refl (run_exec _ _ _)).
Defined.

(** ** Keys *)

Lemma Split_slash_length (s : string) :
  List.length (Split_slash s) = S (slashes s).
Proof.
  induction s as [| c rest IH]; [reflexivity |].
  simpl. destruct (Ascii.eqb c "/"%char).
  - simpl. rewrite IH. reflexivity.
  - destruct (Split_slash rest) as [| p ps]; [discriminate IH | exact IH].
Qed.

Lemma Split_slash_plain (s : string) : slashes s = O -> Split_slash s = [s].
Proof.
  induction s as [| c rest IH]; [reflexivity |].
  simpl. destruct (Ascii.eqb c "/"%char); [discriminate |].
  intros Hn. rewrite (IH Hn). reflexivity.
Qed.

Lemma Split_slash_append (a b : string) :
  slashes a = O -> Split_slash (a +:+ "/" +:+ b) = a :: Split_slash b.
Proof.
  induction a as [| c rest IH]; [reflexivity |].
  intros Hn. simpl in Hn.
  change (String c rest +:+ "/" +:+ b) with (String c (rest +:+ "/" +:+ b)).
  simpl. destruct (Ascii.eqb c "/"%char); [discriminate |].
  rewrite (IH Hn). reflexivity.
Qed.

Lemma SplitMetaNamespaceKey_malformed `{Settings} (key : string) :
  2 <= slashes key ->
  SplitMetaNamespaceKey key = Err (errorString ("unexpected key format: " +:+ fmt_q key)).
Proof.
  intros Hs. unfold SplitMetaNamespaceKey.
  pose proof (Split_slash_length key) as Hl.
  destruct (Split_slash key) as [| a [| b [| c l]]]; simpl in Hl; try lia.
  reflexivity.
Qed.

Lemma SplitMetaNamespaceKey_MetaNamespaceKey `{Settings} (meta : metav1.ObjectMeta) :
  slashes (metav1.Namespace meta) = O ->
  slashes (metav1.Name meta) = O ->
  SplitMetaNamespaceKey (MetaNamespaceKey meta)
  = Ok (metav1.Namespace meta, metav1.Name meta).
Proof.
  intros Hns Hname. unfold SplitMetaNamespaceKey, MetaNamespaceKey.
  destruct (metav1.Namespace meta) as [| c ns] eqn:E.
  - simpl. rewrite (Split_slash_plain _ Hname). reflexivity.
  - cbn [String.length Nat.ltb Nat.leb].
    rewrite (Split_slash_append _ _ Hns), (Split_slash_plain _ Hname). reflexivity.
Qed.

Lemma syncHandler_first_call `{Settings} key namespace name heap t out :
  SplitMetaNamespaceKey key = Ok (namespace, name) ->
  exec (syncHandler key heap) t out ->
  ∃ r t', t = EvCassandraClustersListerGet namespace name r :: t'.
Proof.
  intros Hk Hex. unfold syncHandler in Hex. rewrite Hk in Hex.
  unfold bind at 1, call at 1 in Hex. cbn in Hex.
  destruct Hex as (r & t' & -> & _). eauto.
Qed.

(** ** What the worker does around [syncHandler] *)

Lemma syncHandler_no_queue_call `{Settings} key heap t out :
  exec (syncHandler key heap) t out -> filter isWorkqueueCall t = [].
Proof.
  intros Hex. sync_cases Hex.
  all: reflexivity.
Qed.

(** Every run of [processNextWorkItem] is a shutdown, the refusal of an
    item that is not a string, or a run of [syncHandler] on the key
    between the Get and the calls of [afterSync]. *)
Lemma processNextWorkItem_runs `{Settings} heap t out :
  exec (processNextWorkItem heap) t out ->
  (∃ i, t = [EvWorkqueueGet (i, true)] ∧ out = (Returns false, heap))
  ∨ (∃ g, t = [ EvWorkqueueGet (ItemOther g, false);
                EvWorkqueueForget (ItemOther g);
                EvHandleError (errorString ("expected string in workqueue but got " +:+ g));
                EvWorkqueueDone (ItemOther g) ]
          ∧ out = (Returns true, heap))
  ∨ (∃ key ts o hs,
       exec (syncHandler key heap) ts (o, hs)
       ∧ t = (EvWorkqueueGet (ItemString key, false) :: ts ++ afterSync key o)%list
       ∧ out = (resultAfterSync o, hs)).
Proof.
  intros Hex. unfold processNextWorkItem in Hex.
  unfold bind at 1, call at 1 in Hex. cbn in Hex.
  destruct Hex as ([obj shutdown] & t1 & -> & Hex). cbn in Hex.
  destruct shutdown; cbn in Hex.
  { destruct Hex as [-> ->]. left. eauto. }
  right. destruct obj as [key | gosyntax].
  - right. unfold bind at 1, defer in Hex. cbn in Hex.
    rewrite exec_pbind in Hex. destruct Hex as (ta & tb & a & -> & Ha & Hb).
    rewrite exec_pbind in Ha. destruct Ha as (tc & td & [o h] & -> & Hc & Hd).
    unfold bind at 1 in Hc. rewrite exec_pbind in Hc.
    destruct Hc as (ts & te & [os hs] & -> & Hs & He).
    exists key, ts, os, hs. split; [exact Hs |].
    destruct os as [[err |] | reason].
    all: exec_all He; exec_all Hd; exec_all Hb.
    all: rewrite ?app_nil_r, <- ?app_assoc; split; reflexivity.
  - left. exec_all Hex. eauto.
Qed.

(** The other way round: a run of [syncHandler] extends to a run of
    [processNextWorkItem]. *)
Lemma processNextWorkItem_string_run `{Settings} key heap ts o hs :
  exec (syncHandler key heap) ts (o, hs) ->
  exec (processNextWorkItem heap)
    (EvWorkqueueGet (ItemString key, false) :: ts ++ afterSync key o)%list
    (resultAfterSync o, hs).
Proof.
  intros Hs. unfold processNextWorkItem.
  unfold bind at 1, call at 1. cbn.
  exists (ItemString key, false), (ts ++ afterSync key o)%list.
  split; [reflexivity |]. cbn.
  unfold bind at 1, defer. cbn.
  destruct o as [[err |] | reason].
  - apply exec_pbind.
    exists (ts ++ [EvWorkqueueDone (ItemString key)])%list,
      [EvHandleError (errorString ("error syncing '" +:+ key +:+ "': " +:+ Error err))],
      (Returns (Some (errorString ("error syncing '" +:+ key +:+ "': " +:+ Error err))), hs).
    split; [rewrite <- app_assoc; reflexivity |]. split.
    + apply exec_pbind. eexists ts, _, (_, hs). split; [reflexivity |]. split.
      * unfold bind at 1. apply exec_pbind.
        eexists ts, [], (_, hs). split; [rewrite app_nil_r; reflexivity |].
        split; [exact Hs |]. cbn. split; reflexivity.
      * cbn. eexists tt, []. split; [reflexivity |]. split; reflexivity.
    + cbn. eexists tt, []. split; [reflexivity |]. split; reflexivity.
  - apply exec_pbind.
    exists (ts ++ afterSync key (Returns None))%list, [], (Returns None, hs).
    split; [rewrite app_nil_r; reflexivity |]. split.
    + apply exec_pbind.
      eexists (ts ++ [EvWorkqueueForget (ItemString key);
                      EvGlogInfof 0 ("Successfully synced '" +:+ key +:+ "'")])%list,
        [EvWorkqueueDone (ItemString key)], (Returns None, hs).
      split; [rewrite <- app_assoc; reflexivity |]. split.
      * unfold bind at 1. apply exec_pbind.
        eexists ts, _, (_, hs). split; [reflexivity |].
        split; [exact Hs |]. cbn.
        eexists tt, _. split; [reflexivity |]. cbn.
        eexists tt, _. split; [reflexivity |]. cbn. split; reflexivity.
      * cbn. eexists tt, []. split; [reflexivity |]. split; reflexivity.
    + cbn. split; reflexivity.
  - apply exec_pbind.
    exists (ts ++ [EvWorkqueueDone (ItemString key)])%list, [], (Panics reason, hs).
    split; [rewrite app_nil_r; reflexivity |]. split.
    + apply exec_pbind. eexists ts, _, (_, hs). split; [reflexivity |]. split.
      * unfold bind at 1. apply exec_pbind.
        eexists ts, [], (_, hs). split; [rewrite app_nil_r; reflexivity |].
        split; [exact Hs |]. cbn. split; reflexivity.
      * cbn. eexists tt, []. split; [reflexivity |]. split; reflexivity.
    + cbn. split; reflexivity.
Qed.

(** X1.  A key with two or more slashes is not looked up: [syncHandler]
    reports it once through [runtime.HandleError], makes no other call
    and returns nil, so the key is not retried. *)
Theorem syncHandler_malformed_key `{Settings} key heap t out :
  2 <= slashes key ->
  exec (syncHandler key heap) t out ->
  t = [EvHandleError (errorString ("invalid resource key: " +:+ key))]
  ∧ out = (Returns None, heap).
Proof.
  intros Hs Hex. unfold syncHandler in Hex.
  rewrite (SplitMetaNamespaceKey_malformed key Hs) in Hex.
  exec_all Hex. split; reflexivity.
Qed.

(** X2.  The key that [enqueueCassandraCluster] puts on the queue for a
    cached CassandraCluster leads [syncHandler] back to it: when neither
    the namespace nor the name holds a slash, the one call of the
    enqueue is a rate-limited add of a key, and every run of
    [syncHandler] on that key starts with the lookup of the object's
    namespace and name. *)
Theorem enqueued_key_finds_cluster `{Settings} p heap cc t out :
  heap !! p = Some cc ->
  slashes (metav1.Namespace (cassandraapi.CassandraCluster_ObjectMeta cc)) = O ->
  slashes (metav1.Name (cassandraapi.CassandraCluster_ObjectMeta cc)) = O ->
  exec (enqueueCassandraCluster (ObjCassandraCluster p) heap) t out ->
  ∃ key,
    t = [EvWorkqueueAddRateLimited (ItemString key)]
    ∧ out = (Returns tt, heap)
    ∧ ∀ heap' ts o,
        exec (syncHandler key heap') ts o ->
        ∃ r ts',
          ts = EvCassandraClustersListerGet
                 (metav1.Namespace (cassandraapi.CassandraCluster_ObjectMeta cc))
                 (metav1.Name (cassandraapi.CassandraCluster_ObjectMeta cc)) r :: ts'.
Proof.
  intros Hp Hns Hname Hex.
  unfold enqueueCassandraCluster, MetaNamespaceKeyFunc, Accessor in Hex.
  unfold bind, ret, call, load in Hex. rewrite Hp in Hex.
  exec_all Hex.
  match goal with x : unit |- _ => destruct x end.
  eexists. split; [reflexivity |]. split; [reflexivity |].
  intros heap' ts o Hs.
  exact (syncHandler_first_call _ _ _ heap' ts o
           (SplitMetaNamespaceKey_MetaNamespaceKey _ Hns Hname) Hs).
Qed.

(** X3.  How the worker composes with [syncHandler]: the runs of
    [processNextWorkItem] that dequeue the string [key] are exactly the
    runs of [syncHandler] on [key], put between the Get and what
    follows the sync.  A nil result is followed by Forget, a log line
    and Done; an error by Done and one HandleError, with no Forget; a
    panic by Done alone, and the panic goes on. *)
Theorem processNextWorkItem_around_sync `{Settings} key heap t out :
  (exec (processNextWorkItem heap) t out
   ∧ hd_error t = Some (EvWorkqueueGet (ItemString key, false)))
  <->
  ∃ ts o hs,
    exec (syncHandler key heap) ts (o, hs)
    ∧ t = (EvWorkqueueGet (ItemString key, false) :: ts ++ afterSync key o)%list
    ∧ out = (resultAfterSync o, hs).
Proof.
  split.
  - intros [Hex Hhd].
    destruct (processNextWorkItem_runs heap t out Hex)
      as [(i & -> & _) | [(g & -> & _) | (key' & ts & o & hs & Hs & -> & ->)]];
      simpl in Hhd; try discriminate Hhd.
    injection Hhd as ->. exists ts, o, hs. auto.
  - intros (ts & o & hs & Hs & -> & ->).
    split; [exact (processNextWorkItem_string_run key heap ts o hs Hs) | reflexivity].
Qed.

(** X4.  [processNextWorkItem] returns false exactly when the queue
    reports that it is shutting down, and then it has made no other
    call.  Once an item was handed out the answer is true, whatever
    [syncHandler] returned, unless the sync panicked: an error does not
    end the worker loop. *)
Theorem processNextWorkItem_stops_only_on_shutdown `{Settings} heap t out :
  exec (processNextWorkItem heap) t out ->
  (fst out = Returns false <-> ∃ i, t = [EvWorkqueueGet (i, true)])
  ∧ (∀ i, In (EvWorkqueueGet (i, false)) t ->
          fst out = Returns true ∨ ∃ reason, fst out = Panics reason).
Proof.
  intros Hex.
  destruct (processNextWorkItem_runs heap t out Hex)
    as [(i & -> & ->) | [(g & -> & ->) | (key & ts & o & hs & Hs & -> & ->)]].
  - split; [split; eauto |].
    intros i' [Hf | []]. discriminate Hf.
  - split; [split |].
    + intros Hf. discriminate Hf.
    + intros (i' & Hf). discriminate Hf.
    + intros _ _. left. reflexivity.
  - split; [split |].
    + destruct o as [[e |] | r]; intros Hf; discriminate Hf.
    + intros (i' & Hf). injection Hf as _ Hf.
      destruct o as [[e |] | r]; destruct ts; discriminate Hf.
    + intros _ _. destruct o as [[e |] | r]; simpl; eauto.
Qed.

Lemma filter_none_In (P : Event -> bool) (l : list Event) (e : Event) :
  filter P l = [] -> In e l -> P e = false.
Proof.
  induction l as [| a l IH]; intros Hf []; subst.
  - destruct (P e) eqn:E; [| reflexivity].
    rewrite filter_cons_True in Hf by (rewrite E; exact I). discriminate Hf.
  - apply IH; [| assumption].
    destruct (P a) eqn:E.
    + rewrite filter_cons_True in Hf by (rewrite E; exact I). discriminate Hf.
    + rewrite filter_cons_False in Hf by (rewrite E; exact id). exact Hf.
Qed.

Lemma filter_none_sub (P Q : Event -> bool) (l : list Event) :
  (∀ e, P e = true -> Q e = true) -> filter Q l = [] -> filter P l = [].
Proof.
  intros Hsub. induction l as [| a l IH]; intros Hf; [reflexivity |].
  destruct (Q a) eqn:E.
  - rewrite filter_cons_True in Hf by (rewrite E; exact I). discriminate Hf.
  - rewrite filter_cons_False in Hf by (rewrite E; exact id).
    rewrite filter_cons_False; [exact (IH Hf) |].
    destruct (P a) eqn:E'; [| exact id]. rewrite (Hsub a E') in E. discriminate E.
Qed.

(** X5.  Every item that [processNextWorkItem] takes off the queue is
    marked Done exactly once, as the last call on the queue, also when
    the sync fails or panics; the only other queue call is a Forget of
    the same item. *)
Theorem processNextWorkItem_done_once `{Settings} heap t out i :
  exec (processNextWorkItem heap) t out ->
  In (EvWorkqueueGet (i, false)) t ->
  filter isWorkqueueDone t = [EvWorkqueueDone i]
  ∧ (filter isWorkqueueCall t = [EvWorkqueueGet (i, false); EvWorkqueueDone i]
     ∨ filter isWorkqueueCall t =
         [EvWorkqueueGet (i, false); EvWorkqueueForget i; EvWorkqueueDone i]).
Proof.
  intros Hex Hin.
  destruct (processNextWorkItem_runs heap t out Hex)
    as [(i' & -> & ->) | [(g & -> & ->) | (key & ts & o & hs & Hs & -> & ->)]].
  - destruct Hin as [Hf | []]. discriminate Hf.
  - occurs Hin. split; [reflexivity | right; reflexivity].
  - pose proof (syncHandler_no_queue_call key heap ts _ Hs) as Hq.
    assert (filter isWorkqueueDone ts = []) as Hd.
    { apply (filter_none_sub _ isWorkqueueCall); [| exact Hq].
      intros [] E; (discriminate E || reflexivity). }
    destruct Hin as [Hf | Hin].
    + injection Hf as <-.
      rewrite filter_cons_False by (exact id).
      rewrite filter_cons_True by (exact I).
      rewrite !filter_app, Hd, Hq.
      destruct o as [[e |] | r]; (split; [reflexivity |]); simpl; auto.
    + exfalso. apply in_app_or in Hin as [Hin | Hin].
      * pose proof (filter_none_In _ _ _ Hq Hin) as E. discriminate E.
      * destruct o as [[e |] | r]; occurs Hin.
Qed.

(** X6.  An item that is not a string never reaches [syncHandler]: it is
    forgotten, reported once and marked Done, and the worker goes on. *)
Theorem processNextWorkItem_rejects_other_item `{Settings} heap t out g :
  exec (processNextWorkItem heap) t out ->
  In (EvWorkqueueGet (ItemOther g, false)) t ->
  t = [ EvWorkqueueGet (ItemOther g, false);
        EvWorkqueueForget (ItemOther g);
        EvHandleError (errorString ("expected string in workqueue but got " +:+ g));
        EvWorkqueueDone (ItemOther g) ]
  ∧ out = (Returns true, heap).
Proof.
  intros Hex Hin.
  destruct (processNextWorkItem_runs heap t out Hex)
    as [(i' & -> & ->) | [(g' & -> & ->) | (key & ts & o & hs & Hs & -> & ->)]].
  - destruct Hin as [Hf | []]. discriminate Hf.
  - occurs Hin. split; reflexivity.
  - exfalso. destruct Hin as [Hf | Hin]; [discriminate Hf |].
    pose proof (syncHandler_no_queue_call key heap ts _ Hs) as Hq.
    apply in_app_or in Hin as [Hin | Hin].
    + pose proof (filter_none_In _ _ _ Hq Hin) as E. discriminate E.
    + destruct o as [[e |] | r]; occurs Hin.
Qed.

(** X7.  The worker loop keeps the queue's books: in every run of
    [runWorker], however long, each item handed out by Get has been
    marked Done, and the loop is left in the regular way only after a
    Get that reported the shutdown. *)
Theorem runWorker_done_per_item `{Settings} fuel heap t out :
  exec (runWorker fuel heap) t out ->
  List.length (filter isWorkqueueDone t) = List.length (filter isDequeue t)
  ∧ (fst out = Returns true -> ∃ i t', t = (t' ++ [EvWorkqueueGet (i, true)])%list).
Proof.
  revert heap t out. induction fuel as [| fuel IH]; intros heap t out Hex.
  - exec_all Hex. split; [reflexivity | intros Hf; discriminate Hf].
  - cbn [runWorker] in Hex. unfold bind at 1 in Hex.
    rewrite exec_pbind in Hex. destruct Hex as (t1 & t2 & [o h] & -> & Hp & Hk).
    assert (List.length (filter isWorkqueueDone t1) = List.length (filter isDequeue t1)
            ∧ (o = Returns false -> ∃ i, t1 = [EvWorkqueueGet (i, true)])) as [Hc Hstop].
    { destruct (processNextWorkItem_runs heap t1 _ Hp)
        as [(i & -> & E) | [(g & -> & E) | (key & ts & o' & hs & Hs & -> & E)]];
        injection E as -> ->.
      - split; [reflexivity | eauto].
      - split; [reflexivity | intros Hf; discriminate Hf].
      - pose proof (syncHandler_no_queue_call key heap ts _ Hs) as Hq.
        assert (filter isWorkqueueDone ts = []) as Hd.
        { apply (filter_none_sub _ isWorkqueueCall); [| exact Hq].
          intros [] E; (discriminate E || reflexivity). }
        assert (filter isDequeue ts = []) as Hg.
        { apply (filter_none_sub _ isWorkqueueCall); [| exact Hq].
          intros [] E; (discriminate E || reflexivity). }
        rewrite filter_cons_False by (exact id).
        rewrite (filter_cons_True isDequeue) by (exact I).
        rewrite !filter_app, Hd, Hg.
        split; [destruct o' as [[e |] | r]; reflexivity |].
        destruct o' as [[e |] | r]; intros Hf; discriminate Hf. }
    rewrite !filter_app, !length_app, Hc.
    destruct o as [[|] | reason]; cbn in Hk.
    + destruct (IH _ _ _ Hk) as [Hc2 Hend]. split; [rewrite Hc2; reflexivity |].
      intros Ho. destruct (Hend Ho) as (i & t' & ->).
      exists i, (t1 ++ t')%list. rewrite app_assoc. reflexivity.
    + destruct Hk as [-> E]. subst out. split; [reflexivity |].
      intros _. destruct (Hstop eq_refl) as (i & ->). exists i, []. reflexivity.
    + destruct Hk as [-> E]. subst out. split; [reflexivity |].
      intros Hf. discriminate Hf.
Qed.

(** ** Routing StatefulSet notifications to the owner *)

Ltac handle_cases H :=
  unfold handleObject, enqueueCassandraCluster, MetaNamespaceKeyFunc, Accessor in H;
  exec_all H.

(** X8.  A StatefulSet without a controller reference, or with one whose
    kind is not CassandraCluster, is none of the controller's business:
    [handleObject] logs the object and does nothing else; it looks
    nothing up and adds nothing to the queue. *)
Theorem handleObject_not_owned s heap t out :
  (∀ ref, metav1.GetControllerOf (appsv1.StatefulSet_ObjectMeta s) = Some ref ->
          metav1.OwnerReference_Kind ref ≠ "CassandraCluster") ->
  exec (handleObject (ObjStatefulSet s) heap) t out ->
  t = [EvGlogInfof 4 ("Processing object: "
                      +:+ metav1.Name (appsv1.StatefulSet_ObjectMeta s))]
  ∧ out = (Returns tt, heap).
Proof.
  intros Hkind Hex. handle_cases Hex.
  all: try (split; reflexivity).
  all: exfalso.
  all: match type of Hkind with
       | ∀ ref, Some ?r = Some ref -> _ => apply (Hkind r eq_refl)
       end.
  all: match goal with
       | E : negb (String.eqb ?a ?b) = false |- _ =>
           apply String.eqb_eq; destruct (String.eqb a b); [reflexivity | discriminate E]
       end.
Qed.

(** X9.  Orphan drop: when the owner named by the controller reference
    cannot be fetched from the cache, whatever the error, [handleObject]
    logs that it ignores the object and adds nothing to the queue.  The
    lookup is made in the namespace of the StatefulSet under the name in
    the reference. *)
Theorem handleObject_orphan s heap t out ref namespace name err :
  metav1.GetControllerOf (appsv1.StatefulSet_ObjectMeta s) = Some ref ->
  exec (handleObject (ObjStatefulSet s) heap) t out ->
  In (EvCassandraClustersListerGet namespace name (Err err)) t ->
  let meta := appsv1.StatefulSet_ObjectMeta s in
  t = [ EvGlogInfof 4 ("Processing object: " +:+ metav1.Name meta);
        EvCassandraClustersListerGet (metav1.Namespace meta)
          (metav1.OwnerReference_Name ref) (Err err);
        EvGlogInfof 4 ("ignoring orphaned object '" +:+ metav1.SelfLink meta
                       +:+ "' of cassandracluster '"
                       +:+ metav1.OwnerReference_Name ref +:+ "'") ]
  ∧ filter isWorkqueueAdd t = []
  ∧ out = (Returns tt, heap).
Proof.
  intros Href Hex Hin meta; subst meta. handle_cases Hex.
  all: occurs Hin.
  all: try discriminate Href.
  all: injection Href as ->.
  all: repeat match goal with x : unit |- _ => destruct x end.
  all: repeat split.
Qed.

(** X10.  When the owner is in the cache, [handleObject] adds exactly one
    key to the queue, with a rate-limited add: the key of the cached
    owner, computed from the owner's own namespace and name. *)
Theorem handleObject_enqueues_owner s heap t out ref namespace name p owner :
  metav1.GetControllerOf (appsv1.StatefulSet_ObjectMeta s) = Some ref ->
  exec (handleObject (ObjStatefulSet s) heap) t out ->
  In (EvCassandraClustersListerGet namespace name (Ok p)) t ->
  heap !! p = Some owner ->
  let meta := appsv1.StatefulSet_ObjectMeta s in
  metav1.OwnerReference_Kind ref = "CassandraCluster"
  ∧ t = [ EvGlogInfof 4 ("Processing object: " +:+ metav1.Name meta);
          EvCassandraClustersListerGet (metav1.Namespace meta)
            (metav1.OwnerReference_Name ref) (Ok p);
          EvWorkqueueAddRateLimited
            (ItemString (MetaNamespaceKey (cassandraapi.CassandraCluster_ObjectMeta owner))) ]
  ∧ out = (Returns tt, heap).
Proof.
  intros Href Hex Hin Hp meta; subst meta. handle_cases Hex.
  all: occurs Hin.
  all: same_object.
  all: try congruence.
  all: try discriminate Href.
  all: injection Href as ->.
  all: repeat match goal with x : unit |- _ => destruct x end.
  all: split; [| split; reflexivity].
  all: match goal with
       | E : negb (String.eqb ?a ?b) = false |- _ =>
           apply String.eqb_eq; destruct (String.eqb a b); [reflexivity | discriminate E]
       end.
Qed.

(** X11.  A delete notification that arrives as a tombstone is handled
    like the StatefulSet it carries: the runs of [handleObject] on the
    tombstone are the runs on the StatefulSet with one more log line in
    front. *)
Theorem handleObject_tombstone key s heap t out :
  exec (handleObject (ObjDeletedFinalStateUnknown key (ObjStatefulSet s)) heap) t out
  <->
  ∃ t', t = EvGlogInfof 4 ("Recovered deleted object '"
                           +:+ metav1.Name (appsv1.StatefulSet_ObjectMeta s)
                           +:+ "' from tombstone") :: t'
        ∧ exec (handleObject (ObjStatefulSet s) heap) t' out.
Proof.
  unfold handleObject, Accessor. unfold bind, ret, call. cbn.
  split.
  - intros (x & t' & -> & Hex). exists t'. split; [reflexivity | exact Hex].
  - intros (t' & -> & Hex). exists tt, t'. split; [reflexivity | exact Hex].
Qed.

(** X12.  What cannot be decoded is reported and dropped: for an object
    that is neither a watched object nor a tombstone, and for a
    tombstone that carries such an object, [handleObject] calls
    [runtime.HandleError] once, makes no other call and returns. *)
Theorem handleObject_undecodable obj heap t out :
  hasMeta obj = false ->
  (∀ key inner, obj = ObjDeletedFinalStateUnknown key inner -> hasMeta inner = false) ->
  exec (handleObject obj heap) t out ->
  (t = [EvHandleError (errorString "error decoding object, invalid type")]
   ∨ t = [EvHandleError (errorString "error decoding object tombstone, invalid type")])
  ∧ (t = [EvHandleError (errorString "error decoding object tombstone, invalid type")]
     <-> ∃ key inner, obj = ObjDeletedFinalStateUnknown key inner)
  ∧ out = (Returns tt, heap).
Proof.
  intros Hobj Hinner Hex.
  destruct obj as [p | s | key inner | key |]; try discriminate Hobj.
  - specialize (Hinner key inner eq_refl).
    destruct inner; try discriminate Hinner; handle_cases Hex.
    all: split; [right; reflexivity |]; split; [| reflexivity].
    all: split; eauto.
  - handle_cases Hex. split; [left; reflexivity |]. split; [| reflexivity].
    split; [intros Hf; discriminate Hf | intros (k & i & Hf); discriminate Hf].
  - handle_cases Hex. split; [left; reflexivity |]. split; [| reflexivity].
    split; [intros Hf; discriminate Hf | intros (k & i & Hf); discriminate Hf].
Qed.

(** X15.  [enqueueCassandraCluster] adds nothing for an object whose
    metadata cannot be read (a tombstone, a foreign value): the key
    function fails, the error is reported once, and the queue is left
    alone. *)
Theorem enqueueCassandraCluster_no_meta obj heap t out :
  hasMeta obj = false ->
  (∀ key, obj ≠ ObjExplicitKey key) ->
  exec (enqueueCassandraCluster obj heap) t out ->
  t = [EvHandleError (errorString
         "object has no meta: object does not implement the Object interfaces")]
  ∧ out = (Returns tt, heap).
Proof.
  intros Hobj Hkey Hex.
  destruct obj as [p | s | key inner | key |]; try discriminate Hobj.
  - handle_cases Hex. match goal with x : unit |- _ => destruct x end. split; reflexivity.
  - destruct (Hkey key eq_refl).
  - handle_cases Hex. match goal with x : unit |- _ => destruct x end. split; reflexivity.
Qed.

(** ** What the builders promise each other *)

Lemma newStatefulSet_controlled `{Settings} cc :
  metav1.IsControlledBy (appsv1.StatefulSet_ObjectMeta (newStatefulSet cc))
    (cassandraapi.CassandraCluster_ObjectMeta cc) = true.
Proof. unfold metav1.IsControlledBy. simpl. apply String.eqb_refl. Qed.

(** X14.  The three objects built for a CassandraCluster fit together:
    each is controlled by the cluster and lives in its namespace; the
    StatefulSet is governed by the unready Service, whose name differs
    from that of the other Service, which is the name of the StatefulSet;
    and both Services select exactly the pods of the StatefulSet's
    template, which the StatefulSet's own selector matches too. *)
Theorem builders_agree `{Settings} cc :
  let owner := cassandraapi.CassandraCluster_ObjectMeta cc in
  let statefulset := newStatefulSet cc in
  let unready := newHeadLessServiceUnready cc in
  let service := newHeadLessService cc in
  let podLabels :=
    metav1.Labels (corev1.PodTemplateSpec_ObjectMeta
                     (appsv1.Template (appsv1.Spec statefulset))) in
  (metav1.IsControlledBy (appsv1.StatefulSet_ObjectMeta statefulset) owner = true
   ∧ metav1.IsControlledBy (corev1.Service_ObjectMeta unready) owner = true
   ∧ metav1.IsControlledBy (corev1.Service_ObjectMeta service) owner = true)
  ∧ (metav1.Namespace (appsv1.StatefulSet_ObjectMeta statefulset) = metav1.Namespace owner
     ∧ metav1.Namespace (corev1.Service_ObjectMeta unready) = metav1.Namespace owner
     ∧ metav1.Namespace (corev1.Service_ObjectMeta service) = metav1.Namespace owner)
  ∧ (appsv1.ServiceName (appsv1.Spec statefulset)
     = metav1.Name (corev1.Service_ObjectMeta unready)
     ∧ metav1.Name (corev1.Service_ObjectMeta service)
       = metav1.Name (appsv1.StatefulSet_ObjectMeta statefulset)
     ∧ metav1.Name (corev1.Service_ObjectMeta unready)
       ≠ metav1.Name (corev1.Service_ObjectMeta service))
  ∧ (corev1.ServiceSpec_Selector (corev1.Service_Spec unready) = podLabels
     ∧ corev1.ServiceSpec_Selector (corev1.Service_Spec service) = podLabels
     ∧ appsv1.Selector (appsv1.Spec statefulset)
       = Some {| metav1.MatchLabels := podLabels |}).
Proof.
  intros owner statefulset unready service podLabels.
  split; [| split; [| split]].
  - unfold metav1.IsControlledBy. simpl. rewrite String.eqb_refl. auto.
  - repeat split.
  - split; [reflexivity |]. split; [reflexivity |]. apply append_unready_ne.
  - repeat split.
Qed.

(** X13.  The owner reference that [newStatefulSet] writes is the one
    [handleObject] follows: a notification about a StatefulSet built for
    a cluster makes [handleObject] look up that cluster, by its
    namespace and name, and when the cache answers with the cluster its
    key is added to the queue. *)
Theorem handleObject_finds_builder_owner `{Settings} cc heap t out :
  exec (handleObject (ObjStatefulSet (newStatefulSet cc)) heap) t out ->
  let meta := cassandraapi.CassandraCluster_ObjectMeta cc in
  ∃ r t',
    t = EvGlogInfof 4 ("Processing object: "
                       +:+ cassandraapi.StatefulSetName (cassandraapi.Spec cc))
        :: EvCassandraClustersListerGet (metav1.Namespace meta) (metav1.Name meta) r :: t'
    ∧ ∀ p, r = Ok p -> heap !! p = Some cc ->
           t' = [EvWorkqueueAddRateLimited (ItemString (MetaNamespaceKey meta))].
Proof.
  intros Hex meta; subst meta.
  unfold handleObject, enqueueCassandraCluster, MetaNamespaceKeyFunc, Accessor in Hex.
  unfold bind, ret, call, load in Hex. cbn in Hex.
  destruct Hex as ([] & t1 & -> & Hex).
  change (metav1.GetControllerOf (appsv1.StatefulSet_ObjectMeta (newStatefulSet cc)))
    with (Some (metav1.NewControllerRef (cassandraapi.CassandraCluster_ObjectMeta cc)
                  controllerKind)) in Hex.
  cbn in Hex. destruct Hex as (r & t2 & -> & Hex).
  exists r, t2. split; [reflexivity |].
  intros p -> Hp. cbn in Hex. rewrite Hp in Hex. cbn in Hex.
  destruct Hex as ([] & t3 & -> & -> & _). reflexivity.
Qed.

(** ** More about the passes of [syncHandler] *)

(** X16.  [syncHandler] treats the cache as read-only: a pass changes no
    object that was on the heap.  What it adds to the heap is what it
    hands to the CassandraClusters Update call, at most one object. *)
Theorem syncHandler_heap_frame `{Settings} key heap t o heap' :
  exec (syncHandler key heap) t (o, heap') ->
  heap' = (heap ++ sentObjects t)%list
  ∧ (List.length (sentObjects t) <= 1)%nat
  ∧ ∀ q obj, heap !! q = Some obj -> heap' !! q = Some obj.
Proof.
  intros Hex.
  assert (heap' = (heap ++ sentObjects t)%list ∧ (List.length (sentObjects t) <= 1)%nat)
    as [-> Hlen].
  { pass_cases Hex.
    all: cbn [sentObjects omap list_omap app].
    all: rewrite ?app_nil_r; split; [reflexivity | simpl; lia]. }
  split; [reflexivity |]. split; [exact Hlen |].
  intros q obj Hq. apply lookup_app_l_Some, Hq.
Qed.

(** X17.  When the write of the status fails, [syncHandler] returns the
    error of the Update call and records no event: the pass does not
    count as synced. *)
Theorem syncHandler_status_update_failure `{Settings} key heap t out
    namespace q sent err :
  exec (syncHandler key heap) t out ->
  In (EvCassandraClustersUpdate namespace q sent (Err err)) t ->
  fst out = Returns (Some err) ∧ filter isRecorderEvent t = [].
Proof.
  intros Hex. pass_cases Hex.
  all: intros Hin.
  all: occurs Hin.
  all: split; reflexivity.
Qed.

(** X18.  A CassandraCluster that leaves [Spec.Replicas] unset never has
    its StatefulSet updated, whatever replica count the StatefulSet
    has, and a pass for it does not panic. *)
Theorem syncHandler_unset_replicas `{Settings} key namespace name heap t out p cc :
  exec (syncHandler key heap) t out ->
  In (EvCassandraClustersListerGet namespace name (Ok p)) t ->
  heap !! p = Some cc ->
  cassandraapi.Replicas (cassandraapi.Spec cc) = None ->
  filter isStatefulSetsUpdate t = [] ∧ ∀ reason, fst out ≠ Panics reason.
Proof.
  intros Hex. pass_cases Hex.
  all: intros Hin Hp Hnone.
  all: occurs Hin.
  all: same_object.
  all: try congruence.
  all: split; [reflexivity | intros reason Hf; discriminate Hf].
Qed.

(** X19.  The replica count of the StatefulSet is dereferenced without a
    nil check: for a cluster with [Spec.Replicas] set and a controlled
    StatefulSet whose [Spec.Replicas] is nil, [syncHandler] panics.  By
    then the get-or-create calls are made; no Update, no status write
    and no event follow. *)
Theorem syncHandler_nil_replicas_panics `{Settings} key namespace name heap t out
    p cc ns sn statefulset want :
  exec (syncHandler key heap) t out ->
  In (EvCassandraClustersListerGet namespace name (Ok p)) t ->
  heap !! p = Some cc ->
  In (EvStatefulSetsListerGet ns sn (Ok statefulset)) t ->
  metav1.IsControlledBy (appsv1.StatefulSet_ObjectMeta statefulset)
    (cassandraapi.CassandraCluster_ObjectMeta cc) = true ->
  cassandraapi.Replicas (cassandraapi.Spec cc) = Some want ->
  appsv1.Replicas (appsv1.Spec statefulset) = None ->
  out = (Panics nilDereference, heap)
  ∧ filter isStatefulSetMutation t = []
  ∧ filter isCassandraClustersUpdate t = []
  ∧ filter isRecorderEvent t = [].
Proof.
  intros Hex. pass_cases Hex.
  all: intros Hin Hp Hsts Howned Hwant Hnil.
  all: occurs Hin.
  all: same_object.
  all: occurs Hsts.
  all: try congruence.
  all: repeat split.
Qed.

(** X20.  After a drift correction the status that is written comes from
    the answer of the StatefulSets Update call, not from the StatefulSet
    the cache reported. *)
Theorem syncHandler_status_from_update `{Settings} key namespace name heap t out
    p cc ns sent updated :
  exec (syncHandler key heap) t out ->
  In (EvCassandraClustersListerGet namespace name (Ok p)) t ->
  heap !! p = Some cc ->
  In (EvStatefulSetsUpdate ns sent (Ok updated)) t ->
  sentObjects t =
    [setStatusCurrentReplicas cc (appsv1.CurrentReplicas (appsv1.Status updated))].
Proof.
  intros Hex. pass_cases Hex.
  all: intros Hin Hp Hupd.
  all: occurs Hin.
  all: same_object.
  all: occurs Hupd.
  all: reflexivity.
Qed.

(** X21.  Every call of a pass is about the cluster being synced: the
    Services and the StatefulSet are read and written in the namespace of
    the cluster under the names derived from [Spec.StatefulSetName], what
    is created or updated is the object the builders give for the
    cluster, no more and no less (a full replace), the status write
    carries the cached object with another [Status.CurrentReplicas], and
    events go to the cached object. *)
Theorem syncHandler_calls_concern_cluster `{Settings} key namespace name heap t out p cc :
  exec (syncHandler key heap) t out ->
  In (EvCassandraClustersListerGet namespace name (Ok p)) t ->
  heap !! p = Some cc ->
  Forall (concerns p cc) t.
Proof.
  intros Hex. pass_cases Hex.
  all: intros Hin Hp.
  all: occurs Hin.
  all: same_object.
  all: repeat (apply Forall_cons; split; [simpl; eauto |]).
  all: constructor.
Qed.

(** X22.  A StatefulSet the controller has just created is not mistaken
    for a foreign one: when the cache has no StatefulSet and the Create
    call answers with the object as it was sent, the pass goes on to
    the status write without a warning event and without an Update. *)
Theorem syncHandler_create_then_proceeds `{Settings} key namespace name heap t out
    p cc ns created :
  exec (syncHandler key heap) t out ->
  In (EvCassandraClustersListerGet namespace name (Ok p)) t ->
  heap !! p = Some cc ->
  In (EvStatefulSetsCreate ns created (Ok created)) t ->
  created = newStatefulSet cc
  ∧ filter isStatefulSetsUpdate t = []
  ∧ sentObjects t = [setStatusCurrentReplicas cc 0]
  ∧ ∀ object eventtype reason message,
      In (EvRecorderEvent object eventtype reason message) t -> reason = SuccessSynced.
Proof.
  intros Hex. pass_cases Hex.
  all: intros Hin Hp Hcreated.
  all: occurs Hin.
  all: same_object.
  all: occurs Hcreated.
  all: try match goal with
           | E : metav1.IsControlledBy _ _ = false |- _ =>
               rewrite newStatefulSet_controlled in E; discriminate E
           end.
  all: try match goal with
           | E : appsv1.Replicas (appsv1.Spec (newStatefulSet _)) = _ |- _ =>
               unfold newStatefulSet in E; simpl in E
           end.
  all: try congruence.
  all: split; [reflexivity |]; split; [reflexivity |]; split; [reflexivity |].
  all: intros object eventtype reason message Hev; occurs Hev; reflexivity.
Qed.

(** X23.  A pass records at most one event, as its last call: the Synced
    event when it returns nil after the status write, the
    [ErrResourceExists] warning when it returns the conflict error. *)
Theorem syncHandler_one_event_last `{Settings} key heap t out
    object eventtype reason message :
  exec (syncHandler key heap) t out ->
  In (EvRecorderEvent object eventtype reason message) t ->
  filter isRecorderEvent t = [EvRecorderEvent object eventtype reason message]
  ∧ last t = Some (EvRecorderEvent object eventtype reason message)
  ∧ ((eventtype = corev1.EventTypeNormal ∧ reason = SuccessSynced
      ∧ fst out = Returns None)
     ∨ (eventtype = corev1.EventTypeWarning ∧ reason = ErrResourceExists
        ∧ ∃ err, fst out = Returns (Some err))).
Proof.
  intros Hex. pass_cases Hex.
  all: intros Hin.
  all: occurs Hin.
  all: split; [reflexivity |]; split; [reflexivity |].
  all: first [ left; repeat split; reflexivity
             | right; split; [reflexivity |]; split; [reflexivity |]; eauto ].
Qed.

(** X24.  A nil result means one of two things: the pass went all the way
    to the Synced event, or it was dropped at one of the three
    log-and-drop exits (malformed key, cluster gone, empty StatefulSet
    name), having reported once through [runtime.HandleError] and
    touched no Service and no StatefulSet. *)
Theorem syncHandler_nil_result `{Settings} key heap t out :
  exec (syncHandler key heap) t out ->
  fst out = Returns None ->
  (∃ p, last t = Some (EvRecorderEvent p corev1.EventTypeNormal SuccessSynced
                         MessageResourceSynced))
  ∨ (filter isDerivedCall t = []
     ∧ (∃ err, filter isHandleError t = [EvHandleError err])
     ∧ snd out = heap).
Proof.
  intros Hex. pass_cases Hex.
  all: intros Hnil.
  all: try discriminate Hnil.
  all: first [ left; eexists; reflexivity
             | right; split; [reflexivity |]; split; [eexists; reflexivity | reflexivity] ].
Qed.

(** ** The operator's create-or-update *)

Lemma texec_tbind {C : Type -> Type} {E : Type} (observes : ∀ X, C X -> X -> E)
    {A B} (p : Tree A) (f : A -> Tree B) t b :
  texec observes (tbind p f) t b <->
  ∃ t1 t2 a, t = (t1 ++ t2)%list ∧ texec observes p t1 a ∧ texec observes (f a) t2 b.
Proof.
  revert t. induction p as [r | X c k IH]; intros t; simpl.
  - split.
    + intros Hf. exists [], t, r. auto.
    + intros (t1 & t2 & a & -> & [-> ->] & Hf). exact Hf.
  - split.
    + intros (x & t' & -> & Hk). apply IH in Hk as (t1 & t2 & a & -> & Hp & Hf).
      exists (observes _ c x :: t1), t2, a. split; [reflexivity |].
      split; [eexists _, _; split; [reflexivity | exact Hp] | exact Hf].
    + intros (t1 & t2 & a & -> & (x & t' & -> & Hk) & Hf).
      exists x, (t' ++ t2)%list. split; [reflexivity |].
      apply IH. eauto 10.
Qed.

Ltac tstuck_on p k :=
  lazymatch p with
  | tbind ?m _ => tstuck_on m k
  | match ?d with _ => _ end => k d
  | ?f _ => tstuck_on f k
  end.

Ltac texec_step H :=
  cbn in H;
  lazymatch type of H with
  | ∃ x t', _ = _ :: t' ∧ _ =>
      let x := fresh "x" in
      let t := fresh "t" in
      destruct H as (x & t & -> & H)
  | _ = [] ∧ _ = _ =>
      let E := fresh "E" in
      destruct H as [-> E]; try (injection E as ? ?); subst
  | texec _ ?p _ _ => tstuck_on p ltac:(fun d => destruct d eqn:?)
  end.

Ltac texec_all H :=
  unfold sbind, sret, scall, sload, sstore, salloc in H;
  repeat texec_step H.

(** Every run of [CreateOrUpdateStatefulSet] on a live pointer: the Get
    fails for good, or it reports not-found and the object is created,
    or it finds a stored object and the object is updated under the
    stored resource version. *)
Lemma CreateOrUpdateStatefulSet_runs namespace (p : ptr) (h : list StatefulSet) obj t out :
  h !! p = Some obj ->
  texec (@observeSvc) (CreateOrUpdateStatefulSet namespace p h) t out ->
  let name := metav1.Name (appsv1.StatefulSet_ObjectMeta obj) in
  (∃ err, IsNotFound (Some err) = false
          ∧ t = [EvStatefulSetsGet namespace name (Err err)]
          ∧ out = (Returns (Some err), h))
  ∨ (∃ err r, IsNotFound (Some err) = true
              ∧ t = (EvStatefulSetsGet namespace name (Err err)
                     :: EvStatefulSetsCreateV1beta2 namespace obj r
                     :: loggedOn r "statefulSet created")
              ∧ out = (Returns (err_of r), h))
  ∨ (∃ stored r,
       let sent := setResourceVersion obj
                     (metav1.ResourceVersion (appsv1.StatefulSet_ObjectMeta stored)) in
       t = (EvStatefulSetsGet namespace name (Ok stored)
            :: EvStatefulSetsUpdateV1beta2 namespace sent r
            :: loggedOn r "statefulSet updated")
       ∧ out = (Returns (err_of r), <[p := sent]> h)).
Proof.
  intros Hp Hex name; subst name.
  assert (p < List.length h)%nat as Hlt by (apply lookup_lt_Some in Hp; exact Hp).
  unfold CreateOrUpdateStatefulSet, GetStatefulSet, CreateStatefulSet, UpdateStatefulSet in Hex.
  unfold sbind, sret, scall, sload, sstore in Hex.
  rewrite Hp in Hex. cbn in Hex.
  destruct Hex as (r & t1 & -> & Hex). destruct r as [stored | err]; cbn in Hex.
  - right. right. rewrite Hp in Hex. cbn in Hex. rewrite Hp in Hex. cbn in Hex.
    rewrite list_lookup_insert_eq in Hex by exact Hlt. cbn in Hex.
    destruct Hex as (r & t2 & -> & Hex). exists stored, r.
    destruct r as [updated | err]; cbn in Hex.
    + destruct Hex as ([] & t3 & -> & -> & ->). split; reflexivity.
    + destruct Hex as [-> ->]. split; reflexivity.
  - destruct (IsNotFound (Some err)) eqn:Enf; cbn in Hex.
    + right. left. rewrite Hp in Hex. cbn in Hex.
      destruct Hex as (r & t2 & -> & Hex). exists err, r.
      split; [exact Enf |].
      destruct r as [created | err']; cbn in Hex.
      * destruct Hex as ([] & t3 & -> & -> & ->). split; reflexivity.
      * destruct Hex as [-> ->]. split; reflexivity.
    + left. destruct Hex as [-> ->]. exists err. repeat split. exact Enf.
Qed.

(** X25.  When the lookup fails, [CreateOrUpdateStatefulSet] creates the
    object only for a not-found error: then the one write is a Create
    of the object as it was passed, and the result is the error of the
    Create.  Any other lookup error is returned as it is and nothing is
    written.  The caller's object is left unchanged in both cases. *)
Theorem CreateOrUpdateStatefulSet_lookup_error namespace (p : ptr)
    (h : list StatefulSet) obj t out ns name err :
  h !! p = Some obj ->
  texec (@observeSvc) (CreateOrUpdateStatefulSet namespace p h) t out ->
  In (EvStatefulSetsGet ns name (Err err)) t ->
  snd out = h
  ∧ (IsNotFound (Some err) = false ->
     fst out = Returns (Some err) ∧ filter isSvcWrite t = [] ∧ filter isSvcLog t = [])
  ∧ (IsNotFound (Some err) = true ->
     ∃ r, filter isSvcWrite t = [EvStatefulSetsCreateV1beta2 namespace obj r]
          ∧ fst out = Returns (err_of r)
          ∧ filter isSvcLog t = loggedOn r "statefulSet created").
Proof.
  intros Hp Hex Hin.
  destruct (CreateOrUpdateStatefulSet_runs namespace p h obj t out Hp Hex)
    as [(err' & Enf & -> & ->) | [(err' & r & Enf & -> & ->) | (stored & r & -> & ->)]].
  - destruct Hin as [Hf | []]. injection Hf as _ _ ->.
    split; [reflexivity |]. split; [intros _; repeat split | congruence].
  - assert (err' = err) as ->.
    { destruct Hin as [Hf | [Hf | Hin]]; [injection Hf as _ _ ->; reflexivity
                                         | discriminate Hf |].
      destruct r; simpl in Hin; [destruct Hin as [Hf | []]; discriminate Hf | destruct Hin]. }
    split; [reflexivity |]. split; [congruence |].
    intros _. exists r. destruct r; repeat split.
  - exfalso. destruct Hin as [Hf | [Hf | Hin]]; [discriminate Hf | discriminate Hf |].
    destruct r; simpl in Hin; [destruct Hin as [Hf | []]; discriminate Hf | destruct Hin].
Qed.

(** X26.  When a StatefulSet of that name is stored,
    [CreateOrUpdateStatefulSet] makes exactly one write, an Update that
    carries the caller's object with the stored resource version and
    nothing else of the stored object, whoever owns the stored object.
    The resource version is assigned to the caller's object itself;
    the other objects on the heap stay as they are. *)
Theorem CreateOrUpdateStatefulSet_stored namespace (p : ptr)
    (h h' : list StatefulSet) obj t o ns name stored :
  h !! p = Some obj ->
  texec (@observeSvc) (CreateOrUpdateStatefulSet namespace p h) t (o, h') ->
  In (EvStatefulSetsGet ns name (Ok stored)) t ->
  let sent := setResourceVersion obj
                (metav1.ResourceVersion (appsv1.StatefulSet_ObjectMeta stored)) in
  (∃ r, filter isSvcWrite t = [EvStatefulSetsUpdateV1beta2 namespace sent r]
        ∧ o = Returns (err_of r)
        ∧ filter isSvcLog t = loggedOn r "statefulSet updated")
  ∧ appsv1.Spec sent = appsv1.Spec obj
  ∧ h' !! p = Some sent
  ∧ ∀ q, q ≠ p -> h' !! q = h !! q.
Proof.
  intros Hp Hex Hin sent; subst sent.
  assert (p < List.length h)%nat as Hlt by (apply lookup_lt_Some in Hp; exact Hp).
  destruct (CreateOrUpdateStatefulSet_runs namespace p h obj t _ Hp Hex)
    as [(err' & Enf & -> & E) | [(err' & r & Enf & -> & E) | (stored' & r & -> & E)]].
  - destruct Hin as [Hf | []]. discriminate Hf.
  - exfalso. destruct Hin as [Hf | [Hf | Hin]]; [discriminate Hf | discriminate Hf |].
    destruct r; simpl in Hin; [destruct Hin as [Hf | []]; discriminate Hf | destruct Hin].
  - injection E as -> ->.
    assert (stored' = stored) as ->.
    { destruct Hin as [Hf | [Hf | Hin]]; [injection Hf as _ _ ->; reflexivity
                                         | discriminate Hf |].
      destruct r; simpl in Hin; [destruct Hin as [Hf | []]; discriminate Hf | destruct Hin]. }
    split; [exists r; destruct r; repeat split |].
    split; [reflexivity |].
    split; [apply list_lookup_insert_eq; exact Hlt |].
    intros q Hq. apply list_lookup_insert_ne. congruence.
Qed.

Lemma generateCassandraStatefulSet_newStatefulSet `{Settings} cc :
  generateCassandraStatefulSet cc = newStatefulSet cc.
Proof. reflexivity. Qed.

(** X27.  [EnsureStatefulset] looks the StatefulSet up by the namespace
    of the cluster and its [Spec.StatefulSetName] and makes at most one
    write.  It has no ownership check: whatever StatefulSet is stored
    under that name, whoever controls it, is updated, with the object
    that the controller's [newStatefulSet] builds for the cluster under
    the stored resource version.  Objects already on the heap are not
    touched. *)
Theorem EnsureStatefulset_updates_any_stored `{Settings} cc (h h' : list StatefulSet) t o :
  texec (@observeSvc) (EnsureStatefulset cc h) t (o, h') ->
  let namespace := metav1.Namespace (cassandraapi.CassandraCluster_ObjectMeta cc) in
  (∃ r t', t = EvStatefulSetsGet namespace
                 (cassandraapi.StatefulSetName (cassandraapi.Spec cc)) r :: t')
  ∧ (List.length (filter isSvcWrite t) <= 1)%nat
  ∧ (∀ ns name stored,
       In (EvStatefulSetsGet ns name (Ok stored)) t ->
       ∃ r, filter isSvcWrite t =
              [EvStatefulSetsUpdateV1beta2 namespace
                 (setResourceVersion (newStatefulSet cc)
                    (metav1.ResourceVersion (appsv1.StatefulSet_ObjectMeta stored))) r])
  ∧ ∀ q obj, h !! q = Some obj -> h' !! q = Some obj.
Proof.
  intros Hex namespace; subst namespace.
  unfold EnsureStatefulset in Hex. unfold sbind at 1, salloc in Hex. cbn in Hex.
  pose proof (list_lookup_middle h [] (generateCassandraStatefulSet cc)
                (List.length h) eq_refl) as Hp.
  destruct (CreateOrUpdateStatefulSet_runs _ _ _ _ t _ Hp Hex)
    as [(err & Enf & -> & E) | [(err & r & Enf & -> & E) | (stored & r & -> & E)]];
    injection E as -> ->.
  - split; [eauto |]. split; [simpl; lia |]. split.
    + intros ns name stored [Hf | []]. discriminate Hf.
    + intros q obj Hq. apply lookup_app_l_Some, Hq.
  - split; [eauto |]. split; [destruct r; simpl; lia |]. split.
    + intros ns name stored [Hf | [Hf | Hin]]; [discriminate Hf | discriminate Hf |].
      destruct r; simpl in Hin; [destruct Hin as [Hf | []]; discriminate Hf | destruct Hin].
    + intros q obj Hq. apply lookup_app_l_Some, Hq.
  - split; [eauto |]. split; [destruct r; simpl; lia |]. split.
    + intros ns name stored' Hin.
      assert (stored' = stored) as ->.
      { destruct Hin as [Hf | [Hf | Hin]]; [injection Hf as _ _ ->; reflexivity
                                           | discriminate Hf |].
        destruct r; simpl in Hin;
          [destruct Hin as [Hf | []]; discriminate Hf | destruct Hin]. }
      exists r. destruct r; reflexivity.
    + intros q obj Hq.
      rewrite list_lookup_insert_ne by (apply lookup_lt_Some in Hq; lia).
      apply lookup_app_l_Some, Hq.
Qed.

Lemma texec_passes_error {A} (m : SM A) (k : A -> SM A) (h : list StatefulSet) t out :
  (∀ a h1, k a h1 = Leaf (Returns a, h1)) ->
  texec (@observeSvc) (sbind m k h) t out <-> texec (@observeSvc) (m h) t out.
Proof.
  intros Hk. unfold sbind. rewrite texec_tbind. split.
  - intros (t1 & t2 & [o h1] & -> & Hm & Hf). cbn in Hf.
    destruct o as [a | reason]; [rewrite Hk in Hf |];
      destruct Hf as [-> ->]; rewrite app_nil_r; exact Hm.
  - intros Hm. destruct out as [o h1]. exists t, [], (o, h1).
    split; [rewrite app_nil_r; reflexivity |]. split; [exact Hm |].
    cbn. destruct o as [a | reason]; [rewrite Hk |]; split; reflexivity.
Qed.

(** X28.  The operator's [Add] refuses what is not a CassandraCluster
    with an error and without any call; for a CassandraCluster it does
    what [EnsureStatefulset] does and returns what it returns, through
    [Ensure]. *)
Theorem Add_is_EnsureStatefulset `{Settings} (h : list StatefulSet) t out :
  (∀ objectKind,
     texec (@observeSvc) (Add (RuntimeOther objectKind) h) t out ->
     t = [] ∧ out = (Returns (Some (errorString
                        (objectKind +:+ " is not a cassandra cluster object"))), h))
  ∧ (∀ cc,
       texec (@observeSvc) (Add (RuntimeCassandraCluster cc) h) t out
       <-> texec (@observeSvc) (EnsureStatefulset cc h) t out).
Proof.
  split.
  - intros objectKind Hex. cbn in Hex. destruct Hex as [-> ->]. split; reflexivity.
  - intros cc. unfold Add, Ensure.
    rewrite texec_passes_error by (intros [e |] h1; reflexivity).
    rewrite texec_passes_error by (intros [e |] h1; reflexivity).
    reflexivity.
Qed.

(** ** [Run] *)

Lemma texec_startWorkers n rest t result :
  texec (@observeRun) (startWorkers n rest) t result <->
  ∃ t', t = (repeat EvGoWaitUntilRunWorker n ++ t')%list
        ∧ texec (@observeRun) rest t' result.
Proof.
  revert t. induction n as [| n IH]; intros t; simpl.
  - split; [intros Hr; exists t; auto | intros (t' & -> & Hr); exact Hr].
  - split.
    + intros ([] & t1 & -> & Hs). apply IH in Hs as (t' & -> & Hr). eauto.
    + intros (t' & -> & Hr). exists tt, (repeat EvGoWaitUntilRunWorker n ++ t')%list.
      split; [reflexivity |]. apply IH. eauto.
Qed.

(** X29.  [Run] starts workers only once the caches have synced, and then
    exactly [threadiness] of them, none for a threadiness of zero or
    less.  If the caches do not sync it returns an error and starts
    none.  On both ways out the work queue is shut down, once, before
    the crash handler, as the deferred calls have it. *)
Theorem Run_workers threadiness t result :
  texec (@observeRun) (Run threadiness) t result ->
  (t = [ EvGlogInfo "Starting CassandraCluster controller";
         EvGlogInfo "Waiting for informer caches to sync";
         EvWaitForCacheSync false;
         EvWorkqueueShutDown; EvHandleCrash ]
   ∧ result = Some (errorString "failed to wait for caches to sync"))
  ∨ (t = ([ EvGlogInfo "Starting CassandraCluster controller";
            EvGlogInfo "Waiting for informer caches to sync";
            EvWaitForCacheSync true;
            EvGlogInfo "Starting workers" ]
          ++ repeat EvGoWaitUntilRunWorker (Z.to_nat threadiness)
          ++ [ EvGlogInfo "Started workers";
               EvReceiveStopCh;
               EvGlogInfo "Shutting down workers";
               EvWorkqueueShutDown; EvHandleCrash ])%list
     ∧ result = None
     ∧ List.length (filter isWorkerStart t) = Z.to_nat threadiness
     ∧ ((threadiness <= 0)%Z -> filter isWorkerStart t = [])).
Proof.
  intros Hex. unfold Run in Hex. cbn [texec] in Hex.
  destruct Hex as ([] & t1 & -> & [] & t2 & -> & ok & t3 & -> & Hex).
  destruct ok; cbn [negb] in Hex; cbn [texec] in Hex.
  - right. destruct Hex as ([] & t4 & -> & Hex).
    apply texec_startWorkers in Hex as (t5 & -> & Hex). cbn [texec] in Hex.
    destruct Hex as ([] & t6 & -> & [] & t7 & -> & [] & t8 & -> & [] & t9 & ->
                     & [] & t10 & -> & -> & ->).
    split; [reflexivity |]. split; [reflexivity |].
    assert (∀ n rest, filter isWorkerStart (repeat EvGoWaitUntilRunWorker n ++ rest)%list
                      = (repeat EvGoWaitUntilRunWorker n ++ filter isWorkerStart rest)%list)
      as Hrep.
    { intros n rest. induction n as [| n IH]; [reflexivity |].
      simpl. rewrite filter_cons_True by exact I. rewrite IH. reflexivity. }
    split.
    + simpl. rewrite !filter_cons_False by (exact id). rewrite Hrep. simpl.
      rewrite app_nil_r. apply repeat_length.
    + intros Hle. simpl. rewrite !filter_cons_False by (exact id). rewrite Hrep.
      replace (Z.to_nat threadiness) with O by lia. reflexivity.
  - left. destruct Hex as ([] & t4 & -> & [] & t5 & -> & -> & ->).
    split; reflexivity.
Qed.

(** ** The further theorems on the sample cluster *)

(** A run along a given trace: the answers are read off the trace. *)
Ltac along_trace :=
  repeat first
    [ split; reflexivity
    | exists tt; eexists; split; [reflexivity |]; cbn
    | eexists _, _; split; [reflexivity |]; cbn ].

Lemma syncHandler_malformed_key_witness :
  traceOf malformedRun = [EvHandleError (errorString ("invalid resource key: " +:+ "a/b/c"))]
  ∧ resultOf malformedRun = (Returns None, [demoCluster]).
Proof.
  apply (syncHandler_malformed_key (H := sampleSettings) "a/b/c" [demoCluster]
           (traceOf malformedRun) (resultOf malformedRun)).
  - vm_compute. lia.
  - exact (run_exec _ _ _).
Defined.

Lemma enqueued_key_finds_cluster_witness :
  ∃ key,
    traceOf enqueueRun = [EvWorkqueueAddRateLimited (ItemString key)]
    ∧ resultOf enqueueRun = (Returns tt, [demoCluster])
    ∧ ∀ heap' ts o,
        exec (syncHandler (H := sampleSettings) key heap') ts o ->
        ∃ r ts', ts = EvCassandraClustersListerGet "default" "demo" r :: ts'.
Proof.
  apply (enqueued_key_finds_cluster (H := sampleSettings) 0%nat [demoCluster] demoCluster
           (traceOf enqueueRun) (resultOf enqueueRun)).
  - reflexivity.
  - reflexivity.
  - reflexivity.
  - exact (run_exec _ _ _).
Defined.

Lemma processNextWorkItem_stops_only_on_shutdown_witness :
  (fst (resultOf workerRun) = Returns false
   <-> ∃ i, traceOf workerRun = [EvWorkqueueGet (i, true)])
  ∧ (∀ i, In (EvWorkqueueGet (i, false)) (traceOf workerRun) ->
          fst (resultOf workerRun) = Returns true
          ∨ ∃ reason, fst (resultOf workerRun) = Panics reason).
Proof.
  apply (processNextWorkItem_stops_only_on_shutdown (H := sampleSettings) [demoCluster]
           (traceOf workerRun) (resultOf workerRun)).
  exact (run_exec _ _ _).
Defined.

Lemma processNextWorkItem_done_once_witness :
  filter isWorkqueueDone (traceOf workerRun) = [EvWorkqueueDone demoKey]
  ∧ (filter isWorkqueueCall (traceOf workerRun)
     = [EvWorkqueueGet (demoKey, false); EvWorkqueueDone demoKey]
     ∨ filter isWorkqueueCall (traceOf workerRun)
       = [EvWorkqueueGet (demoKey, false); EvWorkqueueForget demoKey;
          EvWorkqueueDone demoKey]).
Proof.
  apply (processNextWorkItem_done_once (H := sampleSettings) [demoCluster]
           (traceOf workerRun) (resultOf workerRun) demoKey).
  - exact (run_exec _ _ _).
  - at_index 0%nat.
Defined.

Lemma processNextWorkItem_rejects_other_item_witness :
  traceOf otherItemRun =
    [ EvWorkqueueGet (ItemOther "42", false);
      EvWorkqueueForget (ItemOther "42");
      EvHandleError (errorString ("expected string in workqueue but got " +:+ "42"));
      EvWorkqueueDone (ItemOther "42") ]
  ∧ resultOf otherItemRun = (Returns true, [demoCluster]).
Proof.
  apply (processNextWorkItem_rejects_other_item (H := sampleSettings) [demoCluster]
           (traceOf otherItemRun) (resultOf otherItemRun) "42").
  - exact (run_exec _ _ _).
  - at_index 0%nat.
Defined.

Lemma runWorker_done_per_item_witness :
  List.length (filter isWorkqueueDone (traceOf loopRun))
  = List.length (filter isDequeue (traceOf loopRun))
  ∧ (fst (resultOf loopRun) = Returns true ->
     ∃ i t', traceOf loopRun = (t' ++ [EvWorkqueueGet (i, true)])%list).
Proof.
  apply (runWorker_done_per_item (H := sampleSettings) 3 [demoCluster]
           (traceOf loopRun) (resultOf loopRun)).
  exact (run_exec _ _ _).
Defined.

Lemma handleObject_not_owned_witness :
  traceOf notOwnedRun = [EvGlogInfof 4 ("Processing object: " +:+ "web")]
  ∧ resultOf notOwnedRun = (Returns tt, [demoCluster]).
Proof.
  apply (handleObject_not_owned foreignWeb [demoCluster]
           (traceOf notOwnedRun) (resultOf notOwnedRun)).
  - intros ref Href. vm_compute in Href. discriminate Href.
  - exact (run_exec _ _ _).
Defined.

Lemma handleObject_orphan_witness :
  traceOf orphanRun =
    [ EvGlogInfof 4 ("Processing object: " +:+ "web");
      EvCassandraClustersListerGet "default" "demo" (Err (Fake.notFound "demo"));
      EvGlogInfof 4 ("ignoring orphaned object '" +:+ EmptyString
                     +:+ "' of cassandracluster '" +:+ "demo" +:+ "'") ]
  ∧ filter isWorkqueueAdd (traceOf orphanRun) = []
  ∧ resultOf orphanRun = (Returns tt, []).
Proof.
  apply (handleObject_orphan (ownedWeb 3 3) [] (traceOf orphanRun) (resultOf orphanRun)
           (metav1.NewControllerRef demoMeta (controllerKind (H := sampleSettings)))
           "default" "demo" (Fake.notFound "demo")).
  - reflexivity.
  - exact (run_exec _ _ _).
  - at_index 1%nat.
Defined.

Lemma handleObject_enqueues_owner_witness :
  metav1.OwnerReference_Kind
    (metav1.NewControllerRef demoMeta (controllerKind (H := sampleSettings)))
  = "CassandraCluster"
  ∧ traceOf ownedRun =
      [ EvGlogInfof 4 ("Processing object: " +:+ "web");
        EvCassandraClustersListerGet "default" "demo" (Ok 0%nat);
        EvWorkqueueAddRateLimited (ItemString (MetaNamespaceKey demoMeta)) ]
  ∧ resultOf ownedRun = (Returns tt, [demoCluster]).
Proof.
  apply (handleObject_enqueues_owner (ownedWeb 3 3) [demoCluster]
           (traceOf ownedRun) (resultOf ownedRun)
           (metav1.NewControllerRef demoMeta (controllerKind (H := sampleSettings)))
           "default" "demo" 0%nat demoCluster).
  - reflexivity.
  - exact (run_exec _ _ _).
  - at_index 1%nat.
  - reflexivity.
Defined.

Lemma handleObject_undecodable_witness :
  (traceOf undecodableRun
   = [EvHandleError (errorString "error decoding object, invalid type")]
   ∨ traceOf undecodableRun
     = [EvHandleError (errorString "error decoding object tombstone, invalid type")])
  ∧ (traceOf undecodableRun
     = [EvHandleError (errorString "error decoding object tombstone, invalid type")]
     <-> ∃ key inner, ObjOther = ObjDeletedFinalStateUnknown key inner)
  ∧ resultOf undecodableRun = (Returns tt, [demoCluster]).
Proof.
  apply (handleObject_undecodable ObjOther [demoCluster]
           (traceOf undecodableRun) (resultOf undecodableRun)).
  - reflexivity.
  - intros key inner Hf. discriminate Hf.
  - exact (run_exec _ _ _).
Defined.

Lemma handleObject_finds_builder_owner_witness :
  ∃ r t',
    traceOf builtRun =
      EvGlogInfof 4 ("Processing object: " +:+ "web")
      :: EvCassandraClustersListerGet "default" "demo" r :: t'
    ∧ ∀ p, r = Ok p -> [demoCluster] !! p = Some demoCluster ->
           t' = [EvWorkqueueAddRateLimited (ItemString (MetaNamespaceKey demoMeta))].
Proof.
  apply (handleObject_finds_builder_owner (H := sampleSettings) demoCluster [demoCluster]
           (traceOf builtRun) (resultOf builtRun)).
  exact (run_exec _ _ _).
Defined.

Lemma enqueueCassandraCluster_no_meta_witness :
  traceOf noMetaRun =
    [EvHandleError (errorString
       "object has no meta: object does not implement the Object interfaces")]
  ∧ resultOf noMetaRun = (Returns tt, [demoCluster]).
Proof.
  apply (enqueueCassandraCluster_no_meta ObjOther [demoCluster]
           (traceOf noMetaRun) (resultOf noMetaRun)).
  - reflexivity.
  - intros key Hf. discriminate Hf.
  - exact (run_exec _ _ _).
Defined.

Lemma syncHandler_heap_frame_witness :
  snd (resultOf convergedRun) = ([demoCluster] ++ sentObjects (traceOf convergedRun))%list
  ∧ (List.length (sentObjects (traceOf convergedRun)) <= 1)%nat
  ∧ ∀ q obj, [demoCluster] !! q = Some obj -> snd (resultOf convergedRun) !! q = Some obj.
Proof.
  apply (syncHandler_heap_frame (H := sampleSettings) "default/demo" [demoCluster]
           (traceOf convergedRun) (fst (resultOf convergedRun))
           (snd (resultOf convergedRun))).
  exact (run_exec _ _ _).
Defined.

Lemma syncHandler_status_update_failure_witness :
  fst (Returns (Some serverTimeout) : outcome (option error),
       [demoCluster; setStatusCurrentReplicas demoCluster 3])
  = Returns (Some serverTimeout)
  ∧ filter isRecorderEvent statusFailureTrace = [].
Proof.
  apply (syncHandler_status_update_failure (H := sampleSettings) "default/demo"
           [demoCluster] statusFailureTrace
           (Returns (Some serverTimeout),
            [demoCluster; setStatusCurrentReplicas demoCluster 3])
           "default" 1%nat (setStatusCurrentReplicas demoCluster 3) serverTimeout).
  - unfold syncHandler, statusFailureTrace. cbn. along_trace.
  - at_index 4%nat.
Defined.

Lemma syncHandler_unset_replicas_witness :
  filter isStatefulSetsUpdate (traceOf unsetRun) = []
  ∧ ∀ reason, fst (resultOf unsetRun) ≠ Panics reason.
Proof.
  apply (syncHandler_unset_replicas (H := sampleSettings) "default/demo" "default" "demo"
           [unsetCluster] (traceOf unsetRun) (resultOf unsetRun) 0%nat unsetCluster).
  - exact (run_exec _ _ _).
  - at_index 0%nat.
  - reflexivity.
  - reflexivity.
Defined.

Lemma syncHandler_nil_replicas_panics_witness :
  resultOf nilRun = (Panics nilDereference, [demoCluster])
  ∧ filter isStatefulSetMutation (traceOf nilRun) = []
  ∧ filter isCassandraClustersUpdate (traceOf nilRun) = []
  ∧ filter isRecorderEvent (traceOf nilRun) = [].
Proof.
  apply (syncHandler_nil_replicas_panics (H := sampleSettings) "default/demo" "default"
           "demo" [demoCluster] (traceOf nilRun) (resultOf nilRun) 0%nat demoCluster
           "default" "web" nilWeb 3%Z).
  - exact (run_exec _ _ _).
  - at_index 0%nat.
  - reflexivity.
  - at_index 3%nat.
  - vm_compute. reflexivity.
  - reflexivity.
  - reflexivity.
Defined.

Lemma syncHandler_status_from_update_witness :
  sentObjects (traceOf driftRun) =
    [setStatusCurrentReplicas demoCluster
       (appsv1.CurrentReplicas
          (appsv1.Status (newStatefulSet (H := sampleSettings) demoCluster)))].
Proof.
  apply (syncHandler_status_from_update (H := sampleSettings) "default/demo" "default"
           "demo" [demoCluster] (traceOf driftRun) (resultOf driftRun) 0%nat demoCluster
           "default" (newStatefulSet (H := sampleSettings) demoCluster)
           (newStatefulSet (H := sampleSettings) demoCluster)).
  - exact (run_exec _ _ _).
  - at_index 0%nat.
  - reflexivity.
  - at_index 5%nat.
Defined.

Lemma syncHandler_calls_concern_cluster_witness :
  Forall (concerns (H := sampleSettings) 0%nat demoCluster) (traceOf createRun).
Proof.
  apply (syncHandler_calls_concern_cluster (H := sampleSettings) "default/demo" "default"
           "demo" [demoCluster] (traceOf createRun) (resultOf createRun)).
  - exact (run_exec _ _ _).
  - at_index 0%nat.
  - reflexivity.
Defined.

Lemma syncHandler_create_then_proceeds_witness :
  newStatefulSet (H := sampleSettings) demoCluster
  = newStatefulSet (H := sampleSettings) demoCluster
  ∧ filter isStatefulSetsUpdate (traceOf createRun) = []
  ∧ sentObjects (traceOf createRun) = [setStatusCurrentReplicas demoCluster 0]
  ∧ ∀ object eventtype reason message,
      In (EvRecorderEvent object eventtype reason message) (traceOf createRun) ->
      reason = SuccessSynced.
Proof.
  apply (syncHandler_create_then_proceeds (H := sampleSettings) "default/demo" "default"
           "demo" [demoCluster] (traceOf createRun) (resultOf createRun) 0%nat demoCluster
           "default" (newStatefulSet (H := sampleSettings) demoCluster)).
  - exact (run_exec _ _ _).
  - at_index 0%nat.
  - reflexivity.
  - at_index 4%nat.
Defined.

Lemma syncHandler_one_event_last_witness :
  filter isRecorderEvent (traceOf convergedRun)
  = [EvRecorderEvent 0%nat corev1.EventTypeNormal SuccessSynced MessageResourceSynced]
  ∧ last (traceOf convergedRun)
    = Some (EvRecorderEvent 0%nat corev1.EventTypeNormal SuccessSynced
              MessageResourceSynced)
  ∧ ((corev1.EventTypeNormal = corev1.EventTypeNormal ∧ SuccessSynced = SuccessSynced
      ∧ fst (resultOf convergedRun) = Returns None)
     ∨ (corev1.EventTypeNormal = corev1.EventTypeWarning
        ∧ SuccessSynced = ErrResourceExists
        ∧ ∃ err, fst (resultOf convergedRun) = Returns (Some err))).
Proof.
  apply (syncHandler_one_event_last (H := sampleSettings) "default/demo" [demoCluster]
           (traceOf convergedRun) (resultOf convergedRun) 0%nat corev1.EventTypeNormal
           SuccessSynced MessageResourceSynced).
  - exact (run_exec _ _ _).
  - at_index 5%nat.
Defined.

Lemma syncHandler_nil_result_witness :
  (∃ p, last (traceOf unnamedRun)
        = Some (EvRecorderEvent p corev1.EventTypeNormal SuccessSynced
                  MessageResourceSynced))
  ∨ (filter isDerivedCall (traceOf unnamedRun) = []
     ∧ (∃ err, filter isHandleError (traceOf unnamedRun) = [EvHandleError err])
     ∧ snd (resultOf unnamedRun) = [unnamedCluster]).
Proof.
  apply (syncHandler_nil_result (H := sampleSettings) "default/demo" [unnamedCluster]
           (traceOf unnamedRun) (resultOf unnamedRun)).
  - exact (run_exec _ _ _).
  - reflexivity.
Defined.

Lemma CreateOrUpdateStatefulSet_lookup_error_witness :
  snd (Returns None : outcome (option error), [builtWeb]) = [builtWeb]
  ∧ (IsNotFound (Some (Fake.notFound "web")) = false ->
     fst (Returns None : outcome (option error), [builtWeb])
     = Returns (Some (Fake.notFound "web"))
     ∧ filter isSvcWrite createdTrace = [] ∧ filter isSvcLog createdTrace = [])
  ∧ (IsNotFound (Some (Fake.notFound "web")) = true ->
     ∃ r, filter isSvcWrite createdTrace = [EvStatefulSetsCreateV1beta2 "default" builtWeb r]
          ∧ fst (Returns None : outcome (option error), [builtWeb]) = Returns (err_of r)
          ∧ filter isSvcLog createdTrace = loggedOn r "statefulSet created").
Proof.
  apply (CreateOrUpdateStatefulSet_lookup_error "default" 0%nat [builtWeb] builtWeb
           createdTrace (Returns None, [builtWeb]) "default" "web" (Fake.notFound "web")).
  - reflexivity.
  - cbn. along_trace.
  - at_index 0%nat.
Defined.

Lemma CreateOrUpdateStatefulSet_stored_witness :
  (∃ r, filter isSvcWrite updatedTrace
        = [EvStatefulSetsUpdateV1beta2 "default" (setResourceVersion builtWeb "3") r]
        ∧ Returns None = Returns (err_of r)
        ∧ filter isSvcLog updatedTrace = loggedOn r "statefulSet updated")
  ∧ appsv1.Spec (setResourceVersion builtWeb "3") = appsv1.Spec builtWeb
  ∧ [setResourceVersion builtWeb "3"] !! 0%nat = Some (setResourceVersion builtWeb "3")
  ∧ ∀ q, q ≠ 0%nat -> [setResourceVersion builtWeb "3"] !! q = [builtWeb] !! q.
Proof.
  apply (CreateOrUpdateStatefulSet_stored "default" 0%nat [builtWeb]
           [setResourceVersion builtWeb "3"] builtWeb updatedTrace (Returns None)
           "default" "web" foreignWeb).
  - reflexivity.
  - cbn. along_trace.
  - at_index 0%nat.
Defined.

Lemma EnsureStatefulset_updates_any_stored_witness :
  (∃ r t', updatedTrace = EvStatefulSetsGet "default" "web" r :: t')
  ∧ (List.length (filter isSvcWrite updatedTrace) <= 1)%nat
  ∧ (∀ ns name stored,
       In (EvStatefulSetsGet ns name (Ok stored)) updatedTrace ->
       ∃ r, filter isSvcWrite updatedTrace =
              [EvStatefulSetsUpdateV1beta2 "default"
                 (setResourceVersion (newStatefulSet (H := sampleSettings) demoCluster)
                    (metav1.ResourceVersion (appsv1.StatefulSet_ObjectMeta stored))) r])
  ∧ ∀ q obj, [foreignWeb] !! q = Some obj ->
             [foreignWeb; setResourceVersion builtWeb "3"] !! q = Some obj.
Proof.
  apply (EnsureStatefulset_updates_any_stored (H := sampleSettings) demoCluster
           [foreignWeb] [foreignWeb; setResourceVersion builtWeb "3"] updatedTrace
           (Returns None)).
  cbn. along_trace.
Defined.

Lemma Run_workers_witness :
  (twoWorkersTrace =
     [ EvGlogInfo "Starting CassandraCluster controller";
       EvGlogInfo "Waiting for informer caches to sync";
       EvWaitForCacheSync false;
       EvWorkqueueShutDown; EvHandleCrash ]
   ∧ (None : option error) = Some (errorString "failed to wait for caches to sync"))
  ∨ (twoWorkersTrace =
       ([ EvGlogInfo "Starting CassandraCluster controller";
          EvGlogInfo "Waiting for informer caches to sync";
          EvWaitForCacheSync true;
          EvGlogInfo "Starting workers" ]
        ++ repeat EvGoWaitUntilRunWorker (Z.to_nat 2)
        ++ [ EvGlogInfo "Started workers";
             EvReceiveStopCh;
             EvGlogInfo "Shutting down workers";
             EvWorkqueueShutDown; EvHandleCrash ])%list
     ∧ (None : option error) = None
     ∧ List.length (filter isWorkerStart twoWorkersTrace) = Z.to_nat 2
     ∧ ((2 <= 0)%Z -> filter isWorkerStart twoWorkersTrace = [])).
Proof.
  apply (Run_workers 2 twoWorkersTrace None).
  cbn. along_trace.
Defined.
